(** * Forgotten Girl orchestrator: a shallow embedding of [app/orchestrator.py]

    The development follows the Python sources module by module:
    [hashlib] (the SHA-256 digest the seeds are drawn from), [app/models.py],
    [app/config.py], [app/content.py] and [app/orchestrator.py].

    Modelling conventions.
    - Python [int] is [Z]; Python [float] is idealised as an exact rational
      [Q] (no rounding, no NaN); [str] is [string], holding the UTF-8 bytes.
    - [Optional[T]] is [option T]; a [Dict[str, int]] is a [gmap string Z].
    - Catalog records ([Dict[str, Any]] loaded from JSON) are records with one
      optional field per key the orchestrator reads, so that every
      [d.get(key, default)] of the source keeps its own default.
    - The session state is mutated in place by the source; here every
      operation takes the state and returns the new one.  An operation that
      can raise returns the state reached when the exception left it together
      with the exception.
    - [uuid.uuid4()] is an explicit argument of the operations that draw one. *)

From Stdlib Require Import ZArith QArith Qminmax String Ascii DecimalString List Lia Lqa.
From Stdlib Require Import Init.Byte.
From stdpp Require Import base option gmap strings list fin_maps.

Open Scope Z_scope.

(** ** Python built-ins used by the source *)

Module Py.

(** [str(n)] for an [int]. *)
Definition str_int (n : Z) : string := NilZero.string_of_int (Z.to_int n).

(** [s.encode("utf-8")]: strings already hold their UTF-8 bytes. *)
Definition encode (s : string) : list byte := String.list_byte_of_string s.

(** ["sep".join(parts)]. *)
Fixpoint join (sep : string) (parts : list string) : string :=
  match parts with
  | [] => EmptyString
  | [p] => p
  | p :: rest => String.append p (String.append sep (join sep rest))
  end.

(** Truthiness of a [str] and of an [int]. *)
Definition truthy_str (s : string) : bool :=
  match s with EmptyString => false | _ => true end.
Definition truthy_int (n : Z) : bool := negb (n =? 0).

(** [x or ""] for an [Optional[str]]. *)
Definition or_empty (x : option string) : string :=
  match x with
  | Some s => if truthy_str s then s else EmptyString
  | None => EmptyString
  end.

(** Comparisons on floats (rationals here). *)
Definition Qleb (a b : Q) : bool := Qle_bool a b.
Definition Qltb (a b : Q) : bool := negb (Qle_bool b a).

(** [min(a, b)]: the first argument unless the second is strictly less. *)
Definition min2 (a b : Q) : Q := if Qltb b a then b else a.
Definition min2Z (a b : Z) : Z := if b <? a then b else a.

(** [max(a, b)]: the first argument unless the second is strictly more. *)
Definition max2 (a b : Q) : Q := if Qltb a b then b else a.

(** [sum(xs)] over floats. *)
Definition sum (xs : list Q) : Q := fold_left Qplus xs 0%Q.

(** [max(xs, key=k)] as a position: the index of the first element whose
    key is not exceeded by any later one; [None] stands for the
    [ValueError] on an empty sequence.  The running best is replaced only
    by a strictly larger key, as CPython does. *)
Fixpoint argmax_from {A} (key : A -> Q) (best_i : nat) (best : A)
    (i : nat) (xs : list A) : nat :=
  match xs with
  | [] => best_i
  | x :: rest =>
      if Qltb (key best) (key x)
      then argmax_from key i x (S i) rest
      else argmax_from key best_i best (S i) rest
  end.

Definition argmax {A} (key : A -> Q) (xs : list A) : option nat :=
  match xs with
  | [] => None
  | x :: rest => Some (argmax_from key 0%nat x 1%nat rest)
  end.

Definition max_by {A} (key : A -> Q) (xs : list A) : option A :=
  match argmax key xs with
  | Some i => xs !! i
  | None => None
  end.

(** [xs[i]] with Python's negative indices; [None] is [IndexError]. *)
Definition index {A} (xs : list A) (i : Z) : option A :=
  let n := Z.of_nat (length xs) in
  if (0 <=? i) && (i <? n) then xs !! Z.to_nat i
  else if (- n <=? i) && (i <? 0) then xs !! Z.to_nat (n + i)
  else None.

(** Exceptions the modelled code can raise, and the result of a call. *)
Inductive exn : Type := ValidationError | IndexError.

Inductive outcome (A : Type) : Type :=
| Return (a : A)
| Raise (e : exn).

End Py.

Arguments Py.Return {A} a.
Arguments Py.Raise {A} e.

(** ** hashlib.sha256 *)

Module Hashlib.

Definition mask32 (x : Z) : Z := x mod 4294967296.
Definition add32 (x y : Z) : Z := mask32 (x + y).
Definition rotr (n x : Z) : Z :=
  Z.lor (Z.shiftr x n) (mask32 (Z.shiftl x (32 - n))).
Definition not32 (x : Z) : Z := 4294967295 - x.

Definition ch (x y z : Z) : Z := Z.lxor (Z.land x y) (Z.land (not32 x) z).
Definition maj (x y z : Z) : Z :=
  Z.lxor (Z.lxor (Z.land x y) (Z.land x z)) (Z.land y z).
Definition big_sigma0 (x : Z) : Z :=
  Z.lxor (Z.lxor (rotr 2 x) (rotr 13 x)) (rotr 22 x).
Definition big_sigma1 (x : Z) : Z :=
  Z.lxor (Z.lxor (rotr 6 x) (rotr 11 x)) (rotr 25 x).
Definition small_sigma0 (x : Z) : Z :=
  Z.lxor (Z.lxor (rotr 7 x) (rotr 18 x)) (Z.shiftr x 3).
Definition small_sigma1 (x : Z) : Z :=
  Z.lxor (Z.lxor (rotr 17 x) (rotr 19 x)) (Z.shiftr x 10).

(** Round constants and initial chaining value, in decimal. *)
Definition round_constants : list Z :=
  [1116352408; 1899447441; 3049323471; 3921009573; 961987163; 1508970993;
   2453635748; 2870763221; 3624381080; 310598401; 607225278; 1426881987;
   1925078388; 2162078206; 2614888103; 3248222580; 3835390401; 4022224774;
   264347078; 604807628; 770255983; 1249150122; 1555081692; 1996064986;
   2554220882; 2821834349; 2952996808; 3210313671; 3336571891; 3584528711;
   113926993; 338241895; 666307205; 773529912; 1294757372; 1396182291;
   1695183700; 1986661051; 2177026350; 2456956037; 2730485921; 2820302411;
   3259730800; 3345764771; 3516065817; 3600352804; 4094571909; 275423344;
   430227734; 506948616; 659060556; 883997877; 958139571; 1322822218;
   1537002063; 1747873779; 1955562222; 2024104815; 2227730452; 2361852424;
   2428436474; 2756734187; 3204031479; 3329325298].

Definition initial_chain : list Z :=
  [1779033703; 3144134277; 1013904242; 2773480762;
   1359893119; 2600822924; 528734635; 1541459225].

(** Big-endian encoding of [x] on [n] bytes, and decoding. *)
Fixpoint be_bytes (n : nat) (x : Z) : list Z :=
  match n with
  | O => []
  | S k => (Z.shiftr x (8 * Z.of_nat k)) mod 256 :: be_bytes k x
  end.

Definition from_be (bs : list Z) : Z :=
  fold_left (fun acc b => acc * 256 + b) bs 0.

(** Padding: a 1 bit, zeros up to 56 mod 64, the bit length on 8 bytes. *)
Definition pad (msg : list Z) : list Z :=
  let len := Z.of_nat (length msg) in
  let zeros := Z.to_nat ((55 - len) mod 64) in
  msg ++ 128 :: repeat 0 zeros ++ be_bytes 8 (8 * len).

Fixpoint words (fuel : nat) (bs : list Z) : list Z :=
  match fuel, bs with
  | S k, b0 :: b1 :: b2 :: b3 :: rest => from_be [b0; b1; b2; b3] :: words k rest
  | _, _ => []
  end.

(** Message schedule, most recent word first. *)
Fixpoint extend_schedule (n : nat) (rev_w : list Z) : list Z :=
  match n with
  | O => rev_w
  | S k =>
      let at_ i := nth i rev_w 0 in
      let wt := add32 (add32 (small_sigma1 (at_ 1%nat)) (at_ 6%nat))
                      (add32 (small_sigma0 (at_ 14%nat)) (at_ 15%nat)) in
      extend_schedule k (wt :: rev_w)
  end.

Definition schedule (block : list Z) : list Z :=
  rev (extend_schedule 48 (rev block)).

Record regs := Regs { ra : Z; rb : Z; rc : Z; rd : Z; re : Z; rf : Z; rg : Z; rh : Z }.

Definition round (r : regs) (kw : Z * Z) : regs :=
  let t1 := add32 (add32 (add32 (rh r) (big_sigma1 (re r)))
                         (add32 (ch (re r) (rf r) (rg r)) (fst kw))) (snd kw) in
  let t2 := add32 (big_sigma0 (ra r)) (maj (ra r) (rb r) (rc r)) in
  Regs (add32 t1 t2) (ra r) (rb r) (rc r) (add32 (rd r) t1) (re r) (rf r) (rg r).

Definition regs_of (h : list Z) : regs :=
  let at_ i := nth i h 0 in
  Regs (at_ 0%nat) (at_ 1%nat) (at_ 2%nat) (at_ 3%nat)
       (at_ 4%nat) (at_ 5%nat) (at_ 6%nat) (at_ 7%nat).

Definition list_of (r : regs) : list Z :=
  [ra r; rb r; rc r; rd r; re r; rf r; rg r; rh r].

Definition compress (h : list Z) (block : list Z) : list Z :=
  let r := fold_left round (combine round_constants (schedule block)) (regs_of h) in
  zip_with add32 h (list_of r).

Fixpoint blocks (fuel : nat) (ws : list Z) : list (list Z) :=
  match fuel with
  | O => []
  | S k =>
      match ws with
      | [] => []
      | _ => firstn 16 ws :: blocks k (skipn 16 ws)
      end
  end.

(** [hashlib.sha256(data).digest()], as 32 byte values. *)
Definition sha256 (data : list byte) : list Z :=
  let padded := pad (map (fun b => Z.of_N (Byte.to_N b)) data) in
  let ws := words (length padded) padded in
  let h := fold_left compress (blocks (length ws) ws) initial_chain in
  flat_map (be_bytes 4) h.

(** [.hexdigest()]: two lowercase hexadecimal digits per byte. *)
Definition hex_digit (d : Z) : ascii :=
  if d <? 10 then ascii_of_nat (Z.to_nat (48 + d))
  else ascii_of_nat (Z.to_nat (87 + d)).

Definition hexdigest (digest : list Z) : string :=
  string_of_list_ascii
    (flat_map (fun b => [hex_digit (b / 16); hex_digit (b mod 16)]) digest).

(** [int(s, 16)] on a string of lowercase hexadecimal digits. *)
Definition hex_value (c : ascii) : Z :=
  let n := Z.of_nat (nat_of_ascii c) in
  if n <? 58 then n - 48 else n - 87.

Definition int_of_hex (s : string) : Z :=
  fold_left (fun acc c => acc * 16 + hex_value c) (list_ascii_of_string s) 0.

(** [int.from_bytes(bs, "big")]. *)
Definition int_from_bytes_big (bs : list Z) : Z := from_be bs.

End Hashlib.

(** ** app/models.py *)

(** An opaque [Any] payload (the orchestrator never looks inside one). *)
#[warnings="-register-all"] Inductive Any : Type :=
| ANone
| ABool (b : bool)
| AInt (n : Z)
| AFloat (q : Q)
| AStr (s : string)
| AList (items : list Any)
| ADict (entries : list (string * Any)).

Inductive GamePhase : Type := RUNNING | RUN_END | FINAL_END | ENDED.

Module TriggerState.
Record t := mk {
  exposures : Z;
  p0 : Q;
  dp : Q;
  p_max : Q;
  last_check_day : option Z;
  last_check_stage : option string;
  cooldown_until_day : Z }.

Definition set_exposures (v : Z) (ts : t) : t :=
  mk v (p0 ts) (dp ts) (p_max ts) (last_check_day ts) (last_check_stage ts)
     (cooldown_until_day ts).
Definition set_last_check_day (v : option Z) (ts : t) : t :=
  mk (exposures ts) (p0 ts) (dp ts) (p_max ts) v (last_check_stage ts)
     (cooldown_until_day ts).
Definition set_last_check_stage (v : option string) (ts : t) : t :=
  mk (exposures ts) (p0 ts) (dp ts) (p_max ts) (last_check_day ts) v
     (cooldown_until_day ts).
End TriggerState.

Module Trigger.
Record t := mk {
  kind : string;
  value : string;
  meta : gmap string Any }.
End Trigger.

Module Fragment.
Record t := mk {
  fragment_id : string;
  version : Z;
  day_created : Z;
  run_created : Z;
  anchor : string;
  emotion_tag : string;
  salience_score : Q;
  reveal_level : Z;
  trigger : Trigger.t;
  trigger_state : TriggerState.t;
  one_shot : bool;
  consumed : bool;
  reward : gmap string Any;
  meta : gmap string Any }.

Definition set_trigger_state (v : TriggerState.t) (f : t) : t :=
  mk (fragment_id f) (version f) (day_created f) (run_created f) (anchor f)
     (emotion_tag f) (salience_score f) (reveal_level f) (trigger f) v
     (one_shot f) (consumed f) (reward f) (meta f).
Definition set_consumed (v : bool) (f : t) : t :=
  mk (fragment_id f) (version f) (day_created f) (run_created f) (anchor f)
     (emotion_tag f) (salience_score f) (reveal_level f) (trigger f)
     (trigger_state f) (one_shot f) v (reward f) (meta f).
End Fragment.

Module FragmentCandidate.
Record t := mk {
  anchor : string;
  emotion_tag : string;
  score : Q;
  reveal_level : Z;
  trigger_hint : gmap string string }.
End FragmentCandidate.

Module ProactiveState.
Record t := mk {
  hook_exposures : gmap string Z;
  hook_cooldowns : gmap string Z }.
End ProactiveState.

Module Resources.
Record t := mk {
  ap : Z;
  chat_turns : Z;
  key_q : Z;
  npc_initiative : Z }.

Definition set_ap (v : Z) (r : t) : t :=
  mk v (chat_turns r) (key_q r) (npc_initiative r).
Definition set_chat_turns (v : Z) (r : t) : t :=
  mk (ap r) v (key_q r) (npc_initiative r).
Definition set_npc_initiative (v : Z) (r : t) : t :=
  mk (ap r) (chat_turns r) (key_q r) v.

(** The constructor applied to a mapping unpacked as keyword arguments:
    every field is required and has no default; keys that are not fields
    are ignored. *)
Definition init (mapping : gmap string Z) : Py.outcome t :=
  match mapping !! "ap", mapping !! "chat_turns",
        mapping !! "key_q", mapping !! "npc_initiative" with
  | Some a, Some c, Some k, Some n => Py.Return (mk a c k n)
  | _, _, _, _ => Py.Raise Py.ValidationError
  end.
End Resources.

Module Caps.
Record t := mk {
  daily_fragment_cap : Z;
  daily_proactive_cap : Z }.

(** The constructor applied to an unpacked mapping: both fields are
    required. *)
Definition init (mapping : gmap string Z) : Py.outcome t :=
  match mapping !! "daily_fragment_cap", mapping !! "daily_proactive_cap" with
  | Some f, Some p => Py.Return (mk f p)
  | _, _ => Py.Raise Py.ValidationError
  end.
End Caps.

Module Stats.
Record t := mk {
  affection : Z;
  trust : Z;
  stress : Z;
  clarity : Z }.
Definition default : t := mk 0 0 0 0.
End Stats.

Module CurrentContext.
Record t := mk {
  event_id : option string;
  location : option string;
  time_slot : option string;
  stage_id : option string }.
Definition default : t := mk None None None None.
Definition set_event_id (v : option string) (c : t) : t :=
  mk v (location c) (time_slot c) (stage_id c).
End CurrentContext.

Module Message.
Record t := mk {
  role : string;
  content : string;
  kind : string;
  options : list string }.
End Message.

(** One entry of [trace_log].  The source stores a dict whose subject key is
    ["fragment_id"] for a fragment roll and ["hook_id"] for a proactive roll;
    [kind] tells the two apart and [subject_id] holds that id. *)
Module TraceEntry.
Inductive roll_kind := fragment_roll | proactive_roll.
Record t := mk {
  kind : roll_kind;
  subject_id : string;
  probability : Q;
  roll : Q;
  success : bool;
  exposures : Z;
  stage_id : string }.
End TraceEntry.

Module GameState.
Record t := mk {
  session_id : string;
  state_version : Z;
  game_phase : GamePhase;
  run_index : Z;
  max_runs : Z;
  day_index : Z;
  run_seed : Z;
  resources : Resources.t;
  caps : Caps.t;
  stats : Stats.t;
  current_context : CurrentContext.t;
  fragments_active : list Fragment.t;
  deep_fragments : list Fragment.t;
  fragment_candidates_today : list FragmentCandidate.t;
  proactive_state : ProactiveState.t;
  pending_npc_messages : list Message.t;
  route_flags_local : list string;
  route_flags_global : list string;
  meta_progress : gmap string Any;
  inventory : gmap string Z;
  history_refs : gmap string Any;
  trace_log : list TraceEntry.t;
  daily_fragment_count : Z;
  daily_proactive_count : Z;
  event_history : list string }.

Definition set_game_phase (v : GamePhase) (s : t) : t :=
  mk (session_id s) (state_version s) v (run_index s) (max_runs s)
     (day_index s) (run_seed s) (resources s) (caps s) (stats s)
     (current_context s) (fragments_active s) (deep_fragments s)
     (fragment_candidates_today s) (proactive_state s)
     (pending_npc_messages s) (route_flags_local s) (route_flags_global s)
     (meta_progress s) (inventory s) (history_refs s) (trace_log s)
     (daily_fragment_count s) (daily_proactive_count s) (event_history s).
Definition set_run_index (v : Z) (s : t) : t :=
  mk (session_id s) (state_version s) (game_phase s) v (max_runs s)
     (day_index s) (run_seed s) (resources s) (caps s) (stats s)
     (current_context s) (fragments_active s) (deep_fragments s)
     (fragment_candidates_today s) (proactive_state s)
     (pending_npc_messages s) (route_flags_local s) (route_flags_global s)
     (meta_progress s) (inventory s) (history_refs s) (trace_log s)
     (daily_fragment_count s) (daily_proactive_count s) (event_history s).
Definition set_day_index (v : Z) (s : t) : t :=
  mk (session_id s) (state_version s) (game_phase s) (run_index s)
     (max_runs s) v (run_seed s) (resources s) (caps s) (stats s)
     (current_context s) (fragments_active s) (deep_fragments s)
     (fragment_candidates_today s) (proactive_state s)
     (pending_npc_messages s) (route_flags_local s) (route_flags_global s)
     (meta_progress s) (inventory s) (history_refs s) (trace_log s)
     (daily_fragment_count s) (daily_proactive_count s) (event_history s).
Definition set_run_seed (v : Z) (s : t) : t :=
  mk (session_id s) (state_version s) (game_phase s) (run_index s)
     (max_runs s) (day_index s) v (resources s) (caps s) (stats s)
     (current_context s) (fragments_active s) (deep_fragments s)
     (fragment_candidates_today s) (proactive_state s)
     (pending_npc_messages s) (route_flags_local s) (route_flags_global s)
     (meta_progress s) (inventory s) (history_refs s) (trace_log s)
     (daily_fragment_count s) (daily_proactive_count s) (event_history s).
Definition set_resources (v : Resources.t) (s : t) : t :=
  mk (session_id s) (state_version s) (game_phase s) (run_index s)
     (max_runs s) (day_index s) (run_seed s) v (caps s) (stats s)
     (current_context s) (fragments_active s) (deep_fragments s)
     (fragment_candidates_today s) (proactive_state s)
     (pending_npc_messages s) (route_flags_local s) (route_flags_global s)
     (meta_progress s) (inventory s) (history_refs s) (trace_log s)
     (daily_fragment_count s) (daily_proactive_count s) (event_history s).
Definition set_current_context (v : CurrentContext.t) (s : t) : t :=
  mk (session_id s) (state_version s) (game_phase s) (run_index s)
     (max_runs s) (day_index s) (run_seed s) (resources s) (caps s)
     (stats s) v (fragments_active s) (deep_fragments s)
     (fragment_candidates_today s) (proactive_state s)
     (pending_npc_messages s) (route_flags_local s) (route_flags_global s)
     (meta_progress s) (inventory s) (history_refs s) (trace_log s)
     (daily_fragment_count s) (daily_proactive_count s) (event_history s).
Definition set_fragments_active (v : list Fragment.t) (s : t) : t :=
  mk (session_id s) (state_version s) (game_phase s) (run_index s)
     (max_runs s) (day_index s) (run_seed s) (resources s) (caps s)
     (stats s) (current_context s) v (deep_fragments s)
     (fragment_candidates_today s) (proactive_state s)
     (pending_npc_messages s) (route_flags_local s) (route_flags_global s)
     (meta_progress s) (inventory s) (history_refs s) (trace_log s)
     (daily_fragment_count s) (daily_proactive_count s) (event_history s).
Definition set_deep_fragments (v : list Fragment.t) (s : t) : t :=
  mk (session_id s) (state_version s) (game_phase s) (run_index s)
     (max_runs s) (day_index s) (run_seed s) (resources s) (caps s)
     (stats s) (current_context s) (fragments_active s) v
     (fragment_candidates_today s) (proactive_state s)
     (pending_npc_messages s) (route_flags_local s) (route_flags_global s)
     (meta_progress s) (inventory s) (history_refs s) (trace_log s)
     (daily_fragment_count s) (daily_proactive_count s) (event_history s).
Definition set_fragment_candidates_today (v : list FragmentCandidate.t) (s : t) : t :=
  mk (session_id s) (state_version s) (game_phase s) (run_index s)
     (max_runs s) (day_index s) (run_seed s) (resources s) (caps s)
     (stats s) (current_context s) (fragments_active s) (deep_fragments s) v
     (proactive_state s) (pending_npc_messages s) (route_flags_local s)
     (route_flags_global s) (meta_progress s) (inventory s) (history_refs s)
     (trace_log s) (daily_fragment_count s) (daily_proactive_count s)
     (event_history s).
Definition set_proactive_state (v : ProactiveState.t) (s : t) : t :=
  mk (session_id s) (state_version s) (game_phase s) (run_index s)
     (max_runs s) (day_index s) (run_seed s) (resources s) (caps s)
     (stats s) (current_context s) (fragments_active s) (deep_fragments s)
     (fragment_candidates_today s) v (pending_npc_messages s)
     (route_flags_local s) (route_flags_global s) (meta_progress s)
     (inventory s) (history_refs s) (trace_log s) (daily_fragment_count s)
     (daily_proactive_count s) (event_history s).
Definition set_pending_npc_messages (v : list Message.t) (s : t) : t :=
  mk (session_id s) (state_version s) (game_phase s) (run_index s)
     (max_runs s) (day_index s) (run_seed s) (resources s) (caps s)
     (stats s) (current_context s) (fragments_active s) (deep_fragments s)
     (fragment_candidates_today s) (proactive_state s) v
     (route_flags_local s) (route_flags_global s) (meta_progress s)
     (inventory s) (history_refs s) (trace_log s) (daily_fragment_count s)
     (daily_proactive_count s) (event_history s).
Definition set_trace_log (v : list TraceEntry.t) (s : t) : t :=
  mk (session_id s) (state_version s) (game_phase s) (run_index s)
     (max_runs s) (day_index s) (run_seed s) (resources s) (caps s)
     (stats s) (current_context s) (fragments_active s) (deep_fragments s)
     (fragment_candidates_today s) (proactive_state s)
     (pending_npc_messages s) (route_flags_local s) (route_flags_global s)
     (meta_progress s) (inventory s) (history_refs s) v
     (daily_fragment_count s) (daily_proactive_count s) (event_history s).
Definition set_daily_fragment_count (v : Z) (s : t) : t :=
  mk (session_id s) (state_version s) (game_phase s) (run_index s)
     (max_runs s) (day_index s) (run_seed s) (resources s) (caps s)
     (stats s) (current_context s) (fragments_active s) (deep_fragments s)
     (fragment_candidates_today s) (proactive_state s)
     (pending_npc_messages s) (route_flags_local s) (route_flags_global s)
     (meta_progress s) (inventory s) (history_refs s) (trace_log s) v
     (daily_proactive_count s) (event_history s).
Definition set_daily_proactive_count (v : Z) (s : t) : t :=
  mk (session_id s) (state_version s) (game_phase s) (run_index s)
     (max_runs s) (day_index s) (run_seed s) (resources s) (caps s)
     (stats s) (current_context s) (fragments_active s) (deep_fragments s)
     (fragment_candidates_today s) (proactive_state s)
     (pending_npc_messages s) (route_flags_local s) (route_flags_global s)
     (meta_progress s) (inventory s) (history_refs s) (trace_log s)
     (daily_fragment_count s) v (event_history s).
Definition set_event_history (v : list string) (s : t) : t :=
  mk (session_id s) (state_version s) (game_phase s) (run_index s)
     (max_runs s) (day_index s) (run_seed s) (resources s) (caps s)
     (stats s) (current_context s) (fragments_active s) (deep_fragments s)
     (fragment_candidates_today s) (proactive_state s)
     (pending_npc_messages s) (route_flags_local s) (route_flags_global s)
     (meta_progress s) (inventory s) (history_refs s) (trace_log s)
     (daily_fragment_count s) (daily_proactive_count s) v.
End GameState.

Module ApiResponse.
Record t := mk {
  state : GameState.t;
  messages : list Message.t;
  ui_hints : list string;
  trace_id : string }.
End ApiResponse.

(** ** app/config.py *)

Module ConfigBundle.
Record t := mk {
  run : gmap string Z;
  resources : gmap string Z;
  caps : gmap string Z;
  pity : gmap string (gmap string Q) }.
End ConfigBundle.

(** ** app/content.py and the catalog records the orchestrator reads *)

Module Conditions.
Record t := mk {
  location : option string;
  time_slot : option string;
  min_day : option Z;
  max_day : option Z }.
Definition empty : t := mk None None None None.
End Conditions.

Module Payload.
Record t := mk {
  text : option string;
  options : option (list string) }.
Definition empty : t := mk None None.
End Payload.

Module Hook.
Record t := mk {
  hook_id : option string;
  kind : option string;
  conditions : option Conditions.t;
  base_weight : option Q;
  p0 : option Q;
  dp : option Q;
  p_max : option Q;
  cooldown_days : option Z;
  payload_template : option Payload.t }.
End Hook.

Module FragmentHook.
Record t := mk {
  anchor : option string;
  emotion_tag : option string;
  base_score : option Q;
  reveal_level : option Z;
  trigger_hint : option (gmap string string) }.
End FragmentHook.

Module ChoicePoint.
Record t := mk { options : option (list string) }.
End ChoicePoint.

Module Event.
Record t := mk {
  event_id : option string;
  location : option string;
  time_slot : option string;
  base_weight : option Q;
  intro : option string;
  outro : option string;
  choice_points : option (list ChoicePoint.t);
  fragment_hooks : option (list FragmentHook.t) }.
Definition set_base_weight (v : option Q) (e : t) : t :=
  mk (event_id e) (location e) (time_slot e) v (intro e) (outro e)
     (choice_points e) (fragment_hooks e).
End Event.

Module Ending.
Record t := mk { scenes : option (list string) }.
End Ending.

Module ContentBundle.
Record t := mk {
  events : list Event.t;
  hooks : list Hook.t;
  endings : list Ending.t }.
End ContentBundle.

(** ** app/orchestrator.py *)

Module RollResult.
Record t := mk {
  success : bool;
  roll : Q;
  probability : Q }.
End RollResult.

(** The values [stable_seed] is called with are strings and integers. *)
Inductive part : Type := PStr (s : string) | PInt (n : Z).

Definition str (p : part) : string :=
  match p with
  | PStr s => s
  | PInt n => Py.str_int n
  end.

Definition stable_seed (parts : list part) : Z :=
  let raw := Py.join "|" (map str parts) in
  let digest := Hashlib.hexdigest (Hashlib.sha256 (Py.encode raw)) in
  Hashlib.int_of_hex (String.substring 0 16 digest).

Definition roll_with_pity (p0 dp p_max : Q) (exposures : Z) (seed : Z) : RollResult.t :=
  let probability := Py.min2 p_max (p0 + inject_Z exposures * dp)%Q in
  let rng := Hashlib.sha256 (Py.encode (Py.str_int seed)) in
  let roll := (Hashlib.int_from_bytes_big (firstn 8 rng) # 18446744073709551616)%Q in
  RollResult.mk (Py.Qleb roll probability) roll probability.

Section WeightedSelector.
Context {A : Type} (base_weight : A -> option Q).

(** [item.get("base_weight", 1.0)]. *)
Definition weight_of (item : A) : Q := default 1%Q (base_weight item).

(** The [for] loop of [select_weighted]: [None] when it runs to the end. *)
Fixpoint select_scan (threshold cumulative : Q) (items : list A) : option A :=
  match items with
  | [] => None
  | item :: rest =>
      let cumulative := (cumulative + weight_of item)%Q in
      if Py.Qleb threshold cumulative then Some item
      else select_scan threshold cumulative rest
  end.

Definition select_weighted (items : list A) (seed : Z) : option A :=
  match items with
  | [] => None
  | first :: _ =>
      let total := Py.sum (map weight_of items) in
      if Py.Qleb total 0 then Some first
      else
        let rng_value := ((seed mod 10000) # 10000)%Q in
        let threshold := (rng_value * total)%Q in
        match select_scan threshold 0 items with
        | Some item => Some item
        | None => last items
        end
  end.
End WeightedSelector.

Definition warning (text : string) : Message.t :=
  Message.mk "system" text "warning" [].

Definition hook_matches_conditions (hook : Hook.t) (state : GameState.t) : bool :=
  let conditions := default Conditions.empty (Hook.conditions hook) in
  let ctx := GameState.current_context state in
  let differs (wanted : string) (actual : option string) :=
    match actual with
    | Some a => negb (String.eqb wanted a)
    | None => true
    end in
  if match Conditions.location conditions with
     | Some location =>
         Py.truthy_str location && differs location (CurrentContext.location ctx)
     | None => false
     end then false
  else if match Conditions.time_slot conditions with
     | Some time_slot =>
         Py.truthy_str time_slot && differs time_slot (CurrentContext.time_slot ctx)
     | None => false
     end then false
  else if match Conditions.min_day conditions with
     | Some min_day => Py.truthy_int min_day && (GameState.day_index state <? min_day)
     | None => false
     end then false
  else if match Conditions.max_day conditions with
     | Some max_day => Py.truthy_int max_day && (max_day <? GameState.day_index state)
     | None => false
     end then false
  else true.

Definition hook_exposure_of (state : GameState.t) (hook_id : string) : Z :=
  default 0 (ProactiveState.hook_exposures (GameState.proactive_state state) !! hook_id).

Definition hook_cooldown_of (state : GameState.t) (hook_id : string) : Z :=
  default 0 (ProactiveState.hook_cooldowns (GameState.proactive_state state) !! hook_id).

(** The [for] loop of [select_hook] over the [(hook, weight)] pairs. *)
Fixpoint hook_scan (threshold cumulative : Q) (weighted : list (Hook.t * Q))
    : option Hook.t :=
  match weighted with
  | [] => None
  | (hook, weight) :: rest =>
      let cumulative := (cumulative + weight)%Q in
      if Py.Qleb threshold cumulative then Some hook
      else hook_scan threshold cumulative rest
  end.

Definition select_hook (eligible : list Hook.t) (state : GameState.t)
    (stage_id : string) : option Hook.t :=
  let weighted :=
    map (fun hook =>
           let hook_id := default EmptyString (Hook.hook_id hook) in
           let exposure := hook_exposure_of state hook_id in
           let weight := (default 1 (Hook.base_weight hook)
                          + inject_Z exposure * (1 # 5))%Q in
           (hook, Py.max2 weight (1 # 10))) eligible in
  let total := Py.sum (map snd weighted) in
  if Py.Qleb total 0 then None
  else
    let seed := stable_seed [PStr (GameState.session_id state);
                             PInt (GameState.run_index state);
                             PInt (GameState.day_index state);
                             PStr stage_id; PStr "hook_select"] in
    let rng_value := ((seed mod 10000) # 10000)%Q in
    let threshold := (rng_value * total)%Q in
    match hook_scan threshold 0 weighted with
    | Some hook => Some hook
    | None => fst <$> last weighted
    end.

Definition select_event (content : ContentBundle.t) (location time_slot : string)
    (state : GameState.t) : option Event.t :=
  let is_ (wanted : string) (actual : option string) :=
    match actual with
    | Some a => String.eqb a wanted
    | None => false
    end in
  let candidates :=
    List.filter (fun event => is_ location (Event.location event)
                              && is_ time_slot (Event.time_slot event))
                (ContentBundle.events content) in
  let last_event_id := last (GameState.event_history state) in
  let weighted :=
    map (fun event =>
           let weight := default 1%Q (Event.base_weight event) in
           let repeated :=
             match last_event_id, Event.event_id event with
             | Some l, Some e => Py.truthy_str l && String.eqb e l
             | _, _ => false
             end in
           let weight := if repeated then (weight * (1 # 2))%Q else weight in
           Event.set_base_weight (Some weight) event) candidates in
  let seed := stable_seed [PStr (GameState.session_id state);
                           PInt (GameState.run_index state);
                           PInt (GameState.day_index state);
                           PStr location; PStr time_slot] in
  select_weighted Event.base_weight weighted seed.

(** *** Fragment trigger engine *)

Definition fragment_eligible (state : GameState.t) (location : string)
    (fragment : Fragment.t) : bool :=
  negb (Fragment.consumed fragment)
  && String.eqb (Trigger.kind (Fragment.trigger fragment)) "location"
  && String.eqb (Trigger.value (Fragment.trigger fragment)) location
  && (TriggerState.cooldown_until_day (Fragment.trigger_state fragment)
      <=? GameState.day_index state).

(** The list comprehension keeps references to the fragment objects; each is
    paired here with its position in [fragments_active], where the in-place
    mutation of the chosen one is written back. *)
Definition eligible_fragments (state : GameState.t) (location : string)
    : list (nat * Fragment.t) :=
  List.filter (fun p => fragment_eligible state location (snd p))
              (imap pair (GameState.fragments_active state)).

Definition fragment_key (item : Fragment.t) : Q :=
  (Fragment.salience_score item
   + inject_Z (TriggerState.exposures (Fragment.trigger_state item)) * (1 # 10))%Q.

(** [max(eligible, key=...)], with its position; [None] when [eligible] is
    empty (the source returns before calling [max] then). *)
Definition select_fragment (state : GameState.t) (location : string)
    : option (nat * Fragment.t) :=
  Py.max_by (fun p => fragment_key (snd p)) (eligible_fragments state location).

Definition already_checked (ts : TriggerState.t) (day_index : Z) (stage_id : string)
    : bool :=
  match TriggerState.last_check_day ts, TriggerState.last_check_stage ts with
  | Some last_day, Some last_stage =>
      (last_day =? day_index) && String.eqb last_stage stage_id
  | _, _ => false
  end.

Definition micro_lines : list string :=
  ["她短暂失神，像是有什么要浮上来又退回去。";
   "她按住太阳穴，似乎听见极远处的回声。";
   "她呼吸一滞，眼神里有更深的空洞。"]%string.

Definition fragment_seed (state : GameState.t) (stage_id : string)
    (fragment : Fragment.t) : Z :=
  stable_seed [PStr (GameState.session_id state);
               PInt (GameState.run_index state);
               PInt (GameState.day_index state);
               PStr stage_id; PStr (Fragment.fragment_id fragment)].

Definition fragment_trigger_check (state : GameState.t) (location stage_id : string)
    : GameState.t * Py.outcome (option Message.t) :=
  if GameState.daily_fragment_count state
     >=? Caps.daily_fragment_cap (GameState.caps state)
  then (state, Py.Return None)
  else
    match select_fragment state location with
    | None => (state, Py.Return None)
    | Some (i, fragment) =>
        let ts := Fragment.trigger_state fragment in
        if already_checked ts (GameState.day_index state) stage_id
        then (state, Py.Return None)
        else
          let seed := fragment_seed state stage_id fragment in
          let result :=
            roll_with_pity (TriggerState.p0 ts) (TriggerState.dp ts)
                           (TriggerState.p_max ts) (TriggerState.exposures ts) seed in
          let ts := TriggerState.set_last_check_stage (Some stage_id)
                      (TriggerState.set_last_check_day
                         (Some (GameState.day_index state)) ts) in
          let trace_entry :=
            TraceEntry.mk TraceEntry.fragment_roll (Fragment.fragment_id fragment)
                          (RollResult.probability result) (RollResult.roll result)
                          (RollResult.success result) (TriggerState.exposures ts)
                          stage_id in
          let state :=
            GameState.set_trace_log (GameState.trace_log state ++ [trace_entry]) state in
          let write_back (f : Fragment.t) (s : GameState.t) :=
            GameState.set_fragments_active (<[i:=f]> (GameState.fragments_active s)) s in
          if RollResult.success result then
            let fragment :=
              Fragment.set_consumed (Fragment.one_shot fragment)
                (Fragment.set_trigger_state (TriggerState.set_exposures 0 ts) fragment) in
            let state := write_back fragment state in
            let state :=
              GameState.set_daily_fragment_count
                (GameState.daily_fragment_count state + 1) state in
            (state,
             Py.Return (Some (Message.mk "narrator"
               ("她触碰到" ++ Fragment.anchor fragment ++ "时，脑海里闪过模糊的画面。")
               "fragment_event" [])))
          else
            let exposures := TriggerState.exposures ts + 1 in
            let fragment :=
              Fragment.set_trigger_state (TriggerState.set_exposures exposures ts)
                                         fragment in
            let state := write_back fragment state in
            let intensity := Py.min2Z exposures 3 in
            match Py.index micro_lines (intensity - 1) with
            | Some line =>
                (state, Py.Return (Some (Message.mk "narrator" line "micro_flashback" [])))
            | None => (state, Py.Raise Py.IndexError)
            end
    end.

(** *** Proactive hook engine *)

Definition hook_eligible (state : GameState.t) (hook : Hook.t) : bool :=
  hook_matches_conditions hook state
  && (hook_cooldown_of state (default EmptyString (Hook.hook_id hook))
      <=? GameState.day_index state).

Definition proactive_message (hook : Hook.t) : Message.t :=
  let payload := default Payload.empty (Hook.payload_template hook) in
  Message.mk "npc"
    (default "她似乎想主动说点什么。"%string (Payload.text payload))
    ("proactive_" ++ default "soft"%string (Hook.kind hook))
    (default [] (Payload.options payload)).

Definition proactive_check (state : GameState.t) (content : ContentBundle.t)
    (stage_id : string) : GameState.t * list Message.t :=
  if GameState.daily_proactive_count state
     >=? Caps.daily_proactive_cap (GameState.caps state)
  then (state, [])
  else if Resources.npc_initiative (GameState.resources state) <=? 0
  then (state, [])
  else
    let eligible := List.filter (hook_eligible state) (ContentBundle.hooks content) in
    match eligible with
    | [] => (state, [])
    | _ =>
        match select_hook eligible state stage_id with
        | None => (state, [])
        | Some hook =>
            let hook_id := default "hook"%string (Hook.hook_id hook) in
            let exposures := hook_exposure_of state hook_id in
            let seed := stable_seed [PStr (GameState.session_id state);
                                     PInt (GameState.run_index state);
                                     PInt (GameState.day_index state);
                                     PStr stage_id; PStr hook_id] in
            let result :=
              roll_with_pity (default (1 # 5)%Q (Hook.p0 hook))
                             (default (1 # 10)%Q (Hook.dp hook))
                             (default (7 # 10)%Q (Hook.p_max hook)) exposures seed in
            let state :=
              GameState.set_trace_log
                (GameState.trace_log state
                 ++ [TraceEntry.mk TraceEntry.proactive_roll hook_id
                       (RollResult.probability result) (RollResult.roll result)
                       (RollResult.success result) exposures stage_id]) state in
            let ps := GameState.proactive_state state in
            if negb (RollResult.success result) then
              (GameState.set_proactive_state
                 (ProactiveState.mk
                    (<[hook_id:=exposures + 1]> (ProactiveState.hook_exposures ps))
                    (ProactiveState.hook_cooldowns ps)) state, [])
            else
              let ps := ProactiveState.mk
                          (<[hook_id:=0]> (ProactiveState.hook_exposures ps))
                          (ProactiveState.hook_cooldowns ps) in
              let ps := ProactiveState.mk
                          (ProactiveState.hook_exposures ps)
                          (<[hook_id:=GameState.day_index state
                                      + default 1 (Hook.cooldown_days hook)]>
                             (ProactiveState.hook_cooldowns ps)) in
              let state := GameState.set_proactive_state ps state in
              let state :=
                GameState.set_resources
                  (Resources.set_npc_initiative
                     (Resources.npc_initiative (GameState.resources state) - 1)
                     (GameState.resources state)) state in
              let state :=
                GameState.set_daily_proactive_count
                  (GameState.daily_proactive_count state + 1) state in
              let state :=
                GameState.set_pending_npc_messages
                  (GameState.pending_npc_messages state ++ [proactive_message hook])
                  state in
              (state, [])
        end
    end.

(** *** Entry points *)

Definition create_initial_state (config : ConfigBundle.t) (session_id : string)
    : Py.outcome GameState.t :=
  match Resources.init (ConfigBundle.resources config) with
  | Py.Raise e => Py.Raise e
  | Py.Return resources =>
      match Caps.init (ConfigBundle.caps config) with
      | Py.Raise e => Py.Raise e
      | Py.Return caps =>
          Py.Return
            (GameState.mk session_id 1 RUNNING 1
               (default 5 (ConfigBundle.run config !! "max_runs")) 1
               (stable_seed [PStr session_id; PStr "run_seed"])
               resources caps Stats.default CurrentContext.default
               [] [] [] (ProactiveState.mk ∅ ∅) [] [] [] ∅ ∅ ∅ [] 0 0 [])
      end
  end.

Definition day_start (state : GameState.t) (config : ConfigBundle.t)
    : GameState.t * Py.outcome (list Message.t) :=
  match Resources.init (ConfigBundle.resources config) with
  | Py.Raise e => (state, Py.Raise e)
  | Py.Return resources =>
      let state := GameState.set_resources resources state in
      let state := GameState.set_daily_fragment_count 0 state in
      let state := GameState.set_daily_proactive_count 0 state in
      let state := GameState.set_current_context CurrentContext.default state in
      (state,
       Py.Return [Message.mk "system"
                    ("第" ++ Py.str_int (GameState.day_index state) ++ "天开始。")
                    "day_start" []])
  end.

Definition candidate_of_hook (hook : FragmentHook.t) : FragmentCandidate.t :=
  FragmentCandidate.mk
    (default EmptyString (FragmentHook.anchor hook))
    (default "neutral"%string (FragmentHook.emotion_tag hook))
    (default (1 # 5)%Q (FragmentHook.base_score hook))
    (default 1 (FragmentHook.reveal_level hook))
    (default ∅ (FragmentHook.trigger_hint hook)).

Definition action_select (state : GameState.t) (content : ContentBundle.t)
    (location time_slot stage_id : string)
    : GameState.t * Py.outcome (list Message.t * list string) :=
  if Resources.ap (GameState.resources state) <=? 0
  then (state, Py.Return ([warning "体力不足，无法行动。"], []))
  else
    let state :=
      GameState.set_resources
        (Resources.set_ap (Resources.ap (GameState.resources state) - 1)
                          (GameState.resources state)) state in
    let state :=
      GameState.set_current_context
        (CurrentContext.mk None (Some location) (Some time_slot) (Some stage_id))
        state in
    match fragment_trigger_check state location stage_id with
    | (state, Py.Raise e) => (state, Py.Raise e)
    | (state, Py.Return fragment_message) =>
        let messages :=
          match fragment_message with
          | Some m => [m]
          | None => []
          end in
        let '(state, messages, ui_hints) :=
          match select_event content location time_slot state with
          | Some event =>
              let state :=
                GameState.set_current_context
                  (CurrentContext.set_event_id (Event.event_id event)
                     (GameState.current_context state)) state in
              let state :=
                match Event.event_id event with
                | Some event_id =>
                    if Py.truthy_str event_id
                    then GameState.set_event_history
                           (GameState.event_history state ++ [event_id]) state
                    else state
                | None => state
                end in
              let messages :=
                messages ++ [Message.mk "narrator"
                               (default EmptyString (Event.intro event))
                               "event_intro" []] in
              let ui_hints :=
                flat_map (fun choice => default [] (ChoicePoint.options choice))
                         (default [] (Event.choice_points event)) in
              let state :=
                match fragment_message with
                | None =>
                    GameState.set_fragment_candidates_today
                      (GameState.fragment_candidates_today state
                       ++ map candidate_of_hook
                            (default [] (Event.fragment_hooks event))) state
                | Some _ => state
                end in
              let messages :=
                messages ++ [Message.mk "narrator"
                               (default EmptyString (Event.outro event))
                               "event_outro" []] in
              (state, messages, ui_hints)
          | None =>
              (state,
               messages ++ [Message.mk "narrator" "这里没有发生特别的事。"
                              "event_fallback" []],
               [])
          end in
        let '(state, proactive_messages) := proactive_check state content stage_id in
        (state, Py.Return (messages ++ proactive_messages, ui_hints))
    end.

Definition chat (state : GameState.t) (text : string) (content : ContentBundle.t)
    (stage_id : string) : GameState.t * list Message.t :=
  if Resources.chat_turns (GameState.resources state) <=? 0
  then (state, [warning "今天聊得够多了。"])
  else
    let state :=
      GameState.set_resources
        (Resources.set_chat_turns
           (Resources.chat_turns (GameState.resources state) - 1)
           (GameState.resources state)) state in
    let state :=
      GameState.set_fragment_candidates_today
        (GameState.fragment_candidates_today state
         ++ [FragmentCandidate.mk "对话" "curious" (3 # 10) 1
               (<["kind":="location"%string]>
                  (<["value":=Py.or_empty
                       (CurrentContext.location (GameState.current_context state))]>
                     ∅))]) state in
    let messages := [Message.mk "npc" "她认真听着，像在拼凑新的线索。" "chat" []] in
    let '(state, proactive_messages) := proactive_check state content stage_id in
    (state, messages ++ proactive_messages).

Definition final_ending (state : GameState.t) (content : ContentBundle.t)
    : list Message.t :=
  let ending :=
    match ContentBundle.endings content with
    | first :: _ => first
    | [] => Ending.mk (Some ["故事落幕。"%string])
    end in
  let scenes := default [] (Ending.scenes ending) in
  map (fun scene => Message.mk "narrator" scene "final_ending" []) scenes.

Definition pick_fragment (state : GameState.t) (config : ConfigBundle.t)
    : option Fragment.t :=
  match Py.max_by FragmentCandidate.score (GameState.fragment_candidates_today state) with
  | None => None
  | Some best =>
      let trigger_hint : gmap string string :=
        if decide (FragmentCandidate.trigger_hint best = ∅)
        then <["kind":="location"%string]>
               (<["value":=Py.or_empty
                    (CurrentContext.location (GameState.current_context state))]> ∅)
        else FragmentCandidate.trigger_hint best in
      let fragment_id :=
        ("fragment_" ++ Py.str_int (GameState.run_index state)
         ++ "_" ++ Py.str_int (GameState.day_index state)
         ++ "_" ++ Py.str_int
                     (Z.of_nat (length (GameState.fragments_active state)) + 1))%string in
      let pity_defaults : gmap string Q :=
        default ∅ (ConfigBundle.pity config !! "fragment") in
      let trigger_state :=
        TriggerState.mk 0
          (default (1 # 5)%Q (pity_defaults !! "p0"))
          (default (3 # 20)%Q (pity_defaults !! "dp"))
          (default (17 # 20)%Q (pity_defaults !! "p_max"))
          None None 0 in
      Some (Fragment.mk fragment_id 1
              (GameState.day_index state) (GameState.run_index state)
              (FragmentCandidate.anchor best) (FragmentCandidate.emotion_tag best)
              (FragmentCandidate.score best) (FragmentCandidate.reveal_level best)
              (Trigger.mk (default "location"%string (trigger_hint !! "kind"))
                          (default EmptyString (trigger_hint !! "value")) ∅)
              trigger_state true false ∅ ∅)
  end.

Definition run_end (state : GameState.t) (config : ConfigBundle.t)
    (content : ContentBundle.t) : GameState.t * list Message.t :=
  let messages :=
    [Message.mk "system"
       ("第" ++ Py.str_int (GameState.run_index state) ++ "轮结束。") "run_end" []] in
  let state :=
    match Py.max_by Fragment.salience_score (GameState.fragments_active state) with
    | Some deep_fragment => GameState.set_deep_fragments [deep_fragment] state
    | None => state
    end in
  let state := GameState.set_fragments_active [] state in
  if GameState.run_index state >=? GameState.max_runs state then
    let state := GameState.set_game_phase FINAL_END state in
    let messages := messages ++ final_ending state content in
    let state := GameState.set_game_phase ENDED state in
    (state, messages)
  else
    let state := GameState.set_run_index (GameState.run_index state + 1) state in
    let state := GameState.set_day_index 1 state in
    let state := GameState.set_game_phase RUNNING state in
    let state :=
      GameState.set_run_seed
        (stable_seed [PStr (GameState.session_id state); PStr "run_seed";
                      PInt (GameState.run_index state)]) state in
    let state := GameState.set_event_history [] state in
    (state, messages).

Definition day_end (state : GameState.t) (config : ConfigBundle.t)
    (content : ContentBundle.t) : GameState.t * list Message.t :=
  let '(state, messages) :=
    match pick_fragment state config with
    | Some fragment =>
        (GameState.set_fragments_active
           (GameState.fragments_active state ++ [fragment]) state,
         [Message.mk "system" "有新的记忆碎片留下。" "fragment_gain" []])
    | None => (state, [])
    end in
  let state := GameState.set_fragment_candidates_today [] state in
  let state := GameState.set_current_context CurrentContext.default state in
  let state := GameState.set_day_index (GameState.day_index state + 1) state in
  if default 7 (ConfigBundle.run config !! "days_per_run") <? GameState.day_index state
  then
    let state := GameState.set_game_phase RUN_END state in
    let '(state, run_messages) := run_end state config content in
    (state, messages ++ run_messages)
  else (state, messages).

Definition build_response (state : GameState.t) (messages : list Message.t)
    (ui_hints : list string) (trace_id : string) : ApiResponse.t :=
  match GameState.pending_npc_messages state with
  | [] => ApiResponse.mk state messages ui_hints trace_id
  | pending =>
      ApiResponse.mk (GameState.set_pending_npc_messages [] state)
                     (messages ++ pending) ui_hints trace_id
  end.


(** * Vocabulary of the statements *)

(** The mapping holds every key a [Resources] (a [Caps]) record requires. *)
Definition complete_resources (mapping : gmap string Z) : Prop :=
  is_Some (mapping !! "ap") /\ is_Some (mapping !! "chat_turns")
  /\ is_Some (mapping !! "key_q") /\ is_Some (mapping !! "npc_initiative").

Definition complete_caps (mapping : gmap string Z) : Prop :=
  is_Some (mapping !! "daily_fragment_cap")
  /\ is_Some (mapping !! "daily_proactive_cap").

Definition is_byte (b : Z) : Prop := 0 <= b < 256.

(** [m], found at position [r] of [l], is the first maximum of [l] for [key]:
    nothing in [l] has a larger key and everything before [r] has a strictly
    smaller one. *)
Definition first_max {A : Type} (key : A -> Q) (l : list A) (r : nat) (m : A) : Prop :=
  l !! r = Some m
  /\ (forall j x, l !! j = Some x -> (key x <= key m)%Q)
  /\ (forall j x, (j < r)%nat -> l !! j = Some x -> (key x < key m)%Q).

(** The running total of [select_weighted] after the first [k] items,
    starting from [c]. *)
Definition cumulative_from {A : Type} (base_weight : A -> option Q)
    (c : Q) (k : nat) (items : list A) : Q :=
  fold_left Qplus (map (weight_of base_weight) (take k items)) c.

(** The message [run_end] opens with, and the scenes [final_ending] plays. *)
Definition run_end_message (run_index : Z) : Message.t :=
  Message.mk "system" ("第" ++ Py.str_int run_index ++ "轮结束。") "run_end" [].

Definition first_ending_scenes (content : ContentBundle.t) : list string :=
  match ContentBundle.endings content with
  | first :: _ => default [] (Ending.scenes first)
  | [] => ["故事落幕。"%string]
  end.

(** The seed and the roll of a proactive attempt on [hook]. *)
Definition proactive_hook_id (hook : Hook.t) : string :=
  default "hook"%string (Hook.hook_id hook).

Definition proactive_roll_of (state : GameState.t) (stage_id : string) (hook : Hook.t)
    : RollResult.t :=
  roll_with_pity (default (1 # 5)%Q (Hook.p0 hook))
                 (default (1 # 10)%Q (Hook.dp hook))
                 (default (7 # 10)%Q (Hook.p_max hook))
                 (hook_exposure_of state (proactive_hook_id hook))
                 (stable_seed [PStr (GameState.session_id state);
                               PInt (GameState.run_index state);
                               PInt (GameState.day_index state);
                               PStr stage_id; PStr (proactive_hook_id hook)]).

(** One call of an entry point on the session, with its arguments. *)
Inductive call : Type :=
| DayStart (config : ConfigBundle.t)
| ActionSelect (content : ContentBundle.t) (location time_slot stage_id : string)
| Chat (text : string) (content : ContentBundle.t) (stage_id : string)
| DayEnd (config : ConfigBundle.t) (content : ContentBundle.t).

(** The state a call leaves behind, whether it returned or raised. *)
Definition perform (state : GameState.t) (c : call) : GameState.t :=
  match c with
  | DayStart config => fst (day_start state config)
  | ActionSelect content location time_slot stage_id =>
      fst (action_select state content location time_slot stage_id)
  | Chat text content stage_id => fst (chat state text content stage_id)
  | DayEnd config content => fst (day_end state config content)
  end.

Definition perform_all (state : GameState.t) (calls : list call) : GameState.t :=
  fold_left perform calls state.

(** The daily counters are within non-negative caps. *)
Definition within_caps (state : GameState.t) : Prop :=
  0 <= Caps.daily_fragment_cap (GameState.caps state)
  /\ 0 <= Caps.daily_proactive_cap (GameState.caps state)
  /\ GameState.daily_fragment_count state
     <= Caps.daily_fragment_cap (GameState.caps state)
  /\ GameState.daily_proactive_count state
     <= Caps.daily_proactive_cap (GameState.caps state).

(** No active fragment has a negative exposure count. *)
Definition nonneg_exposures (state : GameState.t) : Prop :=
  Forall (fun f => 0 <= TriggerState.exposures (Fragment.trigger_state f))
         (GameState.fragments_active state).

(** * Concrete inputs for the examples *)

Module Fixture.

(** A configuration with every resource and cap key present. *)
Definition config (days_per_run max_runs : Z) : ConfigBundle.t :=
  ConfigBundle.mk
    (<["days_per_run":=days_per_run]> (<["max_runs":=max_runs]> ∅))
    (<["ap":=3]> (<["chat_turns":=2]> (<["key_q":=1]> (<["npc_initiative":=1]> ∅))))
    (<["daily_fragment_cap":=2]> (<["daily_proactive_cap":=1]> ∅))
    ∅.

(** A configuration whose files were all absent: [load_yaml] gives [{}]. *)
Definition empty_config : ConfigBundle.t := ConfigBundle.mk ∅ ∅ ∅ ∅.

(** The resource file lacks [npc_initiative]; the cap file is complete. *)
Definition partial_config : ConfigBundle.t :=
  ConfigBundle.mk ∅
    (<["ap":=3]> (<["chat_turns":=2]> (<["key_q":=1]> ∅)))
    (<["daily_fragment_cap":=2]> (<["daily_proactive_cap":=1]> ∅))
    ∅.

Definition no_content : ContentBundle.t := ContentBundle.mk [] [] [].

(** One event at the school in the morning, nothing else. *)
Definition school_event : Event.t :=
  Event.mk (Some "school_morning"%string) (Some "school"%string)
           (Some "morning"%string) (Some 1%Q) (Some "intro"%string)
           (Some "outro"%string) None None.

Definition school_content : ContentBundle.t :=
  ContentBundle.mk [school_event] [] [].

(** Two authored endings; the first has two scenes. *)
Definition ending_content : ContentBundle.t :=
  ContentBundle.mk [] []
    [Ending.mk (Some ["scene one"; "scene two"]%string);
     Ending.mk (Some ["another ending"]%string)].

(** A catalog with one school event carrying a fragment hook, a hook that
    always succeeds ([p0 = 1]) and a hook that cannot succeed on a positive
    draw ([p0 = dp = p_max = 0]). *)
Definition desk_hook : FragmentHook.t :=
  FragmentHook.mk (Some "desk"%string) (Some "sad"%string) (Some (1 # 2)%Q) (Some 1)
    (Some (<["kind":="location"%string]> (<["value":="school"%string]> ∅))).

Definition desk_event : Event.t :=
  Event.mk (Some "school_morning"%string) (Some "school"%string)
           (Some "morning"%string) (Some 1%Q) (Some "intro"%string)
           (Some "outro"%string)
           (Some [ChoicePoint.mk (Some ["look"; "leave"]%string)])
           (Some [desk_hook]).

Definition sure_hook : Hook.t :=
  Hook.mk (Some "greet"%string) (Some "soft"%string)
          (Some (Conditions.mk (Some "school"%string) None (Some 1) None))
          (Some 1%Q) (Some 1%Q) (Some 0%Q) (Some 1%Q) (Some 2)
          (Some (Payload.mk (Some "hello there"%string) (Some ["ok"%string]))).

Definition shy_hook : Hook.t :=
  Hook.mk (Some "shy"%string) None None (Some 1%Q) (Some 0%Q) (Some 0%Q) (Some 0%Q)
          None None.

Definition sure_content : ContentBundle.t :=
  ContentBundle.mk [desk_event] [sure_hook] [].

Definition shy_content : ContentBundle.t :=
  ContentBundle.mk [desk_event] [shy_hook] [].

(** A two-day session at the school. *)
Definition school_days : list call :=
  [DayStart (config 7 5);
   ActionSelect sure_content "school" "morning" "event_flow";
   Chat "hello" sure_content "chat";
   DayEnd (config 7 5) sure_content;
   DayStart (config 7 5);
   ActionSelect sure_content "school" "morning" "event_flow";
   ActionSelect sure_content "school" "evening" "event_flow";
   ActionSelect sure_content "school" "night" "event_flow";
   Chat "again" sure_content "chat";
   DayEnd (config 7 5) sure_content].


(** A state with nothing left to spend. *)
Definition spent_state : GameState.t :=
  GameState.mk "session" 1 RUNNING 1 5 1 0 (Resources.mk 0 0 1 1) (Caps.mk 2 1)
    Stats.default CurrentContext.default [] [] [] (ProactiveState.mk ∅ ∅)
    [] [] [] ∅ ∅ ∅ [] 0 0 [].

(** The spent state, standing at the school in the morning. *)
Definition at_school : GameState.t :=
  GameState.set_current_context
    (CurrentContext.mk None (Some "school"%string) (Some "morning"%string)
                       (Some "event_flow"%string)) spent_state.

(** Two unconsumed fragments at the school.  The first has the larger key
    and was already checked on day 1 in stage [event_flow]; the second was
    never checked.  The third is consumed. *)
Definition school_fragment (fragment_id : string) (salience : Q)
    (last_day : option Z) (last_stage : option string) (consumed : bool)
    : Fragment.t :=
  Fragment.mk fragment_id 1 1 1 "desk" "sad" salience 1
    (Trigger.mk "location" "school" ∅)
    (TriggerState.mk 0 (1 # 5) (3 # 20) (17 # 20) last_day last_stage 0)
    true consumed ∅ ∅.

Definition checked_fragment : Fragment.t :=
  school_fragment "fragment_1_1_1" (9 # 10) (Some 1) (Some "event_flow"%string) false.

Definition unchecked_fragment : Fragment.t :=
  school_fragment "fragment_1_1_2" (1 # 2) None None false.

Definition consumed_fragment : Fragment.t :=
  school_fragment "fragment_1_1_3" 1 None None true.

Definition with_fragments : GameState.t :=
  GameState.set_fragments_active
    [checked_fragment; unchecked_fragment; consumed_fragment] at_school.

(** Only the consumed fragment and the unchecked one. *)
Definition with_consumed : GameState.t :=
  GameState.set_fragments_active [consumed_fragment; unchecked_fragment] at_school.

End Fixture.

(** * Vocabulary of the further properties *)

(** The roll [fragment_trigger_check] makes on [fragment]. *)
Definition fragment_roll_of (state : GameState.t) (stage_id : string)
    (fragment : Fragment.t) : RollResult.t :=
  let ts := Fragment.trigger_state fragment in
  roll_with_pity (TriggerState.p0 ts) (TriggerState.dp ts) (TriggerState.p_max ts)
                 (TriggerState.exposures ts) (fragment_seed state stage_id fragment).

(** Two fragments that differ at most in what a trigger check writes:
    the exposure count, the last check and the consumed flag. *)
Definition same_fragment (f g : Fragment.t) : Prop :=
  Fragment.fragment_id g = Fragment.fragment_id f
  /\ Fragment.version g = Fragment.version f
  /\ Fragment.day_created g = Fragment.day_created f
  /\ Fragment.run_created g = Fragment.run_created f
  /\ Fragment.anchor g = Fragment.anchor f
  /\ Fragment.emotion_tag g = Fragment.emotion_tag f
  /\ Fragment.salience_score g = Fragment.salience_score f
  /\ Fragment.reveal_level g = Fragment.reveal_level f
  /\ Fragment.trigger g = Fragment.trigger f
  /\ Fragment.one_shot g = Fragment.one_shot f
  /\ Fragment.reward g = Fragment.reward f
  /\ Fragment.meta g = Fragment.meta f
  /\ TriggerState.p0 (Fragment.trigger_state g)
     = TriggerState.p0 (Fragment.trigger_state f)
  /\ TriggerState.dp (Fragment.trigger_state g)
     = TriggerState.dp (Fragment.trigger_state f)
  /\ TriggerState.p_max (Fragment.trigger_state g)
     = TriggerState.p_max (Fragment.trigger_state f)
  /\ TriggerState.cooldown_until_day (Fragment.trigger_state g)
     = TriggerState.cooldown_until_day (Fragment.trigger_state f).

(** The fields no entry point writes. *)
Definition untouched (s s' : GameState.t) : Prop :=
  GameState.session_id s' = GameState.session_id s
  /\ GameState.state_version s' = GameState.state_version s
  /\ GameState.max_runs s' = GameState.max_runs s
  /\ GameState.caps s' = GameState.caps s
  /\ GameState.stats s' = GameState.stats s
  /\ GameState.route_flags_local s' = GameState.route_flags_local s
  /\ GameState.route_flags_global s' = GameState.route_flags_global s
  /\ GameState.meta_progress s' = GameState.meta_progress s
  /\ GameState.inventory s' = GameState.inventory s
  /\ GameState.history_refs s' = GameState.history_refs s.

(** [s'] has the trace log of [s] followed by at most [n] new entries. *)
Definition trace_grows (n : nat) (s s' : GameState.t) : Prop :=
  exists suffix,
    GameState.trace_log s' = GameState.trace_log s ++ suffix
    /\ (length suffix <= n)%nat.

(** What the parts of an action leave alone: everything about the run, the
    day and the fragments' identity. *)
Definition same_day (s s' : GameState.t) : Prop :=
  GameState.game_phase s' = GameState.game_phase s
  /\ GameState.run_index s' = GameState.run_index s
  /\ GameState.day_index s' = GameState.day_index s
  /\ GameState.run_seed s' = GameState.run_seed s
  /\ GameState.deep_fragments s' = GameState.deep_fragments s
  /\ Forall2 same_fragment (GameState.fragments_active s)
                           (GameState.fragments_active s').

(** No resource is negative. *)
Definition resources_nonneg (r : Resources.t) : Prop :=
  0 <= Resources.ap r /\ 0 <= Resources.chat_turns r
  /\ 0 <= Resources.key_q r /\ 0 <= Resources.npc_initiative r.

(** Every resource of [r'] is that of [r], or one less and still not
    negative. *)
Definition spent_at_most_one (r r' : Resources.t) : Prop :=
  (Resources.ap r' = Resources.ap r
   \/ (0 < Resources.ap r /\ Resources.ap r' = Resources.ap r - 1))
  /\ (Resources.chat_turns r' = Resources.chat_turns r
      \/ (0 < Resources.chat_turns r
          /\ Resources.chat_turns r' = Resources.chat_turns r - 1))
  /\ Resources.key_q r' = Resources.key_q r
  /\ (Resources.npc_initiative r' = Resources.npc_initiative r
      \/ (0 < Resources.npc_initiative r
          /\ Resources.npc_initiative r' = Resources.npc_initiative r - 1)).

(** What one action ([action_select] or [chat]) may do to the state besides
    its own bookkeeping. *)
Definition action_frame (s s' : GameState.t) : Prop :=
  untouched s s' /\ trace_grows 2 s s' /\ same_day s s'
  /\ spent_at_most_one (GameState.resources s) (GameState.resources s')
  /\ GameState.daily_fragment_count s <= GameState.daily_fragment_count s'
  /\ GameState.daily_proactive_count s <= GameState.daily_proactive_count s'
  /\ exists queued,
       GameState.pending_npc_messages s'
       = GameState.pending_npc_messages s ++ queued
       /\ (length queued <= 1)%nat.

(** The active fragments were created in the current run, on distinct
    earlier days of it, in the order of the list. *)
Definition fragments_by_day (s : GameState.t) : Prop :=
  1 <= GameState.day_index s
  /\ (forall i f, GameState.fragments_active s !! i = Some f ->
        Fragment.run_created f = GameState.run_index s
        /\ 1 <= Fragment.day_created f < GameState.day_index s)
  /\ (forall i j f g, (i < j)%nat ->
        GameState.fragments_active s !! i = Some f ->
        GameState.fragments_active s !! j = Some g ->
        Fragment.day_created f < Fragment.day_created g).

(** A [day_start] call in [calls] that returns installs resources that are
    not negative. *)
Definition refills_nonneg (c : call) : Prop :=
  match c with
  | DayStart config =>
      forall resources,
        Resources.init (ConfigBundle.resources config) = Py.Return resources ->
        resources_nonneg resources
  | _ => True
  end.

(** [c] is not a [day_end] call. *)
Definition within_the_day (c : call) : Prop :=
  match c with
  | DayEnd _ _ => False
  | _ => True
  end.

(** * The boundary layer *)

(** ** app/storage.py *)

(** The Python dict maps a session id to a reference to the state object.
    Here it maps the id to the state; where a handler mutates the object it
    fetched, the entry it was fetched from is written again ([write_back]),
    so that the store always shows the object as it is.  Stores in which two
    ids share one object are not represented. *)
Module InMemoryStore.
Record t := mk { _store : gmap string GameState.t }.

(** [__init__]. *)
Definition init : t := mk ∅.

(** [get]: [None] stands for the [KeyError] of a missing id. *)
Definition get (self : t) (session_id : string) : option GameState.t :=
  _store self !! session_id.

Definition save (self : t) (state : GameState.t) : t :=
  mk (<[GameState.session_id state:=state]> (_store self)).

(** [exists]. *)
Definition exists_ (self : t) (session_id : string) : bool :=
  match _store self !! session_id with
  | Some _ => true
  | None => false
  end.

(** The entry under [session_id] after the object it refers to was mutated
    into [state]. *)
Definition write_back (self : t) (session_id : string) (state : GameState.t) : t :=
  mk (<[session_id:=state]> (_store self)).
End InMemoryStore.

(** ** app/main.py *)

Module Main.

Record ActionRequest := mkActionRequest {
  action_session_id : string;
  location : string;
  time_slot : string }.

Record ChatRequest := mkChatRequest {
  chat_session_id : string;
  text : string }.

Record SessionRequest := mkSessionRequest {
  session_id : string }.

(** What a handler gives back: the response, the [HTTPException] it raised,
    or an exception of the core that it lets through. *)
Inductive reply : Type :=
| Response (response : ApiResponse.t)
| HTTPException (status_code : Z) (detail : string)
| KeyError
| Unhandled (e : Py.exn).

Definition not_found : reply := HTTPException 404 "Session not found".

Section Handlers.
(** The module-level [config] and [content]; the module-level [store] is
    threaded through the handlers, and the two [uuid4] draws are arguments. *)
Context (config : ConfigBundle.t) (content : ContentBundle.t).

(** The tail every handler shares: [store.save(state)] and
    [return build_response(state, messages, ui_hints)].  [build_response]
    empties the queue of the very object the store holds, under the id it was
    fetched from and under its own session id. *)
Definition save_and_respond (store : InMemoryStore.t) (fetched_from : string)
    (state : GameState.t) (messages : list Message.t) (ui_hints : list string)
    (trace_id : string) : InMemoryStore.t * reply :=
  let store := InMemoryStore.save store state in
  let response := build_response state messages ui_hints trace_id in
  let state := ApiResponse.state response in
  (InMemoryStore.write_back
     (InMemoryStore.write_back store fetched_from state)
     (GameState.session_id state) state,
   Response response).

Definition new_session (store : InMemoryStore.t) (uuid trace_id : string)
    : InMemoryStore.t * reply :=
  match create_initial_state config uuid with
  | Py.Raise e => (store, Unhandled e)
  | Py.Return state =>
      save_and_respond store (GameState.session_id state) state
        [Message.mk "system" "新的旅程开始。" "session_start" []] [] trace_id
  end.

Definition get_state (store : InMemoryStore.t) (session_id trace_id : string)
    : InMemoryStore.t * reply :=
  if negb (InMemoryStore.exists_ store session_id) then (store, not_found)
  else
    match InMemoryStore.get store session_id with
    | None => (store, KeyError)
    | Some state =>
        let response := build_response state [] [] trace_id in
        (InMemoryStore.write_back store session_id (ApiResponse.state response),
         Response response)
    end.

Definition api_day_start (store : InMemoryStore.t) (request : SessionRequest)
    (trace_id : string) : InMemoryStore.t * reply :=
  if negb (InMemoryStore.exists_ store (session_id request)) then (store, not_found)
  else
    match InMemoryStore.get store (session_id request) with
    | None => (store, KeyError)
    | Some state =>
        match day_start state config with
        | (state, Py.Raise e) =>
            (InMemoryStore.write_back store (session_id request) state, Unhandled e)
        | (state, Py.Return messages) =>
            save_and_respond
              (InMemoryStore.write_back store (session_id request) state)
              (session_id request) state messages [] trace_id
        end
    end.

Definition api_action_select (store : InMemoryStore.t) (request : ActionRequest)
    (trace_id : string) : InMemoryStore.t * reply :=
  if negb (InMemoryStore.exists_ store (action_session_id request))
  then (store, not_found)
  else
    match InMemoryStore.get store (action_session_id request) with
    | None => (store, KeyError)
    | Some state =>
        match action_select state content (location request) (time_slot request)
                            "event_flow" with
        | (state, Py.Raise e) =>
            (InMemoryStore.write_back store (action_session_id request) state,
             Unhandled e)
        | (state, Py.Return (messages, ui_hints)) =>
            save_and_respond
              (InMemoryStore.write_back store (action_session_id request) state)
              (action_session_id request) state messages ui_hints trace_id
        end
    end.

Definition api_chat (store : InMemoryStore.t) (request : ChatRequest)
    (trace_id : string) : InMemoryStore.t * reply :=
  if negb (InMemoryStore.exists_ store (chat_session_id request))
  then (store, not_found)
  else
    match InMemoryStore.get store (chat_session_id request) with
    | None => (store, KeyError)
    | Some state =>
        let '(state, messages) := chat state (text request) content "chat" in
        save_and_respond
          (InMemoryStore.write_back store (chat_session_id request) state)
          (chat_session_id request) state messages [] trace_id
    end.

Definition api_day_end (store : InMemoryStore.t) (request : SessionRequest)
    (trace_id : string) : InMemoryStore.t * reply :=
  if negb (InMemoryStore.exists_ store (session_id request)) then (store, not_found)
  else
    match InMemoryStore.get store (session_id request) with
    | None => (store, KeyError)
    | Some state =>
        let '(state, messages) := day_end state config content in
        save_and_respond
          (InMemoryStore.write_back store (session_id request) state)
          (session_id request) state messages [] trace_id
    end.
End Handlers.

End Main.

(** One request to the boundary layer, and the handler it reaches. *)
Inductive request : Type :=
| NewSession (uuid : string)
| GetState (session_id : string)
| PostDayStart (r : Main.SessionRequest)
| PostActionSelect (r : Main.ActionRequest)
| PostChat (r : Main.ChatRequest)
| PostDayEnd (r : Main.SessionRequest).

Definition request_session (r : request) : string :=
  match r with
  | NewSession uuid => uuid
  | GetState session_id => session_id
  | PostDayStart r => Main.session_id r
  | PostActionSelect r => Main.action_session_id r
  | PostChat r => Main.chat_session_id r
  | PostDayEnd r => Main.session_id r
  end.

Definition handle (config : ConfigBundle.t) (content : ContentBundle.t)
    (store : InMemoryStore.t) (r : request) (trace_id : string)
    : InMemoryStore.t * Main.reply :=
  match r with
  | NewSession uuid => Main.new_session config store uuid trace_id
  | GetState session_id => Main.get_state store session_id trace_id
  | PostDayStart r => Main.api_day_start config store r trace_id
  | PostActionSelect r => Main.api_action_select content store r trace_id
  | PostChat r => Main.api_chat content store r trace_id
  | PostDayEnd r => Main.api_day_end config content store r trace_id
  end.

(** Every session is stored under its own id. *)
Definition keyed (store : InMemoryStore.t) : Prop :=
  forall k state,
    InMemoryStore._store store !! k = Some state -> GameState.session_id state = k.

(** The state [action_select] hands to [fragment_trigger_check]: one action
    point spent and the context set to the action. *)
Definition prepared_action (state : GameState.t) (location time_slot stage_id : string)
    : GameState.t :=
  GameState.set_current_context
    (CurrentContext.mk None (Some location) (Some time_slot) (Some stage_id))
    (GameState.set_resources
       (Resources.set_ap (Resources.ap (GameState.resources state) - 1)
                         (GameState.resources state)) state).

(** The candidate a [chat] call adds. *)
Definition chat_candidate (state : GameState.t) : FragmentCandidate.t :=
  FragmentCandidate.mk "对话" "curious" (3 # 10) 1
    (<["kind":="location"%string]>
       (<["value":=Py.or_empty
            (CurrentContext.location (GameState.current_context state))]> ∅)).

(** * Properties *)

(** ** The embedding agrees with CPython on known values *)

Example sha256_abc :
  Hashlib.hexdigest (Hashlib.sha256 (Py.encode "abc"))
  = "ba7816bf8f01cfea414140de5dae2223b00361a396177a9cb410ff61f20015ad"%string.
Proof. vm_compute. reflexivity. Qed.

Example sha256_utf8 :
  Hashlib.hexdigest (Hashlib.sha256 (Py.encode "第1天"))
  = "b52c6586b5b1930b4e6c7b731482e5ef4d56e8292801ef2e808d45d08b9a13d7"%string.
Proof. vm_compute. reflexivity. Qed.

Example sha256_four_blocks :
  Hashlib.hexdigest
    (Hashlib.sha256 (repeat "a"%byte 200))
  = "c2a908d98f5df987ade41b5fce213067efbcc21ef2240212a41e54b5e7c28ae5"%string.
Proof. vm_compute. reflexivity. Qed.

Example stable_seed_run_seed :
  stable_seed [PStr "session"; PStr "run_seed"] = 6826354192636435483.
Proof. vm_compute. reflexivity. Qed.

Example stable_seed_mixed_parts :
  stable_seed [PStr "session"; PInt 1; PInt 2; PStr "event_flow";
               PStr "fragment_1_1_1"] = 3815951751605487556
  /\ stable_seed [PStr "s"; PInt (-3); PInt 0] = 17478218425330998004.
Proof. vm_compute. split; reflexivity. Qed.

Example roll_from_seed :
  RollResult.roll (roll_with_pity (1 # 5) (3 # 20) (17 # 20) 0 3815951751605487556)
  = (12155417208959846644 # 18446744073709551616)%Q.
Proof. vm_compute. reflexivity. Qed.

Example index_negative :
  Py.index micro_lines (-1) = Py.index micro_lines 2
  /\ Py.index micro_lines (-4) = None /\ Py.index micro_lines 3 = None.
Proof. vm_compute. repeat split. Qed.

Example max_by_keeps_first_of_equals :
  Py.max_by snd [("a"%string, 1%Q); ("b"%string, 2%Q); ("c"%string, (4 # 2)%Q)]
  = Some ("b"%string, 2%Q).
Proof. vm_compute. reflexivity. Qed.

(** ** Comparisons and [max] *)

Lemma Qleb_true (a b : Q) : Py.Qleb a b = true <-> (a <= b)%Q.
Proof. apply Qle_bool_iff. Qed.

Lemma Qleb_false (a b : Q) : Py.Qleb a b = false <-> (b < a)%Q.
Proof.
  unfold Py.Qleb. split; intros H.
  - apply Qnot_le_lt. intros Hle. apply Qle_bool_iff in Hle. congruence.
  - destruct (Qle_bool a b) eqn:E; [|reflexivity].
    apply Qle_bool_iff in E. exfalso. eapply Qlt_not_le; eauto.
Qed.

Lemma Qltb_true (a b : Q) : Py.Qltb a b = true <-> (a < b)%Q.
Proof.
  unfold Py.Qltb. rewrite negb_true_iff. apply (Qleb_false b a).
Qed.

Lemma Qltb_false (a b : Q) : Py.Qltb a b = false <-> (b <= a)%Q.
Proof.
  unfold Py.Qltb. rewrite negb_false_iff. apply (Qleb_true b a).
Qed.

Section ArgMax.
Context {A : Type} (key : A -> Q).

Lemma argmax_from_first_max (xs pre : list A) (best_i : nat) (best : A) :
  first_max key pre best_i best ->
  exists m, first_max key (pre ++ xs)
              (Py.argmax_from key best_i best (length pre) xs) m.
Proof.
  revert pre best_i best.
  induction xs as [|x xs IH]; intros pre best_i best (Hat & Hmax & Hfirst).
  - exists best. rewrite app_nil_r. simpl. split; [|split]; assumption.
  - simpl. destruct (Py.Qltb (key best) (key x)) eqn:Hcmp.
    + apply Qltb_true in Hcmp.
      specialize (IH (pre ++ [x]) (length pre) x).
      rewrite length_app, Nat.add_1_r in IH. simpl in IH.
      rewrite <- app_assoc in IH. simpl in IH. apply IH.
      split; [|split].
      * rewrite lookup_app_r by lia. rewrite Nat.sub_diag. reflexivity.
      * intros j y Hj. destruct (decide (j < length pre)%nat) as [Hlt|Hge].
        -- rewrite lookup_app_l in Hj by assumption.
           apply Qlt_le_weak. eapply Qle_lt_trans; [eapply Hmax; eauto|assumption].
        -- rewrite lookup_app_r in Hj by lia.
           destruct (j - length pre)%nat; simpl in Hj; [|discriminate].
           injection Hj as <-. apply Qle_refl.
      * intros j y Hlt Hj. rewrite lookup_app_l in Hj by assumption.
        eapply Qle_lt_trans; [eapply Hmax; eauto|assumption].
    + apply Qltb_false in Hcmp.
      specialize (IH (pre ++ [x]) best_i best).
      rewrite length_app, Nat.add_1_r in IH. simpl in IH.
      rewrite <- app_assoc in IH. simpl in IH. apply IH.
      assert (best_i < length pre)%nat as Hbi by (eapply lookup_lt_Some; eauto).
      split; [|split].
      * rewrite lookup_app_l by assumption. assumption.
      * intros j y Hj. destruct (decide (j < length pre)%nat) as [Hlt|Hge].
        -- rewrite lookup_app_l in Hj by assumption. eauto.
        -- rewrite lookup_app_r in Hj by lia.
           destruct (j - length pre)%nat; simpl in Hj; [|discriminate].
           injection Hj as <-. assumption.
      * intros j y Hlt Hj. rewrite lookup_app_l in Hj by lia. eauto.
Qed.

Lemma max_by_first_max (xs : list A) (m : A) :
  Py.max_by key xs = Some m -> exists r, first_max key xs r m.
Proof.
  unfold Py.max_by, Py.argmax. destruct xs as [|x xs]; [discriminate|].
  intros Hm.
  destruct (argmax_from_first_max xs [x] 0%nat x) as (m' & Hfm).
  { split; [|split].
    - reflexivity.
    - intros [|j] y Hj; simpl in Hj; [|discriminate].
      injection Hj as <-. apply Qle_refl.
    - intros j y Hlt. lia. }
  simpl in Hfm. exists (Py.argmax_from key 0%nat x 1%nat xs).
  destruct Hfm as (Hat & Hrest). replace m with m' by congruence.
  split; assumption.
Qed.

Lemma max_by_None (xs : list A) : Py.max_by key xs = None <-> xs = [].
Proof.
  split; [|intros ->; reflexivity].
  destruct xs as [|x xs]; [reflexivity|]. intros Hnone. exfalso.
  unfold Py.max_by, Py.argmax in Hnone.
  destruct (argmax_from_first_max xs [x] 0%nat x) as (m' & Hat & _).
  { split; [|split].
    - reflexivity.
    - intros [|j] y Hj; simpl in Hj; [|discriminate].
      injection Hj as <-. apply Qle_refl.
    - intros j y Hlt. lia. }
  simpl in Hat. congruence.
Qed.

Lemma max_by_elem (xs : list A) (m : A) :
  Py.max_by key xs = Some m -> m ∈ xs.
Proof.
  intros H. destruct (max_by_first_max xs m H) as (r & Hat & _).
  eapply list_elem_of_lookup_2; eauto.
Qed.
End ArgMax.

(** ** The digest is a sequence of bytes *)

Lemma be_bytes_is_byte (n : nat) (x : Z) : List.Forall is_byte (Hashlib.be_bytes n x).
Proof.
  induction n as [|n IH]; simpl; constructor; [|assumption].
  unfold is_byte. apply Z.mod_pos_bound. lia.
Qed.

Lemma sha256_is_byte (data : list byte) : List.Forall is_byte (Hashlib.sha256 data).
Proof.
  unfold Hashlib.sha256. apply List.Forall_forall. intros b Hin.
  apply List.in_flat_map in Hin. destruct Hin as (w & _ & Hin).
  pose proof (be_bytes_is_byte 4 w) as Hall.
  rewrite List.Forall_forall in Hall. auto.
Qed.

Lemma from_be_acc_bound (bs : list Z) (acc bound : Z) :
  List.Forall is_byte bs -> 0 <= acc < bound ->
  0 <= fold_left (fun a b => a * 256 + b) bs acc < bound * 256 ^ Z.of_nat (length bs).
Proof.
  revert acc bound. induction bs as [|b bs IH]; intros acc bound Hall Hacc.
  - simpl. lia.
  - inversion Hall as [|? ? Hb Hbs]; subst. unfold is_byte in Hb.
    cbn [fold_left length]. rewrite Nat2Z.inj_succ, Z.pow_succ_r by lia.
    specialize (IH (acc * 256 + b) (bound * 256) Hbs). lia.
Qed.

Lemma draw_range (digest : list Z) :
  List.Forall is_byte digest ->
  0 <= Hashlib.int_from_bytes_big (firstn 8 digest) < 18446744073709551616.
Proof.
  intros Hall. unfold Hashlib.int_from_bytes_big, Hashlib.from_be.
  assert (List.Forall is_byte (firstn 8 digest)) as Hfirst.
  { apply Forall_take. assumption. }
  pose proof (from_be_acc_bound (firstn 8 digest) 0 1 Hfirst ltac:(lia)) as Hb.
  assert (length (firstn 8 digest) <= 8)%nat as Hlen by apply List.firstn_le_length.
  assert (256 ^ Z.of_nat (length (firstn 8 digest)) <= 256 ^ 8) as Hpow.
  { apply Z.pow_le_mono_r; lia. }
  change (256 ^ 8) with 18446744073709551616 in Hpow. lia.
Qed.

(** ** Pity roller *)






(** ** Weighted selector *)

Lemma sum_acc (xs : list Q) (c : Q) :
  (fold_left Qplus xs c == c + Py.sum xs)%Q.
Proof.
  unfold Py.sum. revert c. induction xs as [|x xs IH]; intros c; simpl.
  - ring.
  - rewrite (IH (c + x)%Q), (IH (0 + x)%Q). ring.
Qed.

Lemma sum_cons (x : Q) (xs : list Q) : (Py.sum (x :: xs) == x + Py.sum xs)%Q.
Proof.
  unfold Py.sum at 1. simpl. rewrite sum_acc. ring.
Qed.


Lemma sum_nonneg (xs : list Q) :
  (forall x, x ∈ xs -> (0 <= x)%Q) -> (0 <= Py.sum xs)%Q.
Proof.
  induction xs as [|x xs IH]; intros Hall.
  - apply Qle_refl.
  - rewrite sum_cons.
    assert (0 <= x)%Q as Hx by (apply Hall; left).
    assert (0 <= Py.sum xs)%Q as Hxs by (apply IH; intros y Hy; apply Hall; right; exact Hy).
    lra.
Qed.

Lemma sum_pos (xs : list Q) (y : Q) :
  (forall x, x ∈ xs -> (0 <= x)%Q) -> y ∈ xs -> (0 < y)%Q -> (0 < Py.sum xs)%Q.
Proof.
  induction xs as [|x xs IH]; intros Hall Hin Hy.
  - inversion Hin.
  - rewrite sum_cons.
    assert (0 <= x)%Q as Hx by (apply Hall; left).
    assert (0 <= Py.sum xs)%Q as Hxs
      by (apply sum_nonneg; intros z Hz; apply Hall; right; exact Hz).
    apply elem_of_cons in Hin. destruct Hin as [->|Hin].
    + lra.
    + assert (0 < Py.sum xs)%Q
        by (apply IH; [intros z Hz; apply Hall; right; exact Hz|assumption|assumption]).
      lra.
Qed.

Section WeightedSelectorSpec.
Context {A : Type} (base_weight : A -> option Q).

Abbreviation w := (weight_of base_weight).

Lemma select_scan_Some (items : list A) (threshold c : Q) (item : A) :
  select_scan base_weight threshold c items = Some item ->
  exists k, items !! k = Some item
    /\ (threshold <= cumulative_from base_weight c (S k) items)%Q
    /\ (forall j, (j < k)%nat -> (cumulative_from base_weight c (S j) items < threshold)%Q).
Proof.
  revert c. induction items as [|x rest IH]; intros c Hscan; [discriminate|].
  simpl in Hscan. destruct (Py.Qleb threshold (c + w x)) eqn:Hcmp.
  - injection Hscan as <-. exists 0%nat. split; [reflexivity|]. split.
    + apply Qleb_true in Hcmp. exact Hcmp.
    + intros j Hj. lia.
  - apply Qleb_false in Hcmp.
    destruct (IH _ Hscan) as (k & Hat & Hge & Hlt).
    exists (S k). split; [exact Hat|]. split; [exact Hge|].
    intros [|j] Hj; [exact Hcmp|]. apply (Hlt j). lia.
Qed.



End WeightedSelectorSpec.


(** ** Exhausted resources *)

(** C7.  With no action point left, [action_select] returns one warning and
    the state it was given; with no chat turn left, so does [chat].  A fresh
    state with [ap = 3] reaches [ap = 0] after three [action_select] calls
    where no event matches, and the fourth call is such a warning. *)
Theorem exhausted_resources_only_warn (state : GameState.t)
    (content : ContentBundle.t) (location time_slot stage_id text : string) :
  (Resources.ap (GameState.resources state) = 0 ->
   exists m,
     action_select state content location time_slot stage_id
     = (state, Py.Return ([m], []))
     /\ Message.kind m = "warning"%string)
  /\ (Resources.chat_turns (GameState.resources state) = 0 ->
      exists m,
        chat state text content stage_id = (state, [m])
        /\ Message.kind m = "warning"%string)
  /\ (exists s0 s1 s2 s3 r1 r2 r3 m,
        create_initial_state (Fixture.config 7 5) "session" = Py.Return s0
        /\ Resources.ap (GameState.resources s0) = 3
        /\ Resources.chat_turns (GameState.resources s0) = 2
        /\ action_select s0 Fixture.school_content "market" "morning" "event_flow"
           = (s1, Py.Return r1)
        /\ action_select s1 Fixture.school_content "market" "morning" "event_flow"
           = (s2, Py.Return r2)
        /\ action_select s2 Fixture.school_content "market" "morning" "event_flow"
           = (s3, Py.Return r3)
        /\ Resources.ap (GameState.resources s3) = 0
        /\ action_select s3 Fixture.school_content "market" "morning" "event_flow"
           = (s3, Py.Return ([m], []))
        /\ Message.kind m = "warning"%string).
Proof.
  split; [|split].
  - intros Hap. eexists. unfold action_select. rewrite Hap. simpl.
    split; reflexivity.
  - intros Hturns. eexists. unfold chat. rewrite Hturns. simpl.
    split; reflexivity.
  - do 8 eexists.
    split; [vm_compute; reflexivity|].
    split; [reflexivity|]. split; [reflexivity|].
    split; [vm_compute; reflexivity|].
    split; [vm_compute; reflexivity|].
    split; [vm_compute; reflexivity|].
    split; [reflexivity|].
    split; [vm_compute; reflexivity|reflexivity].
Qed.

Lemma exhausted_resources_only_warn_witness :
  (exists m,
     action_select Fixture.spent_state Fixture.school_content
                   "market" "morning" "event_flow"
     = (Fixture.spent_state, Py.Return ([m], []))
     /\ Message.kind m = "warning"%string)
  /\ (exists m,
        chat Fixture.spent_state "hello" Fixture.school_content "chat"
        = (Fixture.spent_state, [m])
        /\ Message.kind m = "warning"%string).
Proof.
  destruct (exhausted_resources_only_warn Fixture.spent_state Fixture.school_content
              "market" "morning" "event_flow" "hello") as (Haction & Hchat & _).
  split; [apply Haction; reflexivity|apply Hchat; reflexivity].
Defined.

(** ** Configuration *)

Arguments stable_seed : simpl never.

(** Reduce projections of updated states, and nothing else. *)
Ltac state_simpl :=
  cbn [GameState.session_id GameState.state_version GameState.game_phase
       GameState.run_index GameState.max_runs GameState.day_index
       GameState.run_seed GameState.resources GameState.caps GameState.stats
       GameState.current_context GameState.fragments_active
       GameState.deep_fragments GameState.fragment_candidates_today
       GameState.proactive_state GameState.pending_npc_messages
       GameState.route_flags_local GameState.route_flags_global
       GameState.meta_progress GameState.inventory GameState.history_refs
       GameState.trace_log GameState.daily_fragment_count
       GameState.daily_proactive_count GameState.event_history
       GameState.set_game_phase GameState.set_run_index
       GameState.set_day_index GameState.set_run_seed GameState.set_resources
       GameState.set_current_context GameState.set_fragments_active
       GameState.set_deep_fragments GameState.set_fragment_candidates_today
       GameState.set_proactive_state GameState.set_pending_npc_messages
       GameState.set_trace_log GameState.set_daily_fragment_count
       GameState.set_daily_proactive_count GameState.set_event_history
       Resources.ap Resources.chat_turns Resources.key_q
       Resources.npc_initiative Resources.set_ap Resources.set_chat_turns
       Resources.set_npc_initiative Caps.daily_fragment_cap
       Caps.daily_proactive_cap ProactiveState.hook_exposures
       ProactiveState.hook_cooldowns ApiResponse.state ApiResponse.messages
       fst snd negb].


Arguments roll_with_pity : simpl never.

Lemma Resources_init_Return (mapping : gmap string Z) :
  complete_resources mapping <-> exists r, Resources.init mapping = Py.Return r.
Proof.
  unfold complete_resources, Resources.init. split.
  - intros ([a Ha] & [c Hc] & [k Hk] & [n Hn]). rewrite Ha, Hc, Hk, Hn. eauto.
  - intros [r Hr].
    destruct (mapping !! "ap"), (mapping !! "chat_turns"),
             (mapping !! "key_q"), (mapping !! "npc_initiative");
      try discriminate; repeat split; eauto.
Qed.

Lemma Resources_init_Raise (mapping : gmap string Z) :
  ~ complete_resources mapping -> Resources.init mapping = Py.Raise Py.ValidationError.
Proof.
  intros Hnot. unfold Resources.init.
  destruct (mapping !! "ap") eqn:Ha, (mapping !! "chat_turns") eqn:Hc,
           (mapping !! "key_q") eqn:Hk, (mapping !! "npc_initiative") eqn:Hn;
    try reflexivity.
  exfalso. apply Hnot. unfold complete_resources. rewrite Ha, Hc, Hk, Hn.
  repeat split; eauto.
Qed.

Lemma Caps_init_Return (mapping : gmap string Z) :
  complete_caps mapping <-> exists c, Caps.init mapping = Py.Return c.
Proof.
  unfold complete_caps, Caps.init. split.
  - intros ([f Hf] & [p Hp]). rewrite Hf, Hp. eauto.
  - intros [c Hc].
    destruct (mapping !! "daily_fragment_cap"), (mapping !! "daily_proactive_cap");
      try discriminate; split; eauto.
Qed.

Lemma Caps_init_Raise (mapping : gmap string Z) :
  ~ complete_caps mapping -> Caps.init mapping = Py.Raise Py.ValidationError.
Proof.
  intros Hnot. unfold Caps.init.
  destruct (mapping !! "daily_fragment_cap") eqn:Hf,
           (mapping !! "daily_proactive_cap") eqn:Hp; try reflexivity.
  exfalso. apply Hnot. unfold complete_caps. rewrite Hf, Hp. split; eauto.
Qed.

(** C2, as the code has it.  [create_initial_state] returns a state exactly
    when the resource mapping holds its four keys and the cap mapping its two,
    and [day_start] exactly when the resource mapping holds its four keys; any
    missing key raises a validation error.  Only a missing [max_runs] is
    replaced by a default, 5. *)
Theorem create_initial_state_needs_every_key (config : ConfigBundle.t)
    (session_id : string) (state : GameState.t) :
  ((complete_resources (ConfigBundle.resources config)
    /\ complete_caps (ConfigBundle.caps config))
   <-> exists s, create_initial_state config session_id = Py.Return s)
  /\ (~ (complete_resources (ConfigBundle.resources config)
         /\ complete_caps (ConfigBundle.caps config))
      -> create_initial_state config session_id = Py.Raise Py.ValidationError)
  /\ (forall s, create_initial_state config session_id = Py.Return s ->
        GameState.max_runs s = default 5 (ConfigBundle.run config !! "max_runs")
        /\ Resources.init (ConfigBundle.resources config)
           = Py.Return (GameState.resources s)
        /\ Caps.init (ConfigBundle.caps config) = Py.Return (GameState.caps s))
  /\ (complete_resources (ConfigBundle.resources config)
      <-> exists s' messages, day_start state config = (s', Py.Return messages))
  /\ (~ complete_resources (ConfigBundle.resources config)
      -> day_start state config = (state, Py.Raise Py.ValidationError)).
Proof.
  unfold create_initial_state, day_start.
  split; [|split; [|split; [|split]]].
  - split.
    + intros [Hr Hc]. apply Resources_init_Return in Hr. apply Caps_init_Return in Hc.
      destruct Hr as [r ->], Hc as [c ->]. eauto.
    + intros [s Hs].
      destruct (Resources.init (ConfigBundle.resources config)) as [r|] eqn:Hr;
        [|discriminate].
      destruct (Caps.init (ConfigBundle.caps config)) as [c|] eqn:Hc; [|discriminate].
      split; [apply Resources_init_Return|apply Caps_init_Return]; eauto.
  - intros Hnot.
    destruct (Resources.init (ConfigBundle.resources config)) as [r|[]] eqn:Hr;
      try reflexivity.
    + destruct (Caps.init (ConfigBundle.caps config)) as [c|[]] eqn:Hc;
        try reflexivity.
      * exfalso. apply Hnot.
        split; [apply Resources_init_Return|apply Caps_init_Return]; eauto.
      * exfalso. unfold Caps.init in Hc.
        repeat match type of Hc with
               | context [match ?x with _ => _ end] => destruct x
               end; discriminate.
    + exfalso. unfold Resources.init in Hr.
      repeat match type of Hr with
             | context [match ?x with _ => _ end] => destruct x
             end; discriminate.
  - intros s Hs.
    destruct (Resources.init (ConfigBundle.resources config)) as [r|]; [|discriminate].
    destruct (Caps.init (ConfigBundle.caps config)) as [c|]; [|discriminate].
    injection Hs as <-. repeat split.
  - split.
    + intros Hr. apply Resources_init_Return in Hr. destruct Hr as [r ->]. eauto.
    + intros (s' & messages & Hs).
      destruct (Resources.init (ConfigBundle.resources config)) as [r|] eqn:Hr;
        [|discriminate].
      apply Resources_init_Return. eauto.
  - intros Hnot. rewrite (Resources_init_Raise _ Hnot). reflexivity.
Qed.

Lemma create_initial_state_needs_every_key_witness :
  (exists s, create_initial_state (Fixture.config 7 5) "session" = Py.Return s)
  /\ create_initial_state Fixture.partial_config "session"
     = Py.Raise Py.ValidationError.
Proof.
  destruct (create_initial_state_needs_every_key
              (Fixture.config 7 5) "session" Fixture.spent_state) as ([Hyes _] & _).
  destruct (create_initial_state_needs_every_key
              Fixture.partial_config "session" Fixture.spent_state) as (_ & Hno & _).
  split.
  - apply Hyes. unfold complete_resources, complete_caps.
    repeat split; vm_compute; eauto.
  - apply Hno. unfold complete_resources. intros ((_ & _ & _ & [n Hn]) & _).
    vm_compute in Hn. discriminate Hn.
Defined.

(** C2 as stated fails: with every configuration file absent, and with one
    resource key missing, [create_initial_state] and [day_start] raise. *)
Lemma absent_configuration_is_fatal :
  create_initial_state Fixture.empty_config "session" = Py.Raise Py.ValidationError
  /\ create_initial_state Fixture.partial_config "session"
     = Py.Raise Py.ValidationError
  /\ day_start Fixture.spent_state Fixture.empty_config
     = (Fixture.spent_state, Py.Raise Py.ValidationError)
  /\ day_start Fixture.spent_state Fixture.partial_config
     = (Fixture.spent_state, Py.Raise Py.ValidationError).
Proof. repeat split; vm_compute; reflexivity. Qed.

(** ** Run end and deep memory *)

Lemma run_end_fragments (state : GameState.t) (config : ConfigBundle.t)
    (content : ContentBundle.t) :
  GameState.fragments_active (fst (run_end state config content)) = []
  /\ GameState.deep_fragments (fst (run_end state config content))
     = match Py.max_by Fragment.salience_score (GameState.fragments_active state) with
       | Some deep_fragment => [deep_fragment]
       | None => GameState.deep_fragments state
       end.
Proof.
  unfold run_end.
  destruct (Py.max_by Fragment.salience_score (GameState.fragments_active state));
    cbn [GameState.run_index GameState.max_runs GameState.set_fragments_active
         GameState.set_deep_fragments];
    destruct (GameState.run_index state >=? GameState.max_runs state);
    split; reflexivity.
Qed.

(** C1, as the code has it.  A run end empties the active list.  When the
    active list was not empty, [deep_fragments] becomes the one-element list
    holding its first highest-salience fragment, whatever it held before; when
    it was empty, [deep_fragments] is carried over as it was. *)
Theorem run_end_keeps_one_deep_fragment (state : GameState.t)
    (config : ConfigBundle.t) (content : ContentBundle.t) :
  let state' := fst (run_end state config content) in
  GameState.fragments_active state' = []
  /\ (GameState.fragments_active state = [] ->
      GameState.deep_fragments state' = GameState.deep_fragments state)
  /\ (GameState.fragments_active state <> [] ->
      exists r deep_fragment,
        first_max Fragment.salience_score (GameState.fragments_active state)
                  r deep_fragment
        /\ GameState.deep_fragments state' = [deep_fragment]).
Proof.
  intros state'. unfold state'.
  destruct (run_end_fragments state config content) as [Hactive Hdeep].
  split; [exact Hactive|]. split.
  - intros Hempty. rewrite Hdeep, Hempty. reflexivity.
  - intros Hnonempty. rewrite Hdeep.
    destruct (Py.max_by Fragment.salience_score (GameState.fragments_active state))
      as [deep_fragment|] eqn:Hmax.
    + destruct (max_by_first_max _ _ _ Hmax) as [r Hr]. eauto.
    + apply max_by_None in Hmax. contradiction.
Qed.

(** C1 as stated fails: the fragment migrated at the end of the first run is
    gone from [deep_fragments] after the end of the second run. *)
Lemma earlier_deep_fragment_is_replaced :
  exists s0 s1 s2 s3 s4 s5 m1 m2 m3 m4 m5 f1 f2,
    create_initial_state (Fixture.config 1 3) "session" = Py.Return s0
    /\ chat s0 "hello" Fixture.no_content "chat" = (s1, m1)
    /\ day_end s1 (Fixture.config 1 3) Fixture.no_content = (s2, m2)
    /\ GameState.run_index s2 = 2
    /\ GameState.deep_fragments s2 = [f1]
    /\ day_start s2 (Fixture.config 1 3) = (s3, Py.Return m3)
    /\ chat s3 "hello" Fixture.no_content "chat" = (s4, m4)
    /\ day_end s4 (Fixture.config 1 3) Fixture.no_content = (s5, m5)
    /\ GameState.run_index s5 = 3
    /\ GameState.deep_fragments s5 = [f2]
    /\ f1 ∉ GameState.deep_fragments s5.
Proof.
  do 13 eexists.
  split; [vm_compute; reflexivity|].
  split; [vm_compute; reflexivity|].
  split; [vm_compute; reflexivity|].
  split; [reflexivity|]. split; [reflexivity|].
  split; [vm_compute; reflexivity|].
  split; [vm_compute; reflexivity|].
  split; [vm_compute; reflexivity|].
  split; [reflexivity|]. split; [reflexivity|].
  cbn [GameState.deep_fragments]. intros Hin.
  apply list_elem_of_singleton in Hin. discriminate Hin.
Qed.

Lemma run_end_keeps_one_deep_fragment_witness :
  exists state deep_fragment,
    GameState.deep_fragments state <> []
    /\ GameState.fragments_active state <> []
    /\ GameState.deep_fragments
         (fst (run_end state (Fixture.config 1 3) Fixture.no_content))
       = [deep_fragment]
    /\ deep_fragment ∈ GameState.fragments_active state.
Proof.
  pose (f := Fragment.mk "fragment_2_1_1" 1 1 2 "anchor" "curious" (3 # 10) 1
               (Trigger.mk "location" "" ∅) (TriggerState.mk 0 (1 # 5) (3 # 20)
               (17 # 20) None None 0) true false ∅ ∅).
  pose (old := Fragment.set_consumed true f).
  pose (state := GameState.set_deep_fragments [old]
                   (GameState.set_fragments_active [f] Fixture.spent_state)).
  destruct (run_end_keeps_one_deep_fragment state (Fixture.config 1 3)
              Fixture.no_content) as (_ & _ & Hnonempty).
  destruct Hnonempty as (r & deep_fragment & (Hat & _) & Hdeep).
  { discriminate. }
  exists state, deep_fragment.
  split; [discriminate|]. split; [discriminate|]. split; [exact Hdeep|].
  eapply list_elem_of_lookup_2. exact Hat.
Defined.

(** ** Run transition *)

Lemma final_ending_scenes (state : GameState.t) (content : ContentBundle.t) :
  final_ending state content
  = map (fun scene => Message.mk "narrator" scene "final_ending" [])
        (first_ending_scenes content).
Proof.
  unfold final_ending, first_ending_scenes.
  destruct (ContentBundle.endings content); reflexivity.
Qed.

Lemma geb_false (a b : Z) : a < b -> (a >=? b) = false.
Proof. intros H. rewrite Z.geb_leb. apply Z.leb_gt. exact H. Qed.

Lemma geb_true (a b : Z) : b <= a -> (a >=? b) = true.
Proof. intros H. rewrite Z.geb_leb. apply Z.leb_le. exact H. Qed.

Lemma run_end_restarts (state : GameState.t) (config : ConfigBundle.t)
    (content : ContentBundle.t) :
  GameState.run_index state < GameState.max_runs state ->
  let state' := fst (run_end state config content) in
  GameState.game_phase state' = RUNNING
  /\ GameState.day_index state' = 1
  /\ GameState.run_index state' = GameState.run_index state + 1
  /\ GameState.run_seed state'
     = stable_seed [PStr (GameState.session_id state); PStr "run_seed";
                    PInt (GameState.run_index state + 1)]
  /\ GameState.event_history state' = []
  /\ snd (run_end state config content)
     = [run_end_message (GameState.run_index state)].
Proof.
  intros Hlt. unfold run_end.
  destruct (Py.max_by Fragment.salience_score (GameState.fragments_active state));
    cbn [GameState.run_index GameState.max_runs GameState.set_fragments_active
         GameState.set_deep_fragments];
    rewrite (geb_false _ _ Hlt); repeat split.
Qed.

Lemma run_end_finishes (state : GameState.t) (config : ConfigBundle.t)
    (content : ContentBundle.t) :
  GameState.max_runs state <= GameState.run_index state ->
  exists at_final_end,
    GameState.game_phase at_final_end = FINAL_END
    /\ fst (run_end state config content) = GameState.set_game_phase ENDED at_final_end
    /\ snd (run_end state config content)
       = [run_end_message (GameState.run_index state)]
         ++ final_ending at_final_end content.
Proof.
  intros Hge. unfold run_end.
  destruct (Py.max_by Fragment.salience_score (GameState.fragments_active state));
    cbn [GameState.run_index GameState.max_runs GameState.set_fragments_active
         GameState.set_deep_fragments];
    rewrite (geb_true _ _ Hge);
    (eexists; split; [|split]; [|reflexivity|]; [reflexivity|reflexivity]).
Qed.

Lemma day_end_enters_run_end (state : GameState.t) (config : ConfigBundle.t)
    (content : ContentBundle.t) :
  default 7 (ConfigBundle.run config !! "days_per_run")
  < GameState.day_index state + 1 ->
  exists at_run_end gained,
    GameState.game_phase at_run_end = RUN_END
    /\ GameState.day_index at_run_end = GameState.day_index state + 1
    /\ GameState.run_index at_run_end = GameState.run_index state
    /\ GameState.max_runs at_run_end = GameState.max_runs state
    /\ GameState.session_id at_run_end = GameState.session_id state
    /\ day_end state config content
       = (fst (run_end at_run_end config content),
          gained ++ snd (run_end at_run_end config content)).
Proof.
  intros Hpast. apply Z.ltb_lt in Hpast. unfold day_end.
  destruct (pick_fragment state config) as [fragment|];
    cbn [GameState.day_index GameState.set_day_index
         GameState.set_current_context GameState.set_fragment_candidates_today
         GameState.set_fragments_active];
    rewrite Hpast;
    match goal with
    | |- context [run_end ?s config content] =>
        exists s; destruct (run_end s config content) as [s' ms] eqn:Hrun
    end;
    eexists; repeat split.
Qed.

(** C4.  When a [day_end] call pushes [day_index] past [days_per_run],
    [run_end] is entered in phase [RUN_END].  With [run_index < max_runs] the
    session is back in [RUNNING] at day 1 of the next run, with the seed
    derived for that run and an empty event history.  Otherwise the phase is
    [FINAL_END] while the ending is played, one [final_ending] message per
    scene of the first ending, and [ENDED] afterwards.  With
    [days_per_run = 7] and [max_runs = 1] this happens in the seventh call. *)
Theorem day_end_run_transition :
  (forall (state : GameState.t) (config : ConfigBundle.t) (content : ContentBundle.t),
     default 7 (ConfigBundle.run config !! "days_per_run")
     < GameState.day_index state + 1 ->
     exists at_run_end gained,
       GameState.game_phase at_run_end = RUN_END
       /\ GameState.day_index at_run_end = GameState.day_index state + 1
       /\ GameState.run_index at_run_end = GameState.run_index state
       /\ day_end state config content
          = (fst (run_end at_run_end config content),
             gained ++ snd (run_end at_run_end config content))
       /\ (GameState.run_index state < GameState.max_runs state ->
           let state' := fst (day_end state config content) in
           GameState.game_phase state' = RUNNING
           /\ GameState.day_index state' = 1
           /\ GameState.run_index state' = GameState.run_index state + 1
           /\ GameState.run_seed state'
              = stable_seed [PStr (GameState.session_id state); PStr "run_seed";
                             PInt (GameState.run_index state + 1)]
           /\ GameState.event_history state' = []
           /\ snd (day_end state config content)
              = gained ++ [run_end_message (GameState.run_index state)])
       /\ (GameState.max_runs state <= GameState.run_index state ->
           exists at_final_end,
             GameState.game_phase at_final_end = FINAL_END
             /\ fst (day_end state config content)
                = GameState.set_game_phase ENDED at_final_end
             /\ GameState.game_phase (fst (day_end state config content)) = ENDED
             /\ snd (day_end state config content)
                = gained ++ [run_end_message (GameState.run_index state)]
                  ++ final_ending at_final_end content
             /\ final_ending at_final_end content
                = map (fun scene => Message.mk "narrator" scene "final_ending" [])
                      (first_ending_scenes content)))
  /\ (exists s0 s1 s2 s3 s4 s5 s6 s7 m1 m2 m3 m4 m5 m6,
        let config := Fixture.config 7 1 in
        let content := Fixture.ending_content in
        create_initial_state config "session" = Py.Return s0
        /\ day_end s0 config content = (s1, m1)
        /\ day_end s1 config content = (s2, m2)
        /\ day_end s2 config content = (s3, m3)
        /\ day_end s3 config content = (s4, m4)
        /\ day_end s4 config content = (s5, m5)
        /\ day_end s5 config content = (s6, m6)
        /\ Forall (fun s => GameState.game_phase s = RUNNING) [s0; s1; s2; s3; s4; s5; s6]
        /\ day_end s6 config content
           = (s7, [run_end_message 1;
                   Message.mk "narrator" "scene one" "final_ending" [];
                   Message.mk "narrator" "scene two" "final_ending" []])
        /\ GameState.game_phase s7 = ENDED).
Proof.
  split.
  - intros state config content Hpast.
    destruct (day_end_enters_run_end state config content Hpast)
      as (at_run_end & gained & Hphase & Hday & Hrun & Hmax & Hsid & Hend).
    exists at_run_end, gained.
    split; [exact Hphase|]. split; [exact Hday|]. split; [exact Hrun|].
    split; [exact Hend|]. rewrite Hend. cbn [fst snd]. split.
    + intros Hlt. rewrite <- Hrun, <- Hmax in Hlt.
      destruct (run_end_restarts at_run_end config content Hlt)
        as (H1 & H2 & H3 & H4 & H5 & H6).
      rewrite H1, H2, H3, H4, H5, H6, Hrun, Hsid. repeat split.
    + intros Hge. rewrite <- Hrun, <- Hmax in Hge.
      destruct (run_end_finishes at_run_end config content Hge)
        as (at_final_end & H1 & H2 & H3).
      exists at_final_end. split; [exact H1|]. split; [exact H2|].
      split; [rewrite H2; reflexivity|]. split; [rewrite H3, Hrun; reflexivity|].
      apply final_ending_scenes.
  - do 14 eexists. intros config content.
    split; [vm_compute; reflexivity|].
    do 6 (split; [vm_compute; reflexivity|]).
    split; [repeat constructor|].
    split; [vm_compute; reflexivity|reflexivity].
Qed.

Lemma day_end_run_transition_witness :
  let state' := fst (day_end Fixture.spent_state (Fixture.config 1 3) Fixture.no_content) in
  GameState.game_phase state' = RUNNING
  /\ GameState.day_index state' = 1
  /\ GameState.run_index state' = 2.
Proof.
  destruct day_end_run_transition as [Hgeneral _].
  destruct (Hgeneral Fixture.spent_state (Fixture.config 1 3) Fixture.no_content)
    as (at_run_end & gained & _ & _ & _ & _ & Hrestart & _).
  { vm_compute. reflexivity. }
  destruct Hrestart as (H1 & H2 & H3 & _).
  { vm_compute. reflexivity. }
  cbv zeta. rewrite H1, H2, H3. repeat split.
Defined.

(** ** Daily counters stay within the caps *)

Lemma within_caps_same (s s' : GameState.t) :
  GameState.caps s' = GameState.caps s ->
  GameState.daily_fragment_count s' = GameState.daily_fragment_count s ->
  GameState.daily_proactive_count s' = GameState.daily_proactive_count s ->
  within_caps s -> within_caps s'.
Proof.
  unfold within_caps. intros -> -> ->. auto.
Qed.

Lemma fragment_trigger_check_within_caps (state : GameState.t)
    (location stage_id : string) :
  within_caps state ->
  within_caps (fst (fragment_trigger_check state location stage_id)).
Proof.
  intros Hin. unfold fragment_trigger_check.
  destruct (GameState.daily_fragment_count state
            >=? Caps.daily_fragment_cap (GameState.caps state)) eqn:Hcap;
    [exact Hin|].
  rewrite Z.geb_leb in Hcap. apply Z.leb_gt in Hcap.
  destruct (select_fragment state location) as [[i fragment]|]; [|exact Hin].
  destruct (already_checked _ _ _); [exact Hin|].
  destruct (RollResult.success _).
  - unfold within_caps in *. state_simpl. lia.
  - destruct (Py.index micro_lines _); apply (within_caps_same state); auto.
Qed.

Lemma proactive_check_within_caps (state : GameState.t) (content : ContentBundle.t)
    (stage_id : string) :
  within_caps state -> within_caps (fst (proactive_check state content stage_id)).
Proof.
  intros Hin. unfold proactive_check.
  destruct (GameState.daily_proactive_count state
            >=? Caps.daily_proactive_cap (GameState.caps state)) eqn:Hcap;
    [exact Hin|].
  rewrite Z.geb_leb in Hcap. apply Z.leb_gt in Hcap.
  destruct (Resources.npc_initiative (GameState.resources state) <=? 0); [exact Hin|].
  destruct (List.filter (hook_eligible state) (ContentBundle.hooks content))
    as [|h eligible]; [exact Hin|].
  destruct (select_hook (h :: eligible) state stage_id) as [hook|]; [|exact Hin].
  destruct (RollResult.success _).
  - unfold within_caps in *. state_simpl. lia.
  - apply (within_caps_same state); auto.
Qed.

Lemma day_start_within_caps (state : GameState.t) (config : ConfigBundle.t) :
  within_caps state -> within_caps (fst (day_start state config)).
Proof.
  intros Hin. unfold day_start.
  destruct (Resources.init (ConfigBundle.resources config)); [|exact Hin].
  unfold within_caps in *. state_simpl. lia.
Qed.

Lemma action_select_within_caps (state : GameState.t) (content : ContentBundle.t)
    (location time_slot stage_id : string) :
  within_caps state ->
  within_caps (fst (action_select state content location time_slot stage_id)).
Proof.
  intros Hin. unfold action_select.
  destruct (Resources.ap (GameState.resources state) <=? 0); [exact Hin|].
  match goal with
  | |- context [fragment_trigger_check ?s location stage_id] =>
      pose proof (fragment_trigger_check_within_caps s location stage_id) as Hftc;
      destruct (fragment_trigger_check s location stage_id) as [s1 [fragment_message|e]]
  end; cbn [fst] in Hftc.
  2: { apply Hftc. apply (within_caps_same state); auto. }
  assert (within_caps s1) as H1 by (apply Hftc; apply (within_caps_same state); auto).
  clear Hftc.
  destruct (select_event content location time_slot s1) as [event|];
    [destruct fragment_message, (Event.event_id event) as [event_id|];
     try destruct (Py.truthy_str event_id)|];
    cbv beta iota zeta;
    match goal with
    | |- context [proactive_check ?s content stage_id] =>
        pose proof (proactive_check_within_caps s content stage_id) as Hpc;
        destruct (proactive_check s content stage_id) as [s3 ms]
    end;
    apply Hpc; apply (within_caps_same s1); auto.
Qed.

Lemma chat_within_caps (state : GameState.t) (text : string)
    (content : ContentBundle.t) (stage_id : string) :
  within_caps state -> within_caps (fst (chat state text content stage_id)).
Proof.
  intros Hin. unfold chat.
  destruct (Resources.chat_turns (GameState.resources state) <=? 0); [exact Hin|].
  match goal with
  | |- context [proactive_check ?s content stage_id] =>
      pose proof (proactive_check_within_caps s content stage_id) as Hpc;
      destruct (proactive_check s content stage_id) as [s3 ms]
  end.
  apply Hpc. apply (within_caps_same state); auto.
Qed.

Lemma run_end_within_caps (state : GameState.t) (config : ConfigBundle.t)
    (content : ContentBundle.t) :
  within_caps state -> within_caps (fst (run_end state config content)).
Proof.
  intros Hin. unfold run_end.
  destruct (Py.max_by Fragment.salience_score (GameState.fragments_active state));
    cbn [GameState.run_index GameState.max_runs GameState.set_fragments_active
         GameState.set_deep_fragments];
    destruct (GameState.run_index state >=? GameState.max_runs state);
    apply (within_caps_same state); auto.
Qed.

Lemma day_end_within_caps (state : GameState.t) (config : ConfigBundle.t)
    (content : ContentBundle.t) :
  within_caps state -> within_caps (fst (day_end state config content)).
Proof.
  intros Hin. unfold day_end.
  destruct (pick_fragment state config) as [fragment|];
    cbn [GameState.day_index GameState.set_day_index
         GameState.set_current_context GameState.set_fragment_candidates_today
         GameState.set_fragments_active];
    destruct (_ <? _);
    try (apply (within_caps_same state); auto; fail);
    match goal with
    | |- context [run_end ?s config content] =>
        pose proof (run_end_within_caps s config content) as Hre;
        destruct (run_end s config content) as [s' ms]
    end;
    apply Hre; apply (within_caps_same state); auto.
Qed.

Lemma perform_within_caps (state : GameState.t) (c : call) :
  within_caps state -> within_caps (perform state c).
Proof.
  destruct c; simpl.
  - apply day_start_within_caps.
  - apply action_select_within_caps.
  - apply chat_within_caps.
  - apply day_end_within_caps.
Qed.

(** C3.  In every state reached from a fresh initial state with non-negative
    caps by any sequence of [day_start], [action_select], [chat] and
    [day_end] calls, both daily counters are within their caps. *)
Theorem daily_counters_within_caps (config : ConfigBundle.t) (session_id : string)
    (initial : GameState.t) (calls : list call) :
  create_initial_state config session_id = Py.Return initial ->
  0 <= Caps.daily_fragment_cap (GameState.caps initial) ->
  0 <= Caps.daily_proactive_cap (GameState.caps initial) ->
  let state := perform_all initial calls in
  GameState.daily_fragment_count state
  <= Caps.daily_fragment_cap (GameState.caps state)
  /\ GameState.daily_proactive_count state
     <= Caps.daily_proactive_cap (GameState.caps state).
Proof.
  intros Hinit Hf Hp.
  assert (within_caps initial) as Hin.
  { unfold create_initial_state in Hinit.
    destruct (Resources.init _); [|discriminate].
    destruct (Caps.init _); [|discriminate].
    injection Hinit as <-. unfold within_caps in *. simpl in *. lia. }
  clear Hinit Hf Hp. unfold perform_all.
  revert initial Hin. induction calls as [|c calls IH]; intros initial Hin.
  - simpl. unfold within_caps in Hin. tauto.
  - simpl. apply IH. apply perform_within_caps. exact Hin.
Qed.

Lemma daily_counters_within_caps_witness :
  exists initial,
    create_initial_state (Fixture.config 7 5) "session" = Py.Return initial
    /\ let state := perform_all initial Fixture.school_days in
       GameState.daily_fragment_count state
       <= Caps.daily_fragment_cap (GameState.caps state)
       /\ GameState.daily_proactive_count state
          <= Caps.daily_proactive_cap (GameState.caps state).
Proof.
  eexists. split; [vm_compute; reflexivity|].
  apply (daily_counters_within_caps (Fixture.config 7 5) "session").
  - vm_compute. reflexivity.
  - simpl. lia.
  - simpl. lia.
Defined.

(** ** Proactive hook engine *)

(** C6.  When [proactive_check] attempts a hook (caps and initiative allow
    it, some hook is eligible and [select_hook] picks [hook]), it returns no
    message and appends exactly one trace entry.  On success the exposure
    counter of the hook is 0, its cooldown is the current day plus
    [cooldown_days], one initiative point and one unit of the daily proactive
    counter are consumed, and the message is queued on the state, from where
    [build_response] moves it into the response.  On failure the exposure
    counter grows by one and nothing else changes. *)
Theorem proactive_check_attempt (state : GameState.t) (content : ContentBundle.t)
    (stage_id : string) (hook : Hook.t) :
  GameState.daily_proactive_count state
  < Caps.daily_proactive_cap (GameState.caps state) ->
  0 < Resources.npc_initiative (GameState.resources state) ->
  List.filter (hook_eligible state) (ContentBundle.hooks content) <> [] ->
  select_hook (List.filter (hook_eligible state) (ContentBundle.hooks content))
              state stage_id = Some hook ->
  let hook_id := proactive_hook_id hook in
  let exposures := hook_exposure_of state hook_id in
  let result := proactive_roll_of state stage_id hook in
  let state' := fst (proactive_check state content stage_id) in
  let ps := GameState.proactive_state state in
  let ps' := GameState.proactive_state state' in
  snd (proactive_check state content stage_id) = []
  /\ GameState.trace_log state'
     = GameState.trace_log state
       ++ [TraceEntry.mk TraceEntry.proactive_roll hook_id
             (RollResult.probability result) (RollResult.roll result)
             (RollResult.success result) exposures stage_id]
  /\ (RollResult.success result = true ->
      ProactiveState.hook_exposures ps'
      = <[hook_id:=0]> (ProactiveState.hook_exposures ps)
      /\ hook_exposure_of state' hook_id = 0
      /\ ProactiveState.hook_cooldowns ps'
         = <[hook_id:=GameState.day_index state + default 1 (Hook.cooldown_days hook)]>
             (ProactiveState.hook_cooldowns ps)
      /\ hook_cooldown_of state' hook_id
         = GameState.day_index state + default 1 (Hook.cooldown_days hook)
      /\ GameState.resources state'
         = Resources.set_npc_initiative
             (Resources.npc_initiative (GameState.resources state) - 1)
             (GameState.resources state)
      /\ GameState.daily_proactive_count state'
         = GameState.daily_proactive_count state + 1
      /\ GameState.pending_npc_messages state'
         = GameState.pending_npc_messages state ++ [proactive_message hook]
      /\ (forall messages ui_hints trace_id,
            let response := build_response state' messages ui_hints trace_id in
            ApiResponse.messages response
            = messages ++ GameState.pending_npc_messages state
                       ++ [proactive_message hook]
            /\ GameState.pending_npc_messages (ApiResponse.state response) = []))
  /\ (RollResult.success result = false ->
      ProactiveState.hook_exposures ps'
      = <[hook_id:=exposures + 1]> (ProactiveState.hook_exposures ps)
      /\ hook_exposure_of state' hook_id = exposures + 1
      /\ ProactiveState.hook_cooldowns ps' = ProactiveState.hook_cooldowns ps
      /\ GameState.resources state' = GameState.resources state
      /\ GameState.daily_proactive_count state'
         = GameState.daily_proactive_count state
      /\ GameState.pending_npc_messages state'
         = GameState.pending_npc_messages state).
Proof.
  intros Hcap Hini Heligible Hselect hook_id exposures result state' ps ps'.
  subst state' ps'. unfold proactive_check.
  rewrite (geb_false _ _ Hcap).
  replace (Resources.npc_initiative (GameState.resources state) <=? 0) with false
    by (symmetry; apply Z.leb_gt; exact Hini).
  destruct (List.filter (hook_eligible state) (ContentBundle.hooks content))
    as [|h eligible] eqn:Hfilter; [contradiction|].
  rewrite Hselect.
  fold (proactive_hook_id hook). fold hook_id. fold exposures.
  change (roll_with_pity _ _ _ exposures _) with result.
  destruct (RollResult.success result) eqn:Hsuccess; cbn [negb fst snd].
  - split; [reflexivity|]. split; [reflexivity|]. split; [|discriminate].
    intros _. split; [reflexivity|].
    split; [unfold hook_exposure_of; state_simpl; rewrite lookup_insert_eq; reflexivity|].
    split; [reflexivity|].
    split; [unfold hook_cooldown_of; state_simpl; rewrite lookup_insert_eq; reflexivity|].
    split; [reflexivity|]. split; [reflexivity|]. split; [reflexivity|].
    intros messages ui_hints trace_id. unfold build_response. state_simpl.
    destruct (GameState.pending_npc_messages state); split; reflexivity.
  - split; [reflexivity|]. split; [reflexivity|]. split; [discriminate|].
    intros _. split; [reflexivity|].
    split; [unfold hook_exposure_of; state_simpl; rewrite lookup_insert_eq; reflexivity|].
    repeat split.
Qed.

Lemma proactive_check_attempt_witness :
  let succeeded := fst (proactive_check Fixture.at_school Fixture.sure_content "chat") in
  let failed := fst (proactive_check Fixture.at_school Fixture.shy_content "chat") in
  (hook_exposure_of succeeded "greet" = 0
   /\ hook_cooldown_of succeeded "greet" = 3
   /\ Resources.npc_initiative (GameState.resources succeeded) = 0
   /\ GameState.daily_proactive_count succeeded = 1
   /\ GameState.pending_npc_messages succeeded = [proactive_message Fixture.sure_hook]
   /\ length (GameState.trace_log succeeded) = 1%nat)
  /\ (hook_exposure_of failed "shy" = 1
      /\ GameState.resources failed = GameState.resources Fixture.at_school
      /\ GameState.pending_npc_messages failed = []
      /\ length (GameState.trace_log failed) = 1%nat).
Proof.
  intros succeeded failed. split.
  - destruct (proactive_check_attempt Fixture.at_school Fixture.sure_content
                "chat" Fixture.sure_hook) as (_ & Htrace & Hsuccess & _).
    + vm_compute. reflexivity.
    + vm_compute. reflexivity.
    + vm_compute. discriminate.
    + vm_compute. reflexivity.
    + destruct Hsuccess as (_ & H1 & _ & H2 & H3 & H4 & H5 & _).
      { vm_compute. reflexivity. }
      subst succeeded. rewrite H3, H4, H5, Htrace.
      split; [exact H1|]. split; [exact H2|]. repeat split.
  - destruct (proactive_check_attempt Fixture.at_school Fixture.shy_content
                "chat" Fixture.shy_hook) as (_ & Htrace & _ & Hfailure).
    + vm_compute. reflexivity.
    + vm_compute. reflexivity.
    + vm_compute. discriminate.
    + vm_compute. reflexivity.
    + destruct Hfailure as (_ & H1 & _ & H2 & _ & H3).
      { vm_compute. reflexivity. }
      subst failed. rewrite H2, H3, Htrace.
      split; [exact H1|]. repeat split.
Defined.

(** ** Fragment trigger engine *)

Lemma eligible_fragments_elem (state : GameState.t) (location : string)
    (i : nat) (f : Fragment.t) :
  (i, f) ∈ eligible_fragments state location
  <-> GameState.fragments_active state !! i = Some f
      /\ fragment_eligible state location f = true.
Proof.
  unfold eligible_fragments.
  rewrite list_elem_of_In, List.filter_In, <- list_elem_of_In, elem_of_lookup_imap.
  cbn [snd]. split.
  - intros [(j & g & Heq & Hat) Hok]. injection Heq as -> ->. auto.
  - intros [Hat Hok]. split; [eauto|exact Hok].
Qed.

(** The selected fragment is an active, eligible fragment whose key no other
    eligible fragment exceeds, and the first such in the active list. *)
Lemma select_fragment_spec (state : GameState.t) (location : string)
    (i : nat) (f : Fragment.t) :
  select_fragment state location = Some (i, f) ->
  GameState.fragments_active state !! i = Some f
  /\ fragment_eligible state location f = true
  /\ (forall j g, GameState.fragments_active state !! j = Some g ->
        fragment_eligible state location g = true ->
        (fragment_key g <= fragment_key f)%Q).
Proof.
  unfold select_fragment. intros Hsel.
  pose proof (max_by_elem _ _ _ Hsel) as Hin.
  apply eligible_fragments_elem in Hin. destruct Hin as [Hat Hok].
  split; [exact Hat|]. split; [exact Hok|].
  intros j g Hj Hg.
  destruct (max_by_first_max _ _ _ Hsel) as (r & _ & Hmax & _).
  assert ((j, g) ∈ eligible_fragments state location) as Hjg
    by (apply eligible_fragments_elem; auto).
  apply list_elem_of_lookup in Hjg. destruct Hjg as [k Hk].
  apply (Hmax k (j, g) Hk).
Qed.

Lemma select_fragment_None (state : GameState.t) (location : string) :
  select_fragment state location = None
  <-> forall j g, GameState.fragments_active state !! j = Some g ->
        fragment_eligible state location g = false.
Proof.
  unfold select_fragment. rewrite max_by_None. split.
  - intros Hnil j g Hj. destruct (fragment_eligible state location g) eqn:Hg; [|reflexivity].
    assert ((j, g) ∈ eligible_fragments state location) as Hjg
      by (apply eligible_fragments_elem; auto).
    rewrite Hnil in Hjg. inversion Hjg.
  - intros Hnone. destruct (eligible_fragments state location) as [|[j g] rest] eqn:He;
      [reflexivity|].
    assert ((j, g) ∈ eligible_fragments state location) as Hjg by (rewrite He; left).
    apply eligible_fragments_elem in Hjg. destruct Hjg as [Hj Hg].
    rewrite (Hnone j g Hj) in Hg. discriminate.
Qed.

(** What one call of [fragment_trigger_check] does to the state: nothing, or
    one roll on the selected fragment, written back at its position, with one
    trace entry naming it. *)
Lemma fragment_trigger_check_effect (state : GameState.t) (location stage_id : string) :
  let state' := fst (fragment_trigger_check state location stage_id) in
  fragment_trigger_check state location stage_id = (state, Py.Return None)
  \/ exists i f f' entry,
       select_fragment state location = Some (i, f)
       /\ already_checked (Fragment.trigger_state f) (GameState.day_index state)
                          stage_id = false
       /\ GameState.fragments_active state'
          = <[i:=f']> (GameState.fragments_active state)
       /\ GameState.trace_log state' = GameState.trace_log state ++ [entry]
       /\ TraceEntry.kind entry = TraceEntry.fragment_roll
       /\ TraceEntry.subject_id entry = Fragment.fragment_id f
       /\ GameState.day_index state' = GameState.day_index state
       /\ GameState.deep_fragments state' = GameState.deep_fragments state.
Proof.
  unfold fragment_trigger_check.
  destruct (GameState.daily_fragment_count state
            >=? Caps.daily_fragment_cap (GameState.caps state)); [left; reflexivity|].
  destruct (select_fragment state location) as [[i f]|] eqn:Hsel; [|left; reflexivity].
  destruct (already_checked _ _ _) eqn:Hchk; [left; reflexivity|].
  right. exists i, f.
  destruct (RollResult.success _).
  - do 2 eexists. cbn [fst].
    split; [reflexivity|]. split; [exact Hchk|]. repeat split; reflexivity.
  - destruct (Py.index micro_lines _); do 2 eexists; cbn [fst];
      (split; [reflexivity|]; split; [exact Hchk|]; repeat split; reflexivity).
Qed.

Lemma consumed_not_eligible (state : GameState.t) (location : string) (f : Fragment.t) :
  Fragment.consumed f = true -> fragment_eligible state location f = false.
Proof.
  intros Hc. unfold fragment_eligible. rewrite Hc. reflexivity.
Qed.

Lemma consumed_not_selected (state : GameState.t) (location : string)
    (i j : nat) (f g : Fragment.t) :
  GameState.fragments_active state !! i = Some f ->
  Fragment.consumed f = true ->
  select_fragment state location = Some (j, g) ->
  j <> i /\ Fragment.consumed g = false.
Proof.
  intros Hat Hc Hsel.
  destruct (select_fragment_spec _ _ _ _ Hsel) as (Hj & Hok & _).
  assert (Fragment.consumed g = false) as Hg.
  { unfold fragment_eligible in Hok. destruct (Fragment.consumed g); [discriminate|reflexivity]. }
  split; [|exact Hg]. intros ->. congruence.
Qed.

Lemma proactive_check_fragments (state : GameState.t) (content : ContentBundle.t)
    (stage_id : string) :
  GameState.fragments_active (fst (proactive_check state content stage_id))
  = GameState.fragments_active state.
Proof.
  unfold proactive_check.
  destruct (_ >=? _); [reflexivity|].
  destruct (_ <=? _); [reflexivity|].
  destruct (List.filter _ _); [reflexivity|].
  destruct (select_hook _ _ _); [|reflexivity].
  destruct (RollResult.success _); reflexivity.
Qed.

(** Every entry point leaves a consumed active fragment as it is, unless the
    call ends the run and empties the active list. *)
Lemma perform_keeps_consumed (state : GameState.t) (c : call) (i : nat)
    (f : Fragment.t) :
  GameState.fragments_active state !! i = Some f ->
  Fragment.consumed f = true ->
  GameState.fragments_active (perform state c) !! i = Some f
  \/ GameState.fragments_active (perform state c) = [].
Proof.
  intros Hat Hc. destruct c as [config|content location time_slot stage_id
                                |text content stage_id|config content]; cbn [perform].
  - left. unfold day_start. destruct (Resources.init _); exact Hat.
  - left. unfold action_select.
    destruct (Resources.ap (GameState.resources state) <=? 0); [exact Hat|].
    match goal with
    | |- context [fragment_trigger_check ?s location stage_id] =>
        pose proof (fragment_trigger_check_effect s location stage_id) as Heff;
        assert (GameState.fragments_active s !! i = Some f) as Hat1 by exact Hat;
        destruct (fragment_trigger_check s location stage_id)
          as [s1 [fragment_message|e]] eqn:Hftc
    end; cbn [fst] in Heff.
    + assert (GameState.fragments_active s1 !! i = Some f) as Hs1.
      { destruct Heff as [Heq|(j & g & g' & entry & Hsel & _ & Hact & _)].
        - injection Heq as Hs _. rewrite Hs. exact Hat1.
        - destruct (consumed_not_selected _ _ _ _ _ _ Hat1 Hc Hsel) as [Hne _].
          rewrite Hact, list_lookup_insert_ne by exact Hne. exact Hat1. }
      destruct (select_event content location time_slot s1) as [event|];
        [destruct fragment_message, (Event.event_id event) as [event_id|];
         try destruct (Py.truthy_str event_id)|];
        cbv beta iota zeta;
        match goal with
        | |- context [proactive_check ?s content stage_id] =>
            pose proof (proactive_check_fragments s content stage_id) as Hpc;
            destruct (proactive_check s content stage_id) as [s3 ms]
        end;
        cbn [fst] in *; rewrite Hpc; exact Hs1.
    + cbn [fst].
      destruct Heff as [Heq|(j & g & g' & entry & Hsel & _ & Hact & _)].
      * discriminate Heq.
      * destruct (consumed_not_selected _ _ _ _ _ _ Hat1 Hc Hsel) as [Hne _].
        rewrite Hact, list_lookup_insert_ne by exact Hne. exact Hat1.
  - left. unfold chat.
    destruct (Resources.chat_turns (GameState.resources state) <=? 0); [exact Hat|].
    match goal with
    | |- context [proactive_check ?s content stage_id] =>
        pose proof (proactive_check_fragments s content stage_id) as Hpc;
        destruct (proactive_check s content stage_id) as [s3 ms]
    end.
    cbn [fst] in *. rewrite Hpc. exact Hat.
  - unfold day_end.
    destruct (pick_fragment state config) as [fragment|];
      cbn [GameState.day_index GameState.set_day_index
           GameState.set_current_context GameState.set_fragment_candidates_today
           GameState.set_fragments_active];
      destruct (_ <? _);
      try (match goal with
           | |- context [run_end ?s config content] =>
               pose proof (run_end_fragments s config content) as [Hre _];
               destruct (run_end s config content) as [s' ms]
           end; right; exact Hre).
    + left. state_simpl.
      rewrite lookup_app_l by (eapply lookup_lt_Some; exact Hat). exact Hat.
    + left. exact Hat.
Qed.

(** C9.  A fragment whose [consumed] flag is set is never the one
    [fragment_trigger_check] selects, on any location, day or stage: the call
    leaves it as it is, and a trace entry the call appends names the selected,
    unconsumed fragment at another position.  The same holds along any
    sequence of entry-point calls, up to the run end that empties the active
    list. *)
Theorem consumed_fragment_never_rechecked (state : GameState.t) (i : nat)
    (f : Fragment.t) :
  GameState.fragments_active state !! i = Some f ->
  Fragment.consumed f = true ->
  (forall day location stage_id,
     let now := GameState.set_day_index day state in
     let state' := fst (fragment_trigger_check now location stage_id) in
     fragment_eligible now location f = false
     /\ (forall g, select_fragment now location <> Some (i, g))
     /\ GameState.fragments_active state' !! i = Some f
     /\ (GameState.trace_log state' = GameState.trace_log state
         \/ exists j g entry,
              j <> i
              /\ GameState.fragments_active state !! j = Some g
              /\ Fragment.consumed g = false
              /\ select_fragment now location = Some (j, g)
              /\ GameState.trace_log state' = GameState.trace_log state ++ [entry]
              /\ TraceEntry.subject_id entry = Fragment.fragment_id g))
  /\ (forall calls,
        GameState.fragments_active (perform_all state calls) !! i = Some f
        \/ exists k, GameState.fragments_active (perform_all state (take k calls)) = []).
Proof.
  intros Hat Hc. split.
  - intros day location stage_id now state'.
    assert (GameState.fragments_active now !! i = Some f) as Hnow by exact Hat.
    split; [apply consumed_not_eligible; exact Hc|].
    split.
    { intros g Hsel.
      destruct (consumed_not_selected _ _ _ _ _ _ Hnow Hc Hsel) as [Hne _].
      apply Hne. reflexivity. }
    subst state'.
    destruct (fragment_trigger_check_effect now location stage_id)
      as [Heq|(j & g & g' & entry & Hsel & _ & Hact & Htrace & _ & Hsubject & _)].
    + rewrite Heq. cbn [fst]. split; [exact Hnow|left; reflexivity].
    + destruct (consumed_not_selected _ _ _ _ _ _ Hnow Hc Hsel) as [Hne Hg].
      split.
      * rewrite Hact, list_lookup_insert_ne by exact Hne. exact Hnow.
      * right. exists j, g, entry.
        destruct (select_fragment_spec _ _ _ _ Hsel) as (Hj & _).
        repeat (split; [assumption|]). exact Hsubject.
  - intros calls. revert state Hat.
    induction calls as [|c calls IH]; intros state Hat.
    + left. exact Hat.
    + destruct (perform_keeps_consumed state c i f Hat Hc) as [Hkept|Hended].
      * destruct (IH (perform state c) Hkept) as [Hlater|[k Hk]].
        -- left. exact Hlater.
        -- right. exists (S k). exact Hk.
      * right. exists 1%nat. exact Hended.
Qed.

Lemma consumed_fragment_never_rechecked_witness :
  let state' := fst (fragment_trigger_check Fixture.with_consumed "school" "chat") in
  GameState.fragments_active state' !! 0%nat = Some Fixture.consumed_fragment
  /\ length (GameState.trace_log state') = 1%nat
  /\ (fragment_key Fixture.unchecked_fragment
      < fragment_key Fixture.consumed_fragment)%Q.
Proof.
  destruct (consumed_fragment_never_rechecked Fixture.with_consumed 0%nat
              Fixture.consumed_fragment) as [Hcall _].
  - reflexivity.
  - reflexivity.
  - destruct (Hcall 1 "school"%string "chat"%string) as (_ & _ & Hkept & _).
    split; [exact Hkept|]. split; vm_compute; reflexivity.
Defined.






(** ** The entry points return on reachable states *)

Lemma micro_line_exists (exposures : Z) :
  0 <= exposures ->
  exists line, Py.index micro_lines (Py.min2Z (exposures + 1) 3 - 1) = Some line.
Proof.
  intros Hn. unfold Py.min2Z. destruct (3 <? exposures + 1) eqn:Hcmp.
  - eexists. reflexivity.
  - apply Z.ltb_ge in Hcmp.
    assert (exposures = 0 \/ exposures = 1 \/ exposures = 2) as [->|[->| ->]] by lia;
      eexists; reflexivity.
Qed.

Lemma fragment_trigger_check_returns (state : GameState.t) (location stage_id : string) :
  nonneg_exposures state ->
  nonneg_exposures (fst (fragment_trigger_check state location stage_id))
  /\ exists message,
       snd (fragment_trigger_check state location stage_id) = Py.Return message.
Proof.
  intros Hnn. unfold fragment_trigger_check.
  destruct (_ >=? _); [split; [exact Hnn|eauto]|].
  destruct (select_fragment state location) as [[i f]|] eqn:Hsel;
    [|split; [exact Hnn|eauto]].
  destruct (already_checked _ _ _); [split; [exact Hnn|eauto]|].
  destruct (select_fragment_spec _ _ _ _ Hsel) as (Hat & _).
  assert (0 <= TriggerState.exposures (Fragment.trigger_state f)) as Hf.
  { unfold nonneg_exposures in Hnn. rewrite Forall_lookup in Hnn. eapply Hnn; eauto. }
  destruct (RollResult.success _).
  - split; [|cbn [snd]; eauto].
    unfold nonneg_exposures. state_simpl. apply Forall_insert; [exact Hnn|].
    cbn. lia.
  - cbn [TriggerState.exposures TriggerState.set_last_check_stage
         TriggerState.set_last_check_day].
    destruct (micro_line_exists _ Hf) as [line ->].
    split; [|cbn [snd]; eauto].
    unfold nonneg_exposures. state_simpl. apply Forall_insert; [exact Hnn|].
    cbn. lia.
Qed.

Lemma action_select_returns (state : GameState.t) (content : ContentBundle.t)
    (location time_slot stage_id : string) :
  nonneg_exposures state ->
  nonneg_exposures (fst (action_select state content location time_slot stage_id))
  /\ exists result,
       snd (action_select state content location time_slot stage_id)
       = Py.Return result.
Proof.
  intros Hnn. unfold action_select.
  destruct (Resources.ap (GameState.resources state) <=? 0);
    [split; [exact Hnn|cbn [snd]; eauto]|].
  match goal with
  | |- context [fragment_trigger_check ?s location stage_id] =>
      destruct (fragment_trigger_check_returns s location stage_id Hnn)
        as [Hnn1 [fragment_message Hret]];
      destruct (fragment_trigger_check s location stage_id) as [s1 outcome]
  end.
  cbn [fst snd] in Hnn1, Hret. subst outcome.
  destruct (select_event content location time_slot s1) as [event|];
    [destruct fragment_message, (Event.event_id event) as [event_id|];
     try destruct (Py.truthy_str event_id)|];
    cbv beta iota zeta;
    match goal with
    | |- context [proactive_check ?s content stage_id] =>
        pose proof (proactive_check_fragments s content stage_id) as Hpc;
        destruct (proactive_check s content stage_id) as [s3 ms]
    end;
    cbn [fst snd] in *; (split; [|eauto]);
    unfold nonneg_exposures; rewrite Hpc; exact Hnn1.
Qed.

Lemma perform_nonneg_exposures (state : GameState.t) (c : call) :
  nonneg_exposures state -> nonneg_exposures (perform state c).
Proof.
  intros Hnn. destruct c as [config|content location time_slot stage_id
                             |text content stage_id|config content]; cbn [perform].
  - unfold day_start. destruct (Resources.init _); exact Hnn.
  - apply action_select_returns. exact Hnn.
  - unfold chat.
    destruct (Resources.chat_turns (GameState.resources state) <=? 0); [exact Hnn|].
    match goal with
    | |- context [proactive_check ?s content stage_id] =>
        pose proof (proactive_check_fragments s content stage_id) as Hpc;
        destruct (proactive_check s content stage_id) as [s3 ms]
    end.
    cbn [fst] in *. unfold nonneg_exposures. rewrite Hpc. exact Hnn.
  - unfold day_end.
    destruct (pick_fragment state config) as [fragment|] eqn:Hpick;
      cbn [GameState.day_index GameState.set_day_index
           GameState.set_current_context GameState.set_fragment_candidates_today
           GameState.set_fragments_active];
      destruct (_ <? _);
      try (match goal with
           | |- context [run_end ?s config content] =>
               pose proof (run_end_fragments s config content) as [Hre _];
               destruct (run_end s config content) as [s' ms]
           end; cbn [fst] in *; unfold nonneg_exposures; rewrite Hre; constructor).
    + unfold nonneg_exposures. state_simpl. apply Forall_app. split; [exact Hnn|].
      constructor; [|constructor].
      unfold pick_fragment in Hpick.
      destruct (Py.max_by _ _); [|discriminate].
      injection Hpick as <-. cbn. lia.
    + exact Hnn.
Qed.

(** X27.  From a fresh state, after any sequence of entry-point calls, every
    [action_select] call returns: exposure counts are never negative there,
    so the index into [micro_lines] is always in range. *)
Lemma action_select_returns_when_reachable (config : ConfigBundle.t)
    (session_id : string) (initial : GameState.t) (calls : list call)
    (content : ContentBundle.t) (location time_slot stage_id : string) :
  create_initial_state config session_id = Py.Return initial ->
  exists result,
    snd (action_select (perform_all initial calls) content location time_slot stage_id)
    = Py.Return result.
Proof.
  intros Hinit. apply action_select_returns.
  assert (nonneg_exposures initial) as Hnn.
  { unfold create_initial_state in Hinit.
    destruct (Resources.init _); [|discriminate].
    destruct (Caps.init _); [|discriminate].
    injection Hinit as <-. constructor. }
  clear Hinit. unfold perform_all. revert initial Hnn.
  induction calls as [|c calls IH]; intros initial Hnn; [exact Hnn|].
  cbn [fold_left]. apply IH. apply perform_nonneg_exposures. exact Hnn.
Qed.

(** * Further properties of the code *)

(** ** Seed derivation *)

Lemma hex_value_digit (d : Z) : 0 <= d < 16 -> Hashlib.hex_value (Hashlib.hex_digit d) = d.
Proof.
  intros Hd. unfold Hashlib.hex_value, Hashlib.hex_digit.
  destruct (d <? 10) eqn:Hlt.
  - apply Z.ltb_lt in Hlt. rewrite nat_ascii_embedding by lia.
    rewrite Z2Nat.id by lia. destruct (48 + d <? 58) eqn:H58; [lia|].
    apply Z.ltb_ge in H58. lia.
  - apply Z.ltb_ge in Hlt. rewrite nat_ascii_embedding by lia.
    rewrite Z2Nat.id by lia. destruct (87 + d <? 58) eqn:H58; [|lia].
    apply Z.ltb_lt in H58. lia.
Qed.

Lemma int_of_hex_pairs (bs : list Z) (acc : Z) :
  List.Forall is_byte bs ->
  fold_left (fun a c => a * 16 + Hashlib.hex_value c)
            (flat_map (fun b => [Hashlib.hex_digit (b / 16);
                                 Hashlib.hex_digit (b mod 16)]) bs) acc
  = fold_left (fun a b => a * 256 + b) bs acc.
Proof.
  revert acc. induction bs as [|b bs IH]; intros acc Hall; [reflexivity|].
  inversion Hall as [|? ? Hb Hbs]; subst. unfold is_byte in Hb.
  cbn [flat_map app fold_left]. rewrite IH by assumption. f_equal.
  rewrite !hex_value_digit.
  - pose proof (Z.div_mod b 16 ltac:(lia)). lia.
  - apply Z.mod_pos_bound. lia.
  - split; [apply Z.div_pos; lia|apply Z.div_lt_upper_bound; lia].
Qed.

Lemma substring_of_list (n : nat) (l : list ascii) :
  String.substring 0 n (string_of_list_ascii l) = string_of_list_ascii (firstn n l).
Proof.
  revert l. induction n as [|n IH]; intros [|c l]; cbn; try reflexivity.
  rewrite IH. reflexivity.
Qed.

Lemma firstn_hex_pairs (k : nat) (bs : list Z) :
  firstn (2 * k)
    (flat_map (fun b => [Hashlib.hex_digit (b / 16); Hashlib.hex_digit (b mod 16)]) bs)
  = flat_map (fun b => [Hashlib.hex_digit (b / 16); Hashlib.hex_digit (b mod 16)])
             (firstn k bs).
Proof.
  revert bs. induction k as [|k IH]; intros bs; [reflexivity|].
  destruct bs as [|b bs]; [reflexivity|].
  replace (2 * S k)%nat with (S (S (2 * k))) by lia.
  cbn [flat_map app firstn]. rewrite IH. reflexivity.
Qed.

(** X1.  Reading the first sixteen hexadecimal digits of the digest as a
    number gives the big-endian value of its first eight bytes, so
    [stable_seed] is a 64-bit unsigned integer, the same prefix
    [roll_with_pity] reads from its own digest. *)
Theorem stable_seed_is_digest_prefix (parts : list part) :
  stable_seed parts
  = Hashlib.int_from_bytes_big
      (firstn 8 (Hashlib.sha256 (Py.encode (Py.join "|" (map str parts)))))
  /\ 0 <= stable_seed parts < 18446744073709551616.
Proof.
  assert (stable_seed parts
          = Hashlib.int_from_bytes_big
              (firstn 8 (Hashlib.sha256 (Py.encode (Py.join "|" (map str parts))))))
    as Heq.
  { unfold stable_seed, Hashlib.hexdigest, Hashlib.int_of_hex,
      Hashlib.int_from_bytes_big, Hashlib.from_be.
    rewrite substring_of_list, list_ascii_of_string_of_list_ascii.
    change 16%nat with (2 * 8)%nat. rewrite firstn_hex_pairs.
    apply int_of_hex_pairs. apply Forall_take. apply sha256_is_byte. }
  split; [exact Heq|]. rewrite Heq. apply draw_range. apply sha256_is_byte.
Qed.

(** ** Selection never invents an item *)

Lemma select_scan_elem {A : Type} (base_weight : A -> option Q)
    (items : list A) (threshold c : Q) (item : A) :
  select_scan base_weight threshold c items = Some item -> item ∈ items.
Proof.
  intros Hscan. destruct (select_scan_Some _ _ _ _ _ Hscan) as (k & Hat & _).
  eapply list_elem_of_lookup_2. exact Hat.
Qed.

Lemma last_elem {A : Type} (l : list A) (x : A) : last l = Some x -> x ∈ l.
Proof.
  intros Hlast. apply last_Some in Hlast. destruct Hlast as [l' ->].
  apply elem_of_app. right. left.
Qed.

Lemma select_weighted_elem {A : Type} (base_weight : A -> option Q)
    (items : list A) (seed : Z) (item : A) :
  select_weighted base_weight items seed = Some item -> item ∈ items.
Proof.
  unfold select_weighted. destruct items as [|first rest]; [discriminate|].
  destruct (Py.Qleb _ 0).
  - intros [= <-]. left.
  - destruct (select_scan _ _ _ _) as [found|] eqn:Hscan.
    + intros [= <-]. eapply select_scan_elem. exact Hscan.
    + apply last_elem.
Qed.

Lemma select_weighted_is_Some {A : Type} (base_weight : A -> option Q)
    (items : list A) (seed : Z) :
  items <> [] -> is_Some (select_weighted base_weight items seed).
Proof.
  intros Hne. unfold select_weighted. destruct items as [|first rest]; [contradiction|].
  destruct (Py.Qleb _ 0); [eauto|].
  destruct (select_scan _ _ _ _); [eauto|].
  destruct (last (first :: rest)) eqn:Hlast; [eauto|].
  apply last_None in Hlast. discriminate.
Qed.

Lemma select_weighted_picks_member_none {A : Type} (base_weight : A -> option Q)
    (items : list A) (seed : Z) :
  select_weighted base_weight items seed = None -> items = [].
Proof.
  intros Hnone. destruct items as [|first rest]; [reflexivity|].
  destruct (select_weighted_is_Some base_weight (first :: rest) seed) as [x Hx];
    [discriminate|congruence].
Qed.

(** X2.  Whatever the weights and the seed, [select_weighted] selects
    nothing exactly on the empty list, and what it selects is one of the
    items it was given. *)
Theorem select_weighted_picks_a_member {A : Type} (base_weight : A -> option Q)
    (items : list A) (seed : Z) :
  (select_weighted base_weight items seed = None <-> items = [])
  /\ (forall item, select_weighted base_weight items seed = Some item -> item ∈ items).
Proof.
  split.
  - split.
    + intros Hnone. destruct items as [|first rest]; [reflexivity|].
      destruct (select_weighted_is_Some base_weight (first :: rest) seed) as [x Hx];
        [discriminate|congruence].
    + intros ->. reflexivity.
  - intros item. apply select_weighted_elem.
Qed.

Lemma max2_ge_r (a b : Q) : (b <= Py.max2 a b)%Q.
Proof.
  unfold Py.max2. destruct (Py.Qltb a b) eqn:E.
  - apply Qle_refl.
  - apply Qltb_false in E. exact E.
Qed.

Lemma hook_scan_elem (weighted : list (Hook.t * Q)) (threshold c : Q) (hook : Hook.t) :
  hook_scan threshold c weighted = Some hook -> hook ∈ map fst weighted.
Proof.
  revert c. induction weighted as [|[h w] rest IH]; intros c; [discriminate|].
  cbn [hook_scan]. destruct (Py.Qleb threshold (c + w)).
  - intros [= <-]. left.
  - intros Hscan. right. eapply IH. exact Hscan.
Qed.

(** X3.  On a non-empty list of eligible hooks [select_hook] always returns
    a hook, and the hook is one of the eligible ones: every weight is floored
    at 0.1, so the total is positive and the [None] exit is not taken. *)
Theorem select_hook_picks_an_eligible_hook (eligible : list Hook.t)
    (state : GameState.t) (stage_id : string) :
  eligible <> [] ->
  exists hook, select_hook eligible state stage_id = Some hook /\ hook ∈ eligible.
Proof.
  intros Hne. unfold select_hook.
  set (weighted := map _ eligible).
  assert (map fst weighted = eligible) as Hfst.
  { unfold weighted. rewrite map_map. cbn [fst]. apply map_id. }
  assert (0 < Py.sum (map snd weighted))%Q as Htotal.
  { destruct eligible as [|h rest]; [contradiction|].
    apply (sum_pos _ (snd (hd (h, 0%Q) weighted))).
    - intros x Hx. apply list_elem_of_fmap in Hx. destruct Hx as ([h' w'] & -> & Hin).
      unfold weighted in Hin. apply list_elem_of_fmap in Hin.
      destruct Hin as (h'' & [= -> ->] & _). cbn [snd].
      eapply Qle_trans; [|apply max2_ge_r]. unfold Qle. cbn. lia.
    - unfold weighted. cbn [map hd snd]. left.
    - unfold weighted. cbn [map hd snd].
      eapply Qlt_le_trans; [|apply max2_ge_r]. unfold Qlt. cbn. lia. }
  apply Qleb_false in Htotal. rewrite Htotal.
  destruct (hook_scan _ 0 weighted) as [hook|] eqn:Hscan.
  - exists hook. split; [reflexivity|]. rewrite <- Hfst. eapply hook_scan_elem. exact Hscan.
  - destruct (last weighted) as [[h w]|] eqn:Hlast.
    + exists h. split; [reflexivity|]. rewrite <- Hfst.
      apply last_elem in Hlast. apply list_elem_of_fmap. exists (h, w). split; [reflexivity|exact Hlast].
    + apply last_None in Hlast. exfalso. apply Hne. rewrite <- Hfst, Hlast. reflexivity.
Qed.

Lemma select_hook_picks_an_eligible_hook_witness :
  select_hook [Fixture.shy_hook; Fixture.sure_hook] Fixture.at_school "chat"
  = Some Fixture.shy_hook
  \/ select_hook [Fixture.shy_hook; Fixture.sure_hook] Fixture.at_school "chat"
     = Some Fixture.sure_hook.
Proof.
  destruct (select_hook_picks_an_eligible_hook
              [Fixture.shy_hook; Fixture.sure_hook] Fixture.at_school "chat")
    as (hook & Hsel & Hin).
  - discriminate.
  - rewrite Hsel. apply elem_of_cons in Hin. destruct Hin as [->|Hin]; [left; reflexivity|].
    apply list_elem_of_singleton in Hin. subst hook. right. reflexivity.
Defined.

(** ** Event selector *)

Lemma filter_nil_iff {A : Type} (p : A -> bool) (l : list A) :
  List.filter p l = [] <-> forall x, x ∈ l -> p x = false.
Proof.
  induction l as [|y l IH]; cbn [List.filter].
  - split; [intros _ x Hx; inversion Hx|reflexivity].
  - destruct (p y) eqn:Hy; split.
    + discriminate.
    + intros Hall. specialize (Hall y ltac:(left)). congruence.
    + intros Hnil x Hx. apply elem_of_cons in Hx. destruct Hx as [->|Hx]; [exact Hy|].
      apply IH; assumption.
    + intros Hall. apply IH. intros x Hx. apply Hall. right. exact Hx.
Qed.

(** X4.  [select_event] returns no event exactly when no catalog event has
    the requested location and time slot.  An event it returns is a copy of
    a catalog event at that location and time slot whose weight is the
    catalog weight (1 when absent), halved when the event is the last one of
    the event history; when a single event matches, that event is returned
    whatever the seed. *)
Theorem select_event_returns_a_matching_event (content : ContentBundle.t)
    (location time_slot : string) (state : GameState.t) :
  (select_event content location time_slot state = None
   <-> forall event, event ∈ ContentBundle.events content ->
         ~ (Event.location event = Some location
            /\ Event.time_slot event = Some time_slot))
  /\ (forall selected,
        select_event content location time_slot state = Some selected ->
        exists original,
          original ∈ ContentBundle.events content
          /\ Event.location original = Some location
          /\ Event.time_slot original = Some time_slot
          /\ (selected
              = Event.set_base_weight
                  (Some (default 1%Q (Event.base_weight original))) original
              \/ (selected
                  = Event.set_base_weight
                      (Some (default 1%Q (Event.base_weight original) * (1 # 2))%Q)
                      original
                  /\ exists last_event_id,
                       last (GameState.event_history state) = Some last_event_id
                       /\ last_event_id <> EmptyString
                       /\ Event.event_id original = Some last_event_id)))
  /\ (forall only,
        List.filter
          (fun event =>
             match Event.location event with
             | Some a => String.eqb a location
             | None => false
             end
             && match Event.time_slot event with
                | Some a => String.eqb a time_slot
                | None => false
                end) (ContentBundle.events content) = [only] ->
        exists selected,
          select_event content location time_slot state = Some selected
          /\ Event.event_id selected = Event.event_id only
          /\ Event.intro selected = Event.intro only
          /\ Event.outro selected = Event.outro only).
Proof.
  unfold select_event.
  set (matches := fun event : Event.t =>
         match Event.location event with
         | Some a => String.eqb a location
         | None => false
         end
         && match Event.time_slot event with
            | Some a => String.eqb a time_slot
            | None => false
            end).
  set (adjust := fun event : Event.t => Event.set_base_weight _ event).
  set (seed := stable_seed _).
  assert (forall event, matches event = true
            <-> Event.location event = Some location
                /\ Event.time_slot event = Some time_slot) as Hmatches.
  { intros event. unfold matches. rewrite andb_true_iff.
    destruct (Event.location event) as [a|], (Event.time_slot event) as [b|];
      try rewrite !String.eqb_eq; split; intros [H1 H2];
      try discriminate; try (injection H1 as ->; injection H2 as ->);
      subst; auto. }
  split; [|split].
  - split.
    + intros Hnone event Hin Hboth.
      apply select_weighted_picks_member_none in Hnone.
      apply map_eq_nil in Hnone.
      pose proof (proj1 (filter_nil_iff matches _) Hnone event Hin) as Hfalse.
      apply Hmatches in Hboth. congruence.
    + intros Hall.
      replace (List.filter matches (ContentBundle.events content)) with (@nil Event.t);
        [reflexivity|].
      symmetry. apply filter_nil_iff. intros event Hin.
      destruct (matches event) eqn:Hm; [|reflexivity].
      exfalso. apply (Hall event Hin). apply Hmatches. exact Hm.
  - intros selected Hsel. apply select_weighted_elem in Hsel.
    apply list_elem_of_fmap in Hsel. destruct Hsel as (original & -> & Hin).
    rewrite list_elem_of_In, List.filter_In, <- list_elem_of_In in Hin.
    destruct Hin as [Hin Hm]. apply Hmatches in Hm. destruct Hm as [Hloc Hslot].
    exists original. split; [exact Hin|]. split; [exact Hloc|]. split; [exact Hslot|].
    unfold adjust.
    destruct (last (GameState.event_history state)) as [l|] eqn:Hlast;
      [|left; reflexivity].
    destruct (Event.event_id original) as [e|] eqn:Hid; [|left; reflexivity].
    destruct (Py.truthy_str l && String.eqb e l) eqn:Hrep; [|left; reflexivity].
    right. split; [reflexivity|].
    apply andb_true_iff in Hrep. destruct Hrep as [Htruthy Heq].
    apply String.eqb_eq in Heq. subst e.
    exists l. split; [reflexivity|]. split; [|reflexivity].
    intros ->. discriminate Htruthy.
  - intros only Honly. fold matches in Honly. rewrite Honly. cbn [map].
    destruct (select_weighted_is_Some Event.base_weight [adjust only] seed) as [x Hx];
      [discriminate|].
    exists x. split; [exact Hx|].
    apply select_weighted_elem in Hx. apply list_elem_of_singleton in Hx. subst x.
    repeat split.
Qed.

(** ** Hook conditions and cooldown *)

(** X5.  A hook matches exactly when each condition it states holds: a
    non-empty [location] (or [time_slot]) must be the current one, a non-zero
    [min_day] must not exceed the current day and a non-zero [max_day] must
    not be exceeded by it.  Absent, empty and zero conditions always pass, and
    so does a hook without [conditions]. *)
Theorem hook_matches_conditions_iff (hook : Hook.t) (state : GameState.t) :
  let conditions := default Conditions.empty (Hook.conditions hook) in
  let ctx := GameState.current_context state in
  hook_matches_conditions hook state = true
  <-> (forall l, Conditions.location conditions = Some l -> l <> EmptyString ->
         CurrentContext.location ctx = Some l)
      /\ (forall t, Conditions.time_slot conditions = Some t -> t <> EmptyString ->
            CurrentContext.time_slot ctx = Some t)
      /\ (forall m, Conditions.min_day conditions = Some m -> m <> 0 ->
            m <= GameState.day_index state)
      /\ (forall m, Conditions.max_day conditions = Some m -> m <> 0 ->
            GameState.day_index state <= m).
Proof.
  intros conditions ctx. unfold hook_matches_conditions.
  fold conditions. fold ctx.
  assert (forall (wanted : option string) (actual : option string),
            match wanted with
            | Some w =>
                Py.truthy_str w
                && match actual with
                   | Some a => negb (String.eqb w a)
                   | None => true
                   end
            | None => false
            end = false
            <-> (forall w, wanted = Some w -> w <> EmptyString -> actual = Some w))
    as Hstr.
  { intros [w|] actual.
    - destruct w as [|c w].
      + cbn. split; [intros _ w [= <-] Hne; contradiction|reflexivity].
      + cbn [Py.truthy_str andb]. destruct actual as [a|].
        * rewrite negb_false_iff, String.eqb_eq. split.
          -- intros <- w' [= <-] _. reflexivity.
          -- intros Hall. specialize (Hall _ eq_refl ltac:(discriminate)).
             injection Hall as <-. reflexivity.
        * split; [discriminate|].
          intros Hall. specialize (Hall _ eq_refl ltac:(discriminate)). discriminate.
    - split; [intros _ w [=]|reflexivity]. }
  assert (forall (bound : option Z) (cmp : Z -> bool) (P : Z -> Prop),
            (forall m, cmp m = false <-> P m) ->
            match bound with
            | Some m => Py.truthy_int m && cmp m
            | None => false
            end = false
            <-> (forall m, bound = Some m -> m <> 0 -> P m)) as Hint.
  { intros [m|] cmp P Hcmp.
    - unfold Py.truthy_int. destruct (m =? 0) eqn:Hz; cbn [negb andb].
      + apply Z.eqb_eq in Hz. split; [intros _ m' [= <-] Hne; contradiction|reflexivity].
      + apply Z.eqb_neq in Hz. rewrite Hcmp. split.
        * intros HP m' [= <-] _. exact HP.
        * intros Hall. apply Hall; [reflexivity|exact Hz].
    - split; [intros _ m [=]|reflexivity]. }
  pose proof (Hstr (Conditions.location conditions) (CurrentContext.location ctx)) as H1.
  pose proof (Hstr (Conditions.time_slot conditions) (CurrentContext.time_slot ctx)) as H2.
  pose proof (Hint (Conditions.min_day conditions)
                (fun m => GameState.day_index state <? m)
                (fun m => m <= GameState.day_index state)
                ltac:(intros m; cbv beta; rewrite Z.ltb_ge; reflexivity)) as H3.
  pose proof (Hint (Conditions.max_day conditions)
                (fun m => m <? GameState.day_index state)
                (fun m => GameState.day_index state <= m)
                ltac:(intros m; cbv beta; rewrite Z.ltb_ge; reflexivity)) as H4.
  cbv beta in H3, H4.
  destruct (match Conditions.location conditions with
            | Some _ => _ | None => false end) eqn:E1.
  { split; [discriminate|]. intros (Ha & _). apply H1 in Ha. discriminate. }
  destruct (match Conditions.time_slot conditions with
            | Some _ => _ | None => false end) eqn:E2.
  { split; [discriminate|]. intros (_ & Hb & _). apply H2 in Hb. discriminate. }
  destruct (match Conditions.min_day conditions with
            | Some _ => _ | None => false end) eqn:E3.
  { split; [discriminate|]. intros (_ & _ & Hc & _). apply H3 in Hc. discriminate. }
  destruct (match Conditions.max_day conditions with
            | Some _ => _ | None => false end) eqn:E4.
  { split; [discriminate|]. intros (_ & _ & _ & Hd). apply H4 in Hd. discriminate. }
  split; [intros _|reflexivity].
  split; [apply H1; reflexivity|]. split; [apply H2; reflexivity|].
  split; [apply H3; reflexivity|apply H4; reflexivity].
Qed.

Lemma proactive_check_success_state (state : GameState.t) (content : ContentBundle.t)
    (stage_id : string) (hook : Hook.t) :
  GameState.daily_proactive_count state
  < Caps.daily_proactive_cap (GameState.caps state) ->
  0 < Resources.npc_initiative (GameState.resources state) ->
  List.filter (hook_eligible state) (ContentBundle.hooks content) <> [] ->
  select_hook (List.filter (hook_eligible state) (ContentBundle.hooks content))
              state stage_id = Some hook ->
  RollResult.success (proactive_roll_of state stage_id hook) = true ->
  let state' := fst (proactive_check state content stage_id) in
  GameState.proactive_state state'
  = ProactiveState.mk
      (<[proactive_hook_id hook:=0]>
         (ProactiveState.hook_exposures (GameState.proactive_state state)))
      (<[proactive_hook_id hook:=
           GameState.day_index state + default 1 (Hook.cooldown_days hook)]>
         (ProactiveState.hook_cooldowns (GameState.proactive_state state)))
  /\ GameState.current_context state' = GameState.current_context state
  /\ GameState.day_index state' = GameState.day_index state
  /\ Resources.npc_initiative (GameState.resources state')
     = Resources.npc_initiative (GameState.resources state) - 1
  /\ GameState.daily_proactive_count state'
     = GameState.daily_proactive_count state + 1.
Proof.
  intros Hcap Hini Heligible Hselect Hsuccess. unfold proactive_check.
  rewrite (geb_false _ _ Hcap).
  replace (Resources.npc_initiative (GameState.resources state) <=? 0) with false
    by (symmetry; apply Z.leb_gt; exact Hini).
  destruct (List.filter (hook_eligible state) (ContentBundle.hooks content))
    as [|h eligible] eqn:Hfilter; [contradiction|].
  rewrite Hselect. unfold proactive_roll_of, proactive_hook_id in *.
  rewrite Hsuccess. cbn [negb fst]. repeat split.
Qed.

(** X6.  After a successful proactive attempt on a hook that has a
    [hook_id], the hook is eligible on a later day exactly when its
    conditions match and that day is at least the day of the attempt plus
    [cooldown_days] (1 when absent).  For a hook without [hook_id] the
    cooldown is written under the key ["hook"] while eligibility reads the
    key [""], so the attempt does not change its cooldown gate. *)
Theorem cooldown_gates_the_hook_after_success (state : GameState.t)
    (content : ContentBundle.t) (stage_id : string) (hook : Hook.t) :
  GameState.daily_proactive_count state
  < Caps.daily_proactive_cap (GameState.caps state) ->
  0 < Resources.npc_initiative (GameState.resources state) ->
  List.filter (hook_eligible state) (ContentBundle.hooks content) <> [] ->
  select_hook (List.filter (hook_eligible state) (ContentBundle.hooks content))
              state stage_id = Some hook ->
  RollResult.success (proactive_roll_of state stage_id hook) = true ->
  let state' := fst (proactive_check state content stage_id) in
  (forall hook_id day,
     Hook.hook_id hook = Some hook_id ->
     hook_eligible (GameState.set_day_index day state') hook
     = hook_matches_conditions hook (GameState.set_day_index day state)
       && (GameState.day_index state + default 1 (Hook.cooldown_days hook) <=? day))
  /\ (forall day,
        Hook.hook_id hook = None ->
        hook_eligible (GameState.set_day_index day state') hook
        = hook_eligible (GameState.set_day_index day state) hook).
Proof.
  intros Hcap Hini Heligible Hselect Hsuccess state'.
  destruct (proactive_check_success_state state content stage_id hook
              Hcap Hini Heligible Hselect Hsuccess) as (Hps & Hctx & _).
  fold state' in Hps, Hctx.
  assert (forall day,
            hook_matches_conditions hook (GameState.set_day_index day state')
            = hook_matches_conditions hook (GameState.set_day_index day state))
    as Hmatch.
  { intros day. unfold hook_matches_conditions. state_simpl. rewrite Hctx. reflexivity. }
  split.
  - intros hook_id day Hid. unfold hook_eligible. rewrite Hmatch. f_equal.
    unfold hook_cooldown_of. state_simpl. rewrite Hps, Hid.
    unfold proactive_hook_id. rewrite Hid.
    cbn [default ProactiveState.hook_cooldowns]. rewrite lookup_insert_eq. reflexivity.
  - intros day Hid. unfold hook_eligible. rewrite Hmatch. f_equal.
    unfold hook_cooldown_of. state_simpl. rewrite Hps, Hid.
    unfold proactive_hook_id. rewrite Hid.
    cbn [default ProactiveState.hook_cooldowns].
    rewrite lookup_insert_ne by discriminate. reflexivity.
Qed.

Lemma cooldown_gates_the_hook_after_success_witness :
  let state' := fst (proactive_check Fixture.at_school Fixture.sure_content "chat") in
  hook_eligible Fixture.at_school Fixture.sure_hook = true
  /\ hook_eligible state' Fixture.sure_hook = false
  /\ hook_eligible (GameState.set_day_index 2 state') Fixture.sure_hook = false
  /\ hook_eligible (GameState.set_day_index 3 state') Fixture.sure_hook = true.
Proof.
  destruct (cooldown_gates_the_hook_after_success Fixture.at_school
              Fixture.sure_content "chat" Fixture.sure_hook) as [Hgate _].
  - vm_compute. reflexivity.
  - vm_compute. reflexivity.
  - vm_compute. discriminate.
  - vm_compute. reflexivity.
  - vm_compute. reflexivity.
  - cbv zeta. split; [vm_compute; reflexivity|].
    pose proof (Hgate "greet"%string 1 eq_refl) as H1.
    pose proof (Hgate "greet"%string 2 eq_refl) as H2.
    pose proof (Hgate "greet"%string 3 eq_refl) as H3.
    split; [|split].
    + rewrite <- H1 at 1. vm_compute. reflexivity.
    + rewrite H2. vm_compute. reflexivity.
    + rewrite H3. vm_compute. reflexivity.
Defined.

(** ** What a fragment roll writes *)

(** The fragment a roll leaves at the selected position. *)
Lemma fragment_trigger_check_rolled (state : GameState.t) (location stage_id : string)
    (i : nat) (f : Fragment.t) :
  GameState.daily_fragment_count state
  < Caps.daily_fragment_cap (GameState.caps state) ->
  select_fragment state location = Some (i, f) ->
  already_checked (Fragment.trigger_state f) (GameState.day_index state) stage_id
  = false ->
  let ts := Fragment.trigger_state f in
  let result := fragment_roll_of state stage_id f in
  let checked :=
    TriggerState.set_last_check_stage (Some stage_id)
      (TriggerState.set_last_check_day (Some (GameState.day_index state)) ts) in
  let f' :=
    if RollResult.success result
    then Fragment.set_consumed (Fragment.one_shot f)
           (Fragment.set_trigger_state (TriggerState.set_exposures 0 checked) f)
    else Fragment.set_trigger_state
           (TriggerState.set_exposures (TriggerState.exposures ts + 1) checked) f in
  let state' := fst (fragment_trigger_check state location stage_id) in
  GameState.fragments_active state' = <[i:=f']> (GameState.fragments_active state)
  /\ GameState.daily_fragment_count state'
     = GameState.daily_fragment_count state
       + (if RollResult.success result then 1 else 0)
  /\ GameState.trace_log state'
     = GameState.trace_log state
       ++ [TraceEntry.mk TraceEntry.fragment_roll (Fragment.fragment_id f)
             (RollResult.probability result) (RollResult.roll result)
             (RollResult.success result) (TriggerState.exposures ts) stage_id]
  /\ GameState.day_index state' = GameState.day_index state
  /\ GameState.caps state' = GameState.caps state
  /\ snd (fragment_trigger_check state location stage_id)
     = if RollResult.success result
       then Py.Return (Some (Message.mk "narrator"
              ("她触碰到" ++ Fragment.anchor f ++ "时，脑海里闪过模糊的画面。")
              "fragment_event" []))
       else match Py.index micro_lines
                    (Py.min2Z (TriggerState.exposures ts + 1) 3 - 1) with
            | Some line =>
                Py.Return (Some (Message.mk "narrator" line "micro_flashback" []))
            | None => Py.Raise Py.IndexError
            end.
Proof.
  intros Hcap Hsel Hchk ts result checked f' state'.
  subst state' f' checked result ts. unfold fragment_trigger_check, fragment_roll_of.
  rewrite (geb_false _ _ Hcap), Hsel, Hchk. cbv zeta.
  destruct (RollResult.success (roll_with_pity _ _ _ _ _)).
  - cbn [fst snd]. state_simpl. repeat split.
  - cbn [TriggerState.exposures TriggerState.set_last_check_stage
         TriggerState.set_last_check_day].
    destruct (Py.index micro_lines _); cbn [fst snd]; state_simpl;
      rewrite Z.add_0_r; repeat split.
Qed.

(** X7.  When [fragment_trigger_check] rolls (cap not reached, a fragment
    selected and not yet checked at this day and stage), the fragment records
    the day and stage of the check.  On success its exposure count is 0, its
    [consumed] flag takes the value of [one_shot], the daily fragment counter
    grows by one and the message is a [fragment_event].  On failure its
    exposure count grows by one, [consumed] and the counter are unchanged,
    and, for a non-negative exposure count, the message is the
    [micro_flashback] line of intensity [min(exposures + 1, 3)]. *)
Theorem fragment_roll_updates_the_selected_fragment (state : GameState.t)
    (location stage_id : string) (i : nat) (f : Fragment.t) :
  GameState.daily_fragment_count state
  < Caps.daily_fragment_cap (GameState.caps state) ->
  select_fragment state location = Some (i, f) ->
  already_checked (Fragment.trigger_state f) (GameState.day_index state) stage_id
  = false ->
  let result := fragment_roll_of state stage_id f in
  let state' := fst (fragment_trigger_check state location stage_id) in
  let message := snd (fragment_trigger_check state location stage_id) in
  exists f',
    GameState.fragments_active state' !! i = Some f'
    /\ same_fragment f f'
    /\ TriggerState.last_check_day (Fragment.trigger_state f')
       = Some (GameState.day_index state)
    /\ TriggerState.last_check_stage (Fragment.trigger_state f') = Some stage_id
    /\ (RollResult.success result = true ->
        TriggerState.exposures (Fragment.trigger_state f') = 0
        /\ Fragment.consumed f' = Fragment.one_shot f
        /\ GameState.daily_fragment_count state'
           = GameState.daily_fragment_count state + 1
        /\ exists m, message = Py.Return (Some m)
                     /\ Message.kind m = "fragment_event"%string)
    /\ (RollResult.success result = false ->
        TriggerState.exposures (Fragment.trigger_state f')
        = TriggerState.exposures (Fragment.trigger_state f) + 1
        /\ Fragment.consumed f' = Fragment.consumed f
        /\ GameState.daily_fragment_count state'
           = GameState.daily_fragment_count state
        /\ (0 <= TriggerState.exposures (Fragment.trigger_state f) ->
            exists m, message = Py.Return (Some m)
                      /\ Message.kind m = "micro_flashback"%string
                      /\ Py.index micro_lines
                           (Py.min2Z
                              (TriggerState.exposures (Fragment.trigger_state f) + 1) 3
                            - 1)
                         = Some (Message.content m))).
Proof.
  intros Hcap Hsel Hchk result state' message.
  destruct (fragment_trigger_check_rolled state location stage_id i f Hcap Hsel Hchk)
    as (Hact & Hcount & _ & _ & _ & Hmsg).
  fold result in Hact, Hcount, Hmsg. fold state' in Hact, Hcount. fold message in Hmsg.
  destruct (select_fragment_spec _ _ _ _ Hsel) as (Hat & _).
  assert (i < length (GameState.fragments_active state))%nat as Hlen
    by (eapply lookup_lt_Some; exact Hat).
  eexists. split; [rewrite Hact; apply list_lookup_insert_eq; exact Hlen|].
  destruct (RollResult.success result).
  - split; [repeat split|]. split; [reflexivity|]. split; [reflexivity|].
    split; [|discriminate]. intros _.
    split; [reflexivity|]. split; [reflexivity|]. split; [exact Hcount|].
    eexists. split; [exact Hmsg|reflexivity].
  - split; [repeat split|]. split; [reflexivity|]. split; [reflexivity|].
    split; [discriminate|]. intros _.
    split; [reflexivity|]. split; [reflexivity|].
    split; [rewrite Hcount; lia|].
    intros Hnn. destruct (micro_line_exists _ Hnn) as [line Hline].
    rewrite Hline in Hmsg. eexists. split; [exact Hmsg|].
    split; [reflexivity|exact Hline].
Qed.

Lemma fragment_roll_updates_the_selected_fragment_witness :
  let state' := fst (fragment_trigger_check Fixture.with_consumed "school" "chat") in
  exists f',
    GameState.fragments_active state' !! 1%nat = Some f'
    /\ Fragment.fragment_id f' = "fragment_1_1_2"%string
    /\ TriggerState.last_check_stage (Fragment.trigger_state f') = Some "chat"%string.
Proof.
  destruct (fragment_roll_updates_the_selected_fragment Fixture.with_consumed
              "school" "chat" 1%nat Fixture.unchecked_fragment)
    as (f' & Hat & Hsame & _ & Hstage & _).
  - vm_compute. reflexivity.
  - vm_compute. reflexivity.
  - vm_compute. reflexivity.
  - exists f'. split; [exact Hat|]. split; [|exact Hstage].
    destruct Hsame as (Hid & _). rewrite Hid. reflexivity.
Defined.

Lemma fragment_eligible_same_day (s s' : GameState.t) (location : string)
    (f : Fragment.t) :
  GameState.day_index s' = GameState.day_index s ->
  fragment_eligible s' location f = fragment_eligible s location f.
Proof.
  intros Hday. unfold fragment_eligible. rewrite Hday. reflexivity.
Qed.

(** X8.  After a failed roll, calling [fragment_trigger_check] again with
    the same location and stage does nothing: the fragment that failed still
    has the largest key (its exposure count grew), it is selected again, and
    it was already checked at this day and stage. *)
Theorem failed_roll_is_not_repeated_in_the_same_stage (state : GameState.t)
    (location stage_id : string) (i : nat) (f : Fragment.t) :
  GameState.daily_fragment_count state
  < Caps.daily_fragment_cap (GameState.caps state) ->
  select_fragment state location = Some (i, f) ->
  already_checked (Fragment.trigger_state f) (GameState.day_index state) stage_id
  = false ->
  RollResult.success (fragment_roll_of state stage_id f) = false ->
  let state' := fst (fragment_trigger_check state location stage_id) in
  GameState.trace_log state' <> GameState.trace_log state
  /\ fragment_trigger_check state' location stage_id = (state', Py.Return None).
Proof.
  intros Hcap Hsel Hchk Hfail state'.
  destruct (fragment_trigger_check_rolled state location stage_id i f Hcap Hsel Hchk)
    as (Hact & _ & Htrace & Hday & _).
  fold state' in Hact, Htrace, Hday. rewrite Hfail in Hact.
  split.
  { rewrite Htrace. intros Heq.
    apply (f_equal (@length TraceEntry.t)) in Heq.
    rewrite length_app in Heq. cbn [length] in Heq. lia. }
  destruct (select_fragment_spec _ _ _ _ Hsel) as (Hat & Hok & Hmax).
  assert (i < length (GameState.fragments_active state))%nat as Hlen
    by (eapply lookup_lt_Some; exact Hat).
  set (f' := Fragment.set_trigger_state _ f) in Hact.
  assert (fragment_eligible state' location f' = true) as Hok'.
  { rewrite (fragment_eligible_same_day state state') by exact Hday. exact Hok. }
  assert (fragment_key f < fragment_key f')%Q as Hkey.
  { unfold fragment_key, f'.
    cbn [Fragment.salience_score Fragment.trigger_state Fragment.set_trigger_state
         TriggerState.exposures TriggerState.set_exposures
         TriggerState.set_last_check_stage TriggerState.set_last_check_day].
    rewrite inject_Z_plus. change (inject_Z 1) with 1%Q. lra. }
  unfold fragment_trigger_check.
  destruct (_ >=? _); [reflexivity|].
  destruct (select_fragment state' location) as [[j g]|] eqn:Hsel'; [|reflexivity].
  destruct (select_fragment_spec _ _ _ _ Hsel') as (Hat' & Hokg & Hmax').
  assert (j = i) as ->.
  { destruct (decide (j = i)) as [Heq|Hne]; [exact Heq|exfalso].
    assert (fragment_key f' <= fragment_key g)%Q as H1.
    { apply (Hmax' i f'); [|exact Hok'].
      rewrite Hact. apply list_lookup_insert_eq. exact Hlen. }
    assert (fragment_key g <= fragment_key f)%Q as H2.
    { apply (Hmax j g).
      - rewrite Hact, list_lookup_insert_ne in Hat' by auto. exact Hat'.
      - rewrite <- (fragment_eligible_same_day state state') by exact Hday. exact Hokg. }
    lra. }
  rewrite Hact, list_lookup_insert_eq in Hat' by exact Hlen.
  injection Hat' as <-.
  replace (already_checked (Fragment.trigger_state f') (GameState.day_index state')
             stage_id) with true; [reflexivity|].
  rewrite Hday. unfold f', already_checked. cbn.
  rewrite Z.eqb_refl, String.eqb_refl. reflexivity.
Qed.

Lemma failed_roll_is_not_repeated_in_the_same_stage_witness :
  let state' := fst (fragment_trigger_check Fixture.with_consumed "school" "chat") in
  fragment_trigger_check state' "school" "chat" = (state', Py.Return None).
Proof.
  apply (failed_roll_is_not_repeated_in_the_same_stage Fixture.with_consumed
           "school" "chat" 1%nat Fixture.unchecked_fragment);
    vm_compute; reflexivity.
Defined.

Lemma same_fragment_refl (f : Fragment.t) : same_fragment f f.
Proof. unfold same_fragment. repeat split. Qed.

Lemma Forall2_same_fragment_refl (l : list Fragment.t) : Forall2 same_fragment l l.
Proof. induction l; constructor; [apply same_fragment_refl|assumption]. Qed.

Lemma Forall2_same_fragment_insert (l : list Fragment.t) (i : nat) (f f' : Fragment.t) :
  l !! i = Some f -> same_fragment f f' -> Forall2 same_fragment l (<[i:=f']> l).
Proof.
  revert i. induction l as [|x l IH]; intros [|i] Hat Hsame; try discriminate.
  - injection Hat as ->. constructor; [exact Hsame|apply Forall2_same_fragment_refl].
  - constructor; [apply same_fragment_refl|]. apply IH; assumption.
Qed.

(** A trigger check keeps every fragment in place and only writes the
    exposure count, the last check and the consumed flag. *)
Lemma fragment_trigger_check_same_fragments (state : GameState.t)
    (location stage_id : string) :
  Forall2 same_fragment (GameState.fragments_active state)
    (GameState.fragments_active (fst (fragment_trigger_check state location stage_id))).
Proof.
  unfold fragment_trigger_check.
  destruct (_ >=? _); [apply Forall2_same_fragment_refl|].
  destruct (select_fragment state location) as [[i f]|] eqn:Hsel;
    [|apply Forall2_same_fragment_refl].
  destruct (already_checked _ _ _); [apply Forall2_same_fragment_refl|].
  destruct (select_fragment_spec _ _ _ _ Hsel) as (Hat & _).
  destruct (RollResult.success _).
  - cbn [fst]. state_simpl. apply (Forall2_same_fragment_insert _ _ f); [exact Hat|].
    unfold same_fragment. repeat split.
  - destruct (Py.index micro_lines _); cbn [fst]; state_simpl;
      (apply (Forall2_same_fragment_insert _ _ f); [exact Hat|]);
      unfold same_fragment; repeat split.
Qed.

(** ** What the entry points leave alone *)

Lemma untouched_refl (s : GameState.t) : untouched s s.
Proof. unfold untouched. repeat split. Qed.

Lemma untouched_trans (s1 s2 s3 : GameState.t) :
  untouched s1 s2 -> untouched s2 s3 -> untouched s1 s3.
Proof.
  unfold untouched. intros (A1 & A2 & A3 & A4 & A5 & A6 & A7 & A8 & A9 & A10)
                           (B1 & B2 & B3 & B4 & B5 & B6 & B7 & B8 & B9 & B10).
  repeat split; congruence.
Qed.

Lemma trace_grows_refl (n : nat) (s : GameState.t) : trace_grows n s s.
Proof. exists []. rewrite app_nil_r. split; [reflexivity|cbn; lia]. Qed.

Lemma trace_grows_trans (n m : nat) (s1 s2 s3 : GameState.t) :
  trace_grows n s1 s2 -> trace_grows m s2 s3 -> trace_grows (n + m) s1 s3.
Proof.
  intros (a & Ha & Hla) (b & Hb & Hlb). exists (a ++ b).
  rewrite Hb, Ha, app_assoc, length_app. split; [reflexivity|lia].
Qed.

Lemma trace_grows_same (n : nat) (s s' : GameState.t) :
  GameState.trace_log s' = GameState.trace_log s -> trace_grows n s s'.
Proof.
  intros Heq. exists []. rewrite Heq, app_nil_r. split; [reflexivity|cbn; lia].
Qed.

Lemma same_day_refl (s : GameState.t) : same_day s s.
Proof. unfold same_day. repeat split. apply Forall2_same_fragment_refl. Qed.

Lemma same_fragment_trans (f g h : Fragment.t) :
  same_fragment f g -> same_fragment g h -> same_fragment f h.
Proof.
  unfold same_fragment.
  intros (A1 & A2 & A3 & A4 & A5 & A6 & A7 & A8 & A9 & A10 & A11 & A12 & A13
          & A14 & A15 & A16)
         (B1 & B2 & B3 & B4 & B5 & B6 & B7 & B8 & B9 & B10 & B11 & B12 & B13
          & B14 & B15 & B16).
  repeat split; congruence.
Qed.

Lemma Forall2_same_fragment_trans (l1 l2 l3 : list Fragment.t) :
  Forall2 same_fragment l1 l2 -> Forall2 same_fragment l2 l3 ->
  Forall2 same_fragment l1 l3.
Proof.
  intros H12. revert l3. induction H12 as [|x y l1 l2 Hxy _ IH]; intros l3 H23.
  - inversion H23. constructor.
  - inversion H23 as [|? z ? l3' Hyz H23']; subst.
    constructor; [eapply same_fragment_trans; eauto|apply IH; exact H23'].
Qed.

Lemma same_day_trans (s1 s2 s3 : GameState.t) :
  same_day s1 s2 -> same_day s2 s3 -> same_day s1 s3.
Proof.
  unfold same_day. intros (A1 & A2 & A3 & A4 & A5 & A6) (B1 & B2 & B3 & B4 & B5 & B6).
  repeat split; try congruence.
  eapply Forall2_same_fragment_trans; eauto.
Qed.

Lemma spent_at_most_one_refl (r : Resources.t) : spent_at_most_one r r.
Proof. unfold spent_at_most_one. repeat split; left; reflexivity. Qed.

Lemma spent_nonneg (r r' : Resources.t) :
  spent_at_most_one r r' -> resources_nonneg r -> resources_nonneg r'.
Proof.
  unfold spent_at_most_one, resources_nonneg. intros (A & B & C & D) (E & F & G & H).
  lia.
Qed.

Lemma fragment_trigger_check_frame (state : GameState.t) (location stage_id : string) :
  let state' := fst (fragment_trigger_check state location stage_id) in
  untouched state state' /\ trace_grows 1 state state' /\ same_day state state'
  /\ GameState.resources state' = GameState.resources state
  /\ GameState.current_context state' = GameState.current_context state
  /\ GameState.fragment_candidates_today state'
     = GameState.fragment_candidates_today state
  /\ GameState.proactive_state state' = GameState.proactive_state state
  /\ GameState.pending_npc_messages state' = GameState.pending_npc_messages state
  /\ GameState.daily_proactive_count state' = GameState.daily_proactive_count state
  /\ GameState.event_history state' = GameState.event_history state.
Proof.
  intros state'.
  pose proof (fragment_trigger_check_same_fragments state location stage_id) as Hsame.
  fold state' in Hsame. revert Hsame. subst state'. unfold fragment_trigger_check.
  destruct (_ >=? _);
    [intros _; split; [apply untouched_refl|]; split; [apply trace_grows_refl|];
     split; [apply same_day_refl|]; repeat split|].
  destruct (select_fragment state location) as [[i f]|];
    [|intros _; split; [apply untouched_refl|]; split; [apply trace_grows_refl|];
      split; [apply same_day_refl|]; repeat split].
  destruct (already_checked _ _ _);
    [intros _; split; [apply untouched_refl|]; split; [apply trace_grows_refl|];
     split; [apply same_day_refl|]; repeat split|].
  destruct (RollResult.success _).
  - cbn [fst]. intros Hsame. split; [unfold untouched; repeat split|].
    split; [eexists; split; [state_simpl; reflexivity|cbn; lia]|].
    split; [unfold same_day; repeat split; exact Hsame|]. repeat split.
  - destruct (Py.index micro_lines _); cbn [fst]; intros Hsame;
      (split; [unfold untouched; repeat split|]);
      (split; [eexists; split; [state_simpl; reflexivity|cbn; lia]|]);
      (split; [unfold same_day; repeat split; exact Hsame|]); repeat split.
Qed.

Lemma proactive_check_frame (state : GameState.t) (content : ContentBundle.t)
    (stage_id : string) :
  let state' := fst (proactive_check state content stage_id) in
  untouched state state' /\ trace_grows 1 state state' /\ same_day state state'
  /\ (GameState.resources state' = GameState.resources state
      \/ (0 < Resources.npc_initiative (GameState.resources state)
          /\ GameState.resources state'
             = Resources.set_npc_initiative
                 (Resources.npc_initiative (GameState.resources state) - 1)
                 (GameState.resources state)))
  /\ GameState.current_context state' = GameState.current_context state
  /\ GameState.fragment_candidates_today state'
     = GameState.fragment_candidates_today state
  /\ GameState.fragments_active state' = GameState.fragments_active state
  /\ GameState.daily_fragment_count state' = GameState.daily_fragment_count state
  /\ GameState.event_history state' = GameState.event_history state
  /\ exists queued,
       GameState.pending_npc_messages state'
       = GameState.pending_npc_messages state ++ queued
       /\ (length queued <= 1)%nat.
Proof.
  intros state'. subst state'. unfold proactive_check.
  assert (forall s : GameState.t,
            untouched s s /\ trace_grows 1 s s /\ same_day s s
            /\ (GameState.resources s = GameState.resources s
                \/ (0 < Resources.npc_initiative (GameState.resources s)
                    /\ GameState.resources s
                       = Resources.set_npc_initiative
                           (Resources.npc_initiative (GameState.resources s) - 1)
                           (GameState.resources s)))
            /\ GameState.current_context s = GameState.current_context s
            /\ GameState.fragment_candidates_today s
               = GameState.fragment_candidates_today s
            /\ GameState.fragments_active s = GameState.fragments_active s
            /\ GameState.daily_fragment_count s = GameState.daily_fragment_count s
            /\ GameState.event_history s = GameState.event_history s
            /\ exists queued,
                 GameState.pending_npc_messages s
                 = GameState.pending_npc_messages s ++ queued
                 /\ (length queued <= 1)%nat) as Hsame.
  { intros s. split; [apply untouched_refl|]. split; [apply trace_grows_refl|].
    split; [apply same_day_refl|]. split; [left; reflexivity|].
    repeat (split; [reflexivity|]). exists []. rewrite app_nil_r.
    split; [reflexivity|cbn; lia]. }
  destruct (_ >=? _); [apply Hsame|].
  destruct (Resources.npc_initiative (GameState.resources state) <=? 0) eqn:Hini;
    [apply Hsame|].
  apply Z.leb_gt in Hini.
  destruct (List.filter _ _); [apply Hsame|].
  destruct (select_hook _ _ _); [|apply Hsame].
  destruct (RollResult.success _); cbn [negb fst].
  - split; [unfold untouched; repeat split|].
    split; [eexists; split; [state_simpl; reflexivity|cbn; lia]|].
    split; [unfold same_day; repeat split; apply Forall2_same_fragment_refl|].
    split; [right; split; [exact Hini|reflexivity]|].
    repeat (split; [reflexivity|]). eexists. split; [state_simpl; reflexivity|cbn; lia].
  - split; [unfold untouched; repeat split|].
    split; [eexists; split; [state_simpl; reflexivity|cbn; lia]|].
    split; [unfold same_day; repeat split; apply Forall2_same_fragment_refl|].
    split; [left; reflexivity|].
    repeat (split; [reflexivity|]). exists []. rewrite app_nil_r.
    split; [reflexivity|cbn; lia].
Qed.

(** Facts about a state obtained from [s] by setters that touch none of the
    framed fields. *)
Ltac by_setters :=
  repeat match goal with
         | |- _ /\ _ => split
         | |- untouched _ _ => unfold untouched; state_simpl; repeat split
         | |- same_day _ _ =>
             unfold same_day; state_simpl;
             repeat split; apply Forall2_same_fragment_refl
         | |- _ = _ => reflexivity
         end.

Lemma spent_at_most_one_compose (r1 r2 r3 r4 : Resources.t) :
  (r2 = r1 \/ (0 < Resources.ap r1
               /\ r2 = Resources.set_ap (Resources.ap r1 - 1) r1)
          \/ (0 < Resources.chat_turns r1
              /\ r2 = Resources.set_chat_turns (Resources.chat_turns r1 - 1) r1)) ->
  r3 = r2 ->
  (r4 = r3 \/ (0 < Resources.npc_initiative r3
               /\ r4 = Resources.set_npc_initiative
                         (Resources.npc_initiative r3 - 1) r3)) ->
  spent_at_most_one r1 r4.
Proof.
  intros H12 -> H34. unfold spent_at_most_one.
  destruct H12 as [->|[[Hap ->]|[Hct ->]]], H34 as [->|[Hini ->]];
    cbn [Resources.ap Resources.chat_turns Resources.key_q Resources.npc_initiative
         Resources.set_ap Resources.set_chat_turns Resources.set_npc_initiative] in *;
    repeat split; auto.
Qed.

Lemma fragment_trigger_check_count (state : GameState.t) (location stage_id : string) :
  GameState.daily_fragment_count state
  <= GameState.daily_fragment_count
       (fst (fragment_trigger_check state location stage_id)).
Proof.
  unfold fragment_trigger_check.
  destruct (_ >=? _); [cbn [fst]; lia|].
  destruct (select_fragment state location) as [[i f]|]; [|cbn [fst]; lia].
  destruct (already_checked _ _ _); [cbn [fst]; lia|].
  destruct (RollResult.success _).
  - cbn [fst]. state_simpl. lia.
  - destruct (Py.index micro_lines _); cbn [fst]; state_simpl; lia.
Qed.

Lemma proactive_check_count (state : GameState.t) (content : ContentBundle.t)
    (stage_id : string) :
  GameState.daily_proactive_count state
  <= GameState.daily_proactive_count (fst (proactive_check state content stage_id)).
Proof.
  unfold proactive_check.
  destruct (_ >=? _); [cbn [fst]; lia|].
  destruct (_ <=? _); [cbn [fst]; lia|].
  destruct (List.filter _ _); [cbn [fst]; lia|].
  destruct (select_hook _ _ _); [|cbn [fst]; lia].
  destruct (RollResult.success _); cbn [negb fst]; state_simpl; lia.
Qed.

Lemma action_select_frame (state : GameState.t) (content : ContentBundle.t)
    (location time_slot stage_id : string) :
  action_frame state (fst (action_select state content location time_slot stage_id)).
Proof.
  unfold action_select.
  destruct (Resources.ap (GameState.resources state) <=? 0) eqn:Hap.
  { cbn [fst]. unfold action_frame. split; [apply untouched_refl|].
    split; [apply trace_grows_refl|]. split; [apply same_day_refl|].
    split; [apply spent_at_most_one_refl|]. split; [lia|]. split; [lia|].
    exists []. rewrite app_nil_r. split; [reflexivity|cbn; lia]. }
  apply Z.leb_gt in Hap.
  match goal with
  | |- context [fragment_trigger_check ?s location stage_id] => set (s0 := s)
  end.
  assert (untouched state s0 /\ GameState.trace_log s0 = GameState.trace_log state
          /\ same_day state s0
          /\ GameState.resources s0
             = Resources.set_ap (Resources.ap (GameState.resources state) - 1)
                                (GameState.resources state)
          /\ GameState.daily_fragment_count s0 = GameState.daily_fragment_count state
          /\ GameState.daily_proactive_count s0 = GameState.daily_proactive_count state
          /\ GameState.pending_npc_messages s0 = GameState.pending_npc_messages state)
    as (U0 & T0 & D0 & R0 & F0 & P0 & Q0) by (subst s0; by_setters).
  pose proof (fragment_trigger_check_frame s0 location stage_id) as Hftc.
  pose proof (fragment_trigger_check_count s0 location stage_id) as Hcount.
  destruct (fragment_trigger_check s0 location stage_id) as [s1 outcome].
  cbv zeta in Hftc. cbn [fst] in Hftc, Hcount.
  destruct Hftc as (U1 & T1 & D1 & R1 & _ & _ & _ & Q1 & P1 & _).
  assert (forall s2 : GameState.t,
            untouched s1 s2 -> GameState.trace_log s2 = GameState.trace_log s1 ->
            same_day s1 s2 -> GameState.resources s2 = GameState.resources s1 ->
            GameState.daily_fragment_count s2 = GameState.daily_fragment_count s1 ->
            GameState.daily_proactive_count s2 = GameState.daily_proactive_count s1 ->
            GameState.pending_npc_messages s2 = GameState.pending_npc_messages s1 ->
            action_frame state (fst (proactive_check s2 content stage_id))) as Hrest.
  { intros s2 U2 T2 D2 R2 F2 P2 Q2.
    destruct (proactive_check_frame s2 content stage_id)
      as (U3 & T3 & D3 & R3 & _ & _ & _ & F3 & _ & (queued & Q3 & Hq)).
    pose proof (proactive_check_count s2 content stage_id) as Hc3.
    unfold action_frame.
    split; [eauto using untouched_trans|].
    split.
    { apply (trace_grows_trans 1 1 state s2); [|exact T3].
      apply (trace_grows_trans 0 1 state s0); [apply trace_grows_same; exact T0|].
      destruct T1 as (a & Ha & Hla). exists a. rewrite T2. split; [exact Ha|exact Hla]. }
    split; [eauto using same_day_trans|].
    split.
    { apply (spent_at_most_one_compose _ (GameState.resources s0)
               (GameState.resources s2)); [|congruence|exact R3].
      right. left. split; [exact Hap|exact R0]. }
    split; [lia|]. split; [lia|].
    exists queued. split; [rewrite Q3; congruence|exact Hq]. }
  destruct outcome as [fragment_message|e].
  2: { cbn [fst]. unfold action_frame.
       split; [eauto using untouched_trans|].
       split.
       { apply (trace_grows_trans 0 2 state s0); [apply trace_grows_same; exact T0|].
         destruct T1 as (a & Ha & Hla). exists a. split; [exact Ha|lia]. }
       split; [eauto using same_day_trans|].
       split.
       { apply (spent_at_most_one_compose _ (GameState.resources s0)
                  (GameState.resources s1)); [|congruence|left; reflexivity].
         right. left. split; [exact Hap|exact R0]. }
       split; [lia|]. split; [lia|].
       exists []. rewrite app_nil_r. split; [congruence|cbn; lia]. }
  destruct (select_event content location time_slot s1) as [event|];
    [destruct fragment_message, (Event.event_id event) as [event_id|];
     try destruct (Py.truthy_str event_id)|];
    cbv beta iota zeta;
    match goal with
    | |- context [proactive_check ?s content stage_id] =>
        specialize (Hrest s);
        destruct (proactive_check s content stage_id) as [s3 ms]
    end;
    cbn [fst] in *; apply Hrest; by_setters.
Qed.

Lemma chat_frame (state : GameState.t) (text : string) (content : ContentBundle.t)
    (stage_id : string) :
  action_frame state (fst (chat state text content stage_id)).
Proof.
  unfold chat.
  destruct (Resources.chat_turns (GameState.resources state) <=? 0) eqn:Hct.
  { cbn [fst]. unfold action_frame. split; [apply untouched_refl|].
    split; [apply trace_grows_refl|]. split; [apply same_day_refl|].
    split; [apply spent_at_most_one_refl|]. split; [lia|]. split; [lia|].
    exists []. rewrite app_nil_r. split; [reflexivity|cbn; lia]. }
  apply Z.leb_gt in Hct.
  match goal with
  | |- context [proactive_check ?s content stage_id] => set (s0 := s)
  end.
  assert (untouched state s0 /\ GameState.trace_log s0 = GameState.trace_log state
          /\ same_day state s0
          /\ GameState.resources s0
             = Resources.set_chat_turns
                 (Resources.chat_turns (GameState.resources state) - 1)
                 (GameState.resources state)
          /\ GameState.daily_fragment_count s0 = GameState.daily_fragment_count state
          /\ GameState.daily_proactive_count s0 = GameState.daily_proactive_count state
          /\ GameState.pending_npc_messages s0 = GameState.pending_npc_messages state)
    as (U0 & T0 & D0 & R0 & F0 & P0 & Q0) by (subst s0; by_setters).
  destruct (proactive_check_frame s0 content stage_id)
    as (U3 & T3 & D3 & R3 & _ & _ & _ & F3 & _ & (queued & Q3 & Hq)).
  pose proof (proactive_check_count s0 content stage_id) as Hc3.
  destruct (proactive_check s0 content stage_id) as [s3 ms]. cbn [fst] in *.
  unfold action_frame.
  split; [eauto using untouched_trans|].
  split.
  { apply (trace_grows_trans 0 2 state s0); [apply trace_grows_same; exact T0|].
    destruct T3 as (a & Ha & Hla). exists a. split; [exact Ha|lia]. }
  split; [eauto using same_day_trans|].
  split.
  { apply (spent_at_most_one_compose _ (GameState.resources s0)
             (GameState.resources s0)); [|reflexivity|exact R3].
    right. right. split; [exact Hct|exact R0]. }
  split; [lia|]. split; [lia|].
  exists queued. split; [rewrite Q3; congruence|exact Hq].
Qed.

Lemma day_start_frame (state : GameState.t) (config : ConfigBundle.t) :
  let state' := fst (day_start state config) in
  untouched state state' /\ same_day state state'
  /\ GameState.trace_log state' = GameState.trace_log state
  /\ GameState.fragments_active state' = GameState.fragments_active state
  /\ GameState.pending_npc_messages state' = GameState.pending_npc_messages state
  /\ GameState.proactive_state state' = GameState.proactive_state state
  /\ GameState.fragment_candidates_today state'
     = GameState.fragment_candidates_today state
  /\ GameState.event_history state' = GameState.event_history state
  /\ (state' = state
      \/ exists resources,
           Resources.init (ConfigBundle.resources config) = Py.Return resources
           /\ GameState.resources state' = resources
           /\ GameState.daily_fragment_count state' = 0
           /\ GameState.daily_proactive_count state' = 0
           /\ GameState.current_context state' = CurrentContext.default).
Proof.
  intros state'. subst state'. unfold day_start.
  destruct (Resources.init (ConfigBundle.resources config)) as [resources|e].
  - cbn [fst]. by_setters. right. exists resources. repeat split.
  - cbn [fst]. split; [apply untouched_refl|]. split; [apply same_day_refl|].
    repeat (split; [reflexivity|]). left. reflexivity.
Qed.

Lemma pick_fragment_fields (state : GameState.t) (config : ConfigBundle.t)
    (fragment : Fragment.t) :
  pick_fragment state config = Some fragment ->
  Fragment.day_created fragment = GameState.day_index state
  /\ Fragment.run_created fragment = GameState.run_index state
  /\ TriggerState.exposures (Fragment.trigger_state fragment) = 0
  /\ Fragment.consumed fragment = false
  /\ Fragment.one_shot fragment = true
  /\ exists r best,
       first_max FragmentCandidate.score
                 (GameState.fragment_candidates_today state) r best
       /\ Fragment.salience_score fragment = FragmentCandidate.score best
       /\ Fragment.anchor fragment = FragmentCandidate.anchor best
       /\ Fragment.emotion_tag fragment = FragmentCandidate.emotion_tag best
       /\ Fragment.reveal_level fragment = FragmentCandidate.reveal_level best.
Proof.
  unfold pick_fragment.
  destruct (Py.max_by FragmentCandidate.score _) as [best|] eqn:Hmax; [|discriminate].
  intros [= <-]. repeat (split; [reflexivity|]).
  destruct (max_by_first_max _ _ _ Hmax) as [r Hr].
  exists r, best. split; [exact Hr|]. repeat split.
Qed.

Lemma pick_fragment_None (state : GameState.t) (config : ConfigBundle.t) :
  pick_fragment state config = None
  <-> GameState.fragment_candidates_today state = [].
Proof.
  unfold pick_fragment.
  destruct (Py.max_by FragmentCandidate.score _) as [best|] eqn:Hmax.
  - split; [discriminate|]. intros Hnil.
    apply (max_by_None FragmentCandidate.score) in Hnil. congruence.
  - apply max_by_None in Hmax. split; [intros _; exact Hmax|reflexivity].
Qed.

Lemma run_end_frame (state : GameState.t) (config : ConfigBundle.t)
    (content : ContentBundle.t) :
  let state' := fst (run_end state config content) in
  untouched state state'
  /\ GameState.trace_log state' = GameState.trace_log state
  /\ GameState.resources state' = GameState.resources state
  /\ GameState.daily_fragment_count state' = GameState.daily_fragment_count state
  /\ GameState.daily_proactive_count state' = GameState.daily_proactive_count state
  /\ GameState.pending_npc_messages state' = GameState.pending_npc_messages state
  /\ GameState.proactive_state state' = GameState.proactive_state state
  /\ GameState.fragment_candidates_today state'
     = GameState.fragment_candidates_today state
  /\ GameState.current_context state' = GameState.current_context state
  /\ GameState.fragments_active state' = []
  /\ (GameState.deep_fragments state' = GameState.deep_fragments state
      \/ exists f, f ∈ GameState.fragments_active state
                   /\ GameState.deep_fragments state' = [f])
  /\ ((GameState.run_index state < GameState.max_runs state
       /\ GameState.game_phase state' = RUNNING
       /\ GameState.run_index state' = GameState.run_index state + 1
       /\ GameState.day_index state' = 1
       /\ GameState.event_history state' = [])
      \/ (GameState.max_runs state <= GameState.run_index state
          /\ GameState.game_phase state' = ENDED
          /\ GameState.run_index state' = GameState.run_index state
          /\ GameState.day_index state' = GameState.day_index state
          /\ GameState.run_seed state' = GameState.run_seed state
          /\ GameState.event_history state' = GameState.event_history state)).
Proof.
  intros state'. subst state'. unfold run_end.
  destruct (Py.max_by Fragment.salience_score (GameState.fragments_active state))
    as [deep_fragment|] eqn:Hmax;
    cbn [GameState.run_index GameState.max_runs GameState.set_fragments_active
         GameState.set_deep_fragments];
    destruct (GameState.run_index state >=? GameState.max_runs state) eqn:Hge;
    cbn [fst]; by_setters;
    try (right; exists deep_fragment;
         split; [eapply max_by_elem; exact Hmax|reflexivity]);
    try (left; reflexivity);
    rewrite Z.geb_leb in Hge;
    try (apply Z.leb_le in Hge; right; repeat split; exact Hge);
    try (apply Z.leb_gt in Hge; left; repeat split; exact Hge).
Qed.

Lemma day_end_frame (state : GameState.t) (config : ConfigBundle.t)
    (content : ContentBundle.t) :
  let state' := fst (day_end state config content) in
  let grown :=
    match pick_fragment state config with
    | Some fragment => GameState.fragments_active state ++ [fragment]
    | None => GameState.fragments_active state
    end in
  untouched state state'
  /\ GameState.trace_log state' = GameState.trace_log state
  /\ GameState.resources state' = GameState.resources state
  /\ GameState.daily_fragment_count state' = GameState.daily_fragment_count state
  /\ GameState.daily_proactive_count state' = GameState.daily_proactive_count state
  /\ GameState.pending_npc_messages state' = GameState.pending_npc_messages state
  /\ GameState.proactive_state state' = GameState.proactive_state state
  /\ GameState.fragment_candidates_today state' = []
  /\ GameState.current_context state' = CurrentContext.default
  /\ ((GameState.day_index state + 1
       <= default 7 (ConfigBundle.run config !! "days_per_run")
       /\ GameState.fragments_active state' = grown
       /\ GameState.game_phase state' = GameState.game_phase state
       /\ GameState.run_index state' = GameState.run_index state
       /\ GameState.day_index state' = GameState.day_index state + 1
       /\ GameState.run_seed state' = GameState.run_seed state
       /\ GameState.deep_fragments state' = GameState.deep_fragments state
       /\ GameState.event_history state' = GameState.event_history state)
      \/ (default 7 (ConfigBundle.run config !! "days_per_run")
          < GameState.day_index state + 1
          /\ GameState.fragments_active state' = []
          /\ (GameState.deep_fragments state' = GameState.deep_fragments state
              \/ exists f, f ∈ grown /\ GameState.deep_fragments state' = [f])
          /\ ((GameState.run_index state < GameState.max_runs state
               /\ GameState.game_phase state' = RUNNING
               /\ GameState.run_index state' = GameState.run_index state + 1
               /\ GameState.day_index state' = 1
               /\ GameState.event_history state' = [])
              \/ (GameState.max_runs state <= GameState.run_index state
                  /\ GameState.game_phase state' = ENDED
                  /\ GameState.run_index state' = GameState.run_index state
                  /\ GameState.day_index state' = GameState.day_index state + 1
                  /\ GameState.run_seed state' = GameState.run_seed state
                  /\ GameState.event_history state'
                     = GameState.event_history state)))).
Proof.
  intros state' grown. subst state' grown. unfold day_end.
  destruct (pick_fragment state config) as [fragment|];
    cbn [GameState.day_index GameState.set_day_index
         GameState.set_current_context GameState.set_fragment_candidates_today
         GameState.set_fragments_active];
    destruct (_ <? _) eqn:Hpast;
    try (apply Z.ltb_ge in Hpast; cbn [fst]; by_setters;
         left; repeat split; exact Hpast);
    apply Z.ltb_lt in Hpast;
    match goal with
    | |- context [run_end ?s config content] =>
        set (s0 := s);
        destruct (run_end_frame s0 config content)
          as (U & T & R & F & P & Q & PS & C & X & A & D & E);
        destruct (run_end s0 config content) as [s' ms]
    end;
    cbn [fst] in *;
    (split; [eapply untouched_trans; [|exact U]; subst s0; by_setters|]);
    (split; [rewrite T; reflexivity|]); (split; [rewrite R; reflexivity|]);
    (split; [rewrite F; reflexivity|]); (split; [rewrite P; reflexivity|]);
    (split; [rewrite Q; reflexivity|]); (split; [rewrite PS; reflexivity|]);
    (split; [rewrite C; reflexivity|]); (split; [rewrite X; reflexivity|]);
    right; (split; [exact Hpast|]); (split; [exact A|]);
    (split; [exact D|]); exact E.
Qed.

(** ** Invariants of a session *)

Lemma perform_untouched (state : GameState.t) (c : call) :
  untouched state (perform state c).
Proof.
  destruct c; cbn [perform].
  - apply day_start_frame.
  - apply action_select_frame.
  - apply chat_frame.
  - apply day_end_frame.
Qed.

Lemma entry_points_fixed_aux (state : GameState.t) (calls : list call) :
  untouched state (perform_all state calls).
Proof.
  unfold perform_all. revert state.
  induction calls as [|c calls IH]; intros state; [apply untouched_refl|].
  cbn [fold_left]. eapply untouched_trans; [apply perform_untouched|apply IH].
Qed.

(** X9.  No sequence of entry-point calls changes the session id, the state
    version, [max_runs], the caps, the stats, the route flags, the meta
    progress, the inventory or the history references of a session. *)
Theorem entry_points_never_write_the_fixed_fields (state : GameState.t)
    (calls : list call) :
  untouched state (perform_all state calls).
Proof. apply entry_points_fixed_aux. Qed.

Lemma perform_trace_grows (state : GameState.t) (c : call) :
  trace_grows 2 state (perform state c).
Proof.
  destruct c; cbn [perform].
  - apply trace_grows_same. apply day_start_frame.
  - apply action_select_frame.
  - apply chat_frame.
  - apply trace_grows_same. apply day_end_frame.
Qed.

(** X10.  The trace log is append-only: after any sequence of entry-point
    calls it is the earlier log followed by new entries, at most two per call
    (one fragment roll and one proactive roll). *)
Theorem trace_log_is_append_only (state : GameState.t) (calls : list call) :
  trace_grows (2 * length calls) state (perform_all state calls).
Proof.
  unfold perform_all. revert state.
  induction calls as [|c calls IH]; intros state; [apply trace_grows_refl|].
  cbn [fold_left length].
  replace (2 * S (length calls))%nat with (2 + 2 * length calls)%nat by lia.
  eapply trace_grows_trans; [apply perform_trace_grows|apply IH].
Qed.

Lemma perform_resources_nonneg (state : GameState.t) (c : call) :
  refills_nonneg c ->
  resources_nonneg (GameState.resources state) ->
  resources_nonneg (GameState.resources (perform state c)).
Proof.
  intros Hrefill Hnn. destruct c as [config|content location time_slot stage_id
                                    |text content stage_id|config content];
    cbn [perform].
  - destruct (day_start_frame state config) as (_ & _ & _ & _ & _ & _ & _ & _ & Hres).
    destruct Hres as [->|(resources & Hinit & -> & _)]; [exact Hnn|].
    apply (Hrefill resources Hinit).
  - destruct (action_select_frame state content location time_slot stage_id)
      as (_ & _ & _ & Hspent & _). eapply spent_nonneg; eauto.
  - destruct (chat_frame state text content stage_id) as (_ & _ & _ & Hspent & _).
    eapply spent_nonneg; eauto.
  - destruct (day_end_frame state config content) as (_ & _ & -> & _). exact Hnn.
Qed.

(** X11.  Resources are never overdrawn: starting from resources that are
    not negative, and with [day_start] refills that are not negative, no
    sequence of calls makes [ap], [chat_turns], [key_q] or [npc_initiative]
    negative; one [action_select] or [chat] call spends at most one point of
    each, and none of [key_q]. *)
Theorem resources_are_never_overdrawn (state : GameState.t) (calls : list call) :
  resources_nonneg (GameState.resources state) ->
  Forall refills_nonneg calls ->
  resources_nonneg (GameState.resources (perform_all state calls))
  /\ (forall content location time_slot stage_id,
        spent_at_most_one (GameState.resources state)
          (GameState.resources
             (fst (action_select state content location time_slot stage_id))))
  /\ (forall text content stage_id,
        spent_at_most_one (GameState.resources state)
          (GameState.resources (fst (chat state text content stage_id)))).
Proof.
  intros Hnn Hcalls. split; [|split].
  - unfold perform_all. revert state Hnn.
    induction Hcalls as [|c calls Hc _ IH]; intros state Hnn; [exact Hnn|].
    cbn [fold_left]. apply IH. apply perform_resources_nonneg; assumption.
  - intros content location time_slot stage_id. apply action_select_frame.
  - intros text content stage_id. apply chat_frame.
Qed.

Lemma resources_are_never_overdrawn_witness :
  resources_nonneg
    (GameState.resources (perform_all Fixture.at_school Fixture.school_days)).
Proof.
  apply (resources_are_never_overdrawn Fixture.at_school Fixture.school_days).
  - unfold resources_nonneg. vm_compute. repeat split; discriminate.
  - unfold Fixture.school_days.
    repeat (constructor; [first [exact I
      |intros resources Hinit; vm_compute in Hinit; injection Hinit as <-;
       unfold resources_nonneg; vm_compute; repeat split; discriminate]|]).
    constructor.
Defined.

Lemma perform_same_day (state : GameState.t) (c : call) :
  (forall config content, c <> DayEnd config content) ->
  same_day state (perform state c).
Proof.
  intros Hc. destruct c as [config|content location time_slot stage_id
                           |text content stage_id|config content]; cbn [perform].
  - apply day_start_frame.
  - apply action_select_frame.
  - apply chat_frame.
  - exfalso. eapply Hc. reflexivity.
Qed.

Lemma perform_run (state : GameState.t) (c : call) :
  (GameState.game_phase (perform state c) = GameState.game_phase state
   \/ GameState.game_phase (perform state c) = RUNNING
   \/ GameState.game_phase (perform state c) = ENDED)
  /\ (GameState.run_index (perform state c) = GameState.run_index state
      \/ (GameState.run_index state < GameState.max_runs state
          /\ GameState.run_index (perform state c) = GameState.run_index state + 1))
  /\ (GameState.deep_fragments (perform state c) = GameState.deep_fragments state
      \/ exists f, GameState.deep_fragments (perform state c) = [f]).
Proof.
  destruct c as [config|content location time_slot stage_id
                |text content stage_id|config content].
  4: { cbn [perform].
       destruct (day_end_frame state config content)
         as (_ & _ & _ & _ & _ & _ & _ & _ & _ & Hcases).
       destruct Hcases as [(_ & _ & Hp & Hr & _ & _ & Hd & _)
                          |(_ & _ & Hd & [(Hlt & Hp & Hr & _)|(_ & Hp & Hr & _)])].
       - split; [left; exact Hp|]. split; [left; exact Hr|left; exact Hd].
       - split; [right; left; exact Hp|]. split; [right; split; assumption|].
         destruct Hd as [Hd|(f & _ & Hd)]; [left; exact Hd|right; eauto].
       - split; [right; right; exact Hp|]. split; [left; exact Hr|].
         destruct Hd as [Hd|(f & _ & Hd)]; [left; exact Hd|right; eauto]. }
  all: match goal with
       | |- context [perform ?s ?c] =>
           destruct (perform_same_day s c ltac:(discriminate))
             as (Hp & Hr & _ & _ & Hd & _)
       end;
    (split; [left; exact Hp|]); (split; [left; exact Hr|left; exact Hd]).
Qed.

(** X12.  In every state reached from a fresh one the phase is [RUNNING] or
    [ENDED] ([RUN_END] and [FINAL_END] are only passed through inside a
    call), the run index never decreases and stays between 1 and
    [max(1, max_runs)], and [deep_fragments] holds at most one fragment. *)
Theorem reachable_run_state (config : ConfigBundle.t) (session_id : string)
    (initial : GameState.t) (calls : list call) :
  create_initial_state config session_id = Py.Return initial ->
  let state := perform_all initial calls in
  (GameState.game_phase state = RUNNING \/ GameState.game_phase state = ENDED)
  /\ 1 <= GameState.run_index state <= Z.max 1 (GameState.max_runs initial)
  /\ (length (GameState.deep_fragments state) <= 1)%nat
  /\ (forall more,
        GameState.run_index state <= GameState.run_index (perform_all state more)).
Proof.
  intros Hinit state.
  assert (forall s more,
            GameState.run_index s <= GameState.run_index (perform_all s more))
    as Hmono.
  { intros s more. unfold perform_all. revert s.
    induction more as [|c more IH]; intros s; [cbn; lia|].
    cbn [fold_left]. specialize (IH (perform s c)).
    destruct (perform_run s c) as (_ & [Hr|[_ Hr]] & _); lia. }
  assert ((GameState.game_phase state = RUNNING \/ GameState.game_phase state = ENDED)
          /\ 1 <= GameState.run_index state <= Z.max 1 (GameState.max_runs state)
          /\ (length (GameState.deep_fragments state) <= 1)%nat) as Hinv.
  { subst state. unfold perform_all.
    assert ((GameState.game_phase initial = RUNNING
             \/ GameState.game_phase initial = ENDED)
            /\ 1 <= GameState.run_index initial
               <= Z.max 1 (GameState.max_runs initial)
            /\ (length (GameState.deep_fragments initial) <= 1)%nat) as H0.
    { unfold create_initial_state in Hinit.
      destruct (Resources.init _); [|discriminate].
      destruct (Caps.init _); [|discriminate].
      injection Hinit as <-. cbn. split; [left; reflexivity|]. lia. }
    clear Hinit. revert initial H0.
    induction calls as [|c calls IH]; intros initial H0; [exact H0|].
    cbn [fold_left]. apply IH. destruct H0 as (Hp & Hr & Hd).
    destruct (perform_run initial c) as (Hp' & Hr' & Hd').
    destruct (perform_untouched initial c) as (_ & _ & Hmax & _).
    rewrite Hmax. split; [|split].
    - destruct Hp' as [->|Hp']; [exact Hp|exact Hp'].
    - destruct Hr' as [->|[Hlt ->]]; lia.
    - destruct Hd' as [->|[f ->]]; [exact Hd|cbn; lia]. }
  destruct Hinv as (Hp & Hr & Hd).
  destruct (entry_points_fixed_aux initial calls) as (_ & _ & Hmax & _).
  fold state in Hmax. rewrite Hmax in Hr.
  split; [exact Hp|]. split; [exact Hr|]. split; [exact Hd|]. apply Hmono.
Qed.

Lemma reachable_run_state_witness :
  exists initial,
    create_initial_state (Fixture.config 1 3) "session" = Py.Return initial
    /\ let state :=
         perform_all initial
           [Chat "hello" Fixture.no_content "chat";
            DayEnd (Fixture.config 1 3) Fixture.no_content;
            Chat "hello" Fixture.no_content "chat";
            DayEnd (Fixture.config 1 3) Fixture.no_content;
            DayEnd (Fixture.config 1 3) Fixture.no_content;
            DayEnd (Fixture.config 1 3) Fixture.no_content] in
       GameState.game_phase state = ENDED
       /\ 1 <= GameState.run_index state <= 3
       /\ (length (GameState.deep_fragments state) <= 1)%nat.
Proof.
  eexists. split; [vm_compute; reflexivity|].
  match goal with
  | |- let state := perform_all ?i ?cs in _ =>
      destruct (reachable_run_state (Fixture.config 1 3) "session" i cs)
        as (_ & Hr & Hd & _)
  end.
  - vm_compute. reflexivity.
  - cbv zeta. split; [vm_compute; reflexivity|]. split; [exact Hr|exact Hd].
Defined.

Lemma fragments_by_day_same_day (s s' : GameState.t) :
  same_day s s' -> fragments_by_day s -> fragments_by_day s'.
Proof.
  intros (_ & Hrun & Hday & _ & _ & Hsame) (H1 & Hall & Hsorted).
  assert (forall i f', GameState.fragments_active s' !! i = Some f' ->
            exists f, GameState.fragments_active s !! i = Some f
                      /\ Fragment.day_created f' = Fragment.day_created f
                      /\ Fragment.run_created f' = Fragment.run_created f) as Hback.
  { intros i f' Hi. destruct (Forall2_lookup_r _ _ _ _ _ Hsame Hi) as (f & Hf & Hff).
    exists f. destruct Hff as (_ & _ & Hd & Hr & _). auto. }
  unfold fragments_by_day. rewrite Hrun, Hday. split; [exact H1|]. split.
  - intros i f' Hi. destruct (Hback i f' Hi) as (f & Hf & -> & ->). eauto.
  - intros i j f' g' Hlt Hi Hj.
    destruct (Hback i f' Hi) as (f & Hf & -> & _).
    destruct (Hback j g' Hj) as (g & Hg & -> & _). eauto.
Qed.

Lemma perform_fragments_by_day (state : GameState.t) (c : call) :
  fragments_by_day state -> fragments_by_day (perform state c).
Proof.
  intros Hinv.
  destruct c as [config|content location time_slot stage_id
                |text content stage_id|config content].
  4: { cbn [perform]. destruct Hinv as (H1 & Hall & Hsorted).
       destruct (day_end_frame state config content)
         as (_ & _ & _ & _ & _ & _ & _ & _ & _ & Hcases).
       destruct Hcases as [(_ & Hact & _ & Hr & Hd & _)
                          |(_ & Hact & _ & [(_ & _ & _ & Hd & _)|(_ & _ & _ & Hd & _)])].
       - unfold fragments_by_day. rewrite Hact, Hr, Hd. split; [lia|].
         destruct (pick_fragment state config) as [fragment|] eqn:Hpick.
         + destruct (pick_fragment_fields _ _ _ Hpick) as (Hfd & Hfr & _).
           split.
           * intros i f Hi. apply lookup_app_Some in Hi.
             destruct Hi as [Hi|[_ Hi]].
             -- destruct (Hall i f Hi). split; [assumption|lia].
             -- apply list_lookup_singleton_Some in Hi. destruct Hi as [_ <-].
                split; [exact Hfr|lia].
           * intros i j f g Hlt Hi Hj.
             apply lookup_app_Some in Hi. apply lookup_app_Some in Hj.
             destruct Hi as [Hi|[Hige Hi]], Hj as [Hj|[Hjge Hj]].
             -- eauto.
             -- apply list_lookup_singleton_Some in Hj. destruct Hj as [_ <-].
                destruct (Hall i f Hi). lia.
             -- apply lookup_lt_Some in Hj. lia.
             -- apply list_lookup_singleton_Some in Hi, Hj. lia.
         + split; [|exact Hsorted].
           intros i f Hi. destruct (Hall i f Hi). split; [assumption|lia].
       - unfold fragments_by_day. rewrite Hact, Hd.
         split; [lia|]. split; intros; discriminate.
       - unfold fragments_by_day. rewrite Hact, Hd.
         split; [lia|]. split; intros; discriminate. }
  all: apply (fragments_by_day_same_day state); [|exact Hinv];
    apply perform_same_day; discriminate.
Qed.

Lemma sorted_days_lower_bound (l : list Fragment.t) (i : nat) (f : Fragment.t) :
  (forall j g, l !! j = Some g -> 1 <= Fragment.day_created g) ->
  (forall j k g h, (j < k)%nat -> l !! j = Some g -> l !! k = Some h ->
     Fragment.day_created g < Fragment.day_created h) ->
  l !! i = Some f -> Z.of_nat i + 1 <= Fragment.day_created f.
Proof.
  intros Hpos Hsorted. revert f. induction i as [|i IH]; intros f Hi.
  - specialize (Hpos 0%nat f Hi). lia.
  - assert (i < length l)%nat as Hlt by (apply lookup_lt_Some in Hi; lia).
    destruct (lookup_lt_is_Some_2 l i Hlt) as [g Hg].
    specialize (IH g Hg). specialize (Hsorted i (S i) g f ltac:(lia) Hg Hi). lia.
Qed.

(** X13.  In every state reached from a fresh one, the active fragments were
    all created in the current run, on distinct earlier days and in list
    order (at most one fragment is gained per day), so there are fewer active
    fragments than the day index. *)
Theorem one_fragment_per_day (config : ConfigBundle.t) (session_id : string)
    (initial : GameState.t) (calls : list call) :
  create_initial_state config session_id = Py.Return initial ->
  let state := perform_all initial calls in
  fragments_by_day state
  /\ Z.of_nat (length (GameState.fragments_active state)) < GameState.day_index state.
Proof.
  intros Hinit state.
  assert (fragments_by_day state) as Hinv.
  { subst state. unfold perform_all.
    assert (fragments_by_day initial) as H0.
    { unfold create_initial_state in Hinit.
      destruct (Resources.init _); [|discriminate].
      destruct (Caps.init _); [|discriminate].
      injection Hinit as <-. unfold fragments_by_day. cbn.
      split; [lia|]. split; intros; discriminate. }
    clear Hinit. revert initial H0.
    induction calls as [|c calls IH]; intros initial H0; [exact H0|].
    cbn [fold_left]. apply IH. apply perform_fragments_by_day. exact H0. }
  split; [exact Hinv|].
  destruct Hinv as (H1 & Hall & Hsorted).
  destruct (GameState.fragments_active state) as [|f0 l0] eqn:Hact; [cbn; lia|].
  rewrite <- Hact in *.
  assert (is_Some (GameState.fragments_active state
                   !! (length (GameState.fragments_active state) - 1)%nat))
    as [f Hf].
  { apply lookup_lt_is_Some_2. rewrite Hact. cbn. lia. }
  pose proof (sorted_days_lower_bound _ _ f
                (fun j g Hj => proj1 (proj2 (Hall j g Hj))) Hsorted Hf) as Hlow.
  destruct (Hall _ f Hf) as (_ & _ & Hup).
  assert (0 < length (GameState.fragments_active state))%nat
    by (rewrite Hact; cbn; lia).
  lia.
Qed.

Lemma one_fragment_per_day_witness :
  exists initial,
    create_initial_state (Fixture.config 7 5) "session" = Py.Return initial
    /\ let state := perform_all initial Fixture.school_days in
       Z.of_nat (length (GameState.fragments_active state))
       < GameState.day_index state.
Proof.
  eexists. split; [vm_compute; reflexivity|].
  apply (one_fragment_per_day (Fixture.config 7 5) "session").
  vm_compute. reflexivity.
Defined.

(** ** Day boundaries *)

(** X14.  [day_end] promotes the first highest-scoring candidate of the day
    to a fragment (created on the current day of the current run, never
    exposed, unconsumed, one-shot) and announces it first; with no candidate
    it gains nothing.  Either way it clears the candidates and the context
    and leaves the resources, both daily counters, the trace log, the queued
    messages and the proactive state as they were; only [day_start] resets
    the counters. *)
Theorem day_end_promotes_the_best_candidate (state : GameState.t)
    (config : ConfigBundle.t) (content : ContentBundle.t) :
  let state' := fst (day_end state config content) in
  let messages := snd (day_end state config content) in
  GameState.fragment_candidates_today state' = []
  /\ GameState.current_context state' = CurrentContext.default
  /\ GameState.resources state' = GameState.resources state
  /\ GameState.daily_fragment_count state' = GameState.daily_fragment_count state
  /\ GameState.daily_proactive_count state' = GameState.daily_proactive_count state
  /\ GameState.trace_log state' = GameState.trace_log state
  /\ GameState.pending_npc_messages state' = GameState.pending_npc_messages state
  /\ GameState.proactive_state state' = GameState.proactive_state state
  /\ (GameState.fragment_candidates_today state = [] ->
      pick_fragment state config = None
      /\ (forall m, head messages = Some m -> Message.kind m <> "fragment_gain"%string)
      /\ (GameState.day_index state + 1
          <= default 7 (ConfigBundle.run config !! "days_per_run") ->
          GameState.fragments_active state' = GameState.fragments_active state
          /\ messages = []))
  /\ (GameState.fragment_candidates_today state <> [] ->
      exists fragment r best,
        pick_fragment state config = Some fragment
        /\ first_max FragmentCandidate.score
                     (GameState.fragment_candidates_today state) r best
        /\ Fragment.salience_score fragment = FragmentCandidate.score best
        /\ Fragment.anchor fragment = FragmentCandidate.anchor best
        /\ Fragment.day_created fragment = GameState.day_index state
        /\ Fragment.run_created fragment = GameState.run_index state
        /\ TriggerState.exposures (Fragment.trigger_state fragment) = 0
        /\ Fragment.consumed fragment = false
        /\ (exists m, head messages = Some m
                      /\ Message.kind m = "fragment_gain"%string)
        /\ (GameState.day_index state + 1
            <= default 7 (ConfigBundle.run config !! "days_per_run") ->
            GameState.fragments_active state'
            = GameState.fragments_active state ++ [fragment])).
Proof.
  intros state' messages.
  destruct (day_end_frame state config content)
    as (_ & T & R & F & P & Q & PS & C & X & Hcases).
  fold state' in T, R, F, P, Q, PS, C, X, Hcases.
  repeat (split; [assumption|]).
  assert (forall fragment,
            pick_fragment state config = Some fragment ->
            exists m, head messages = Some m
                      /\ Message.kind m = "fragment_gain"%string) as Hgain.
  { intros fragment Hpick. subst messages. unfold day_end. rewrite Hpick.
    cbn [GameState.day_index GameState.set_day_index
         GameState.set_current_context GameState.set_fragment_candidates_today
         GameState.set_fragments_active].
    destruct (_ <? _).
    - destruct (run_end _ config content) as [s' ms]. cbn [snd app head].
      eexists. split; reflexivity.
    - cbn [snd head]. eexists. split; reflexivity. }
  assert (pick_fragment state config = None ->
          (forall m, head messages = Some m -> Message.kind m <> "fragment_gain"%string)
          /\ (GameState.day_index state + 1
              <= default 7 (ConfigBundle.run config !! "days_per_run") ->
              messages = [])) as Hnone.
  { intros Hpick. subst messages. unfold day_end. rewrite Hpick.
    cbn [GameState.day_index GameState.set_day_index
         GameState.set_current_context GameState.set_fragment_candidates_today].
    destruct (_ <? _) eqn:Hpast.
    - split.
      + unfold run_end.
        destruct (Py.max_by _ _);
          cbn [GameState.run_index GameState.max_runs GameState.set_fragments_active
               GameState.set_deep_fragments];
          destruct (_ >=? _); cbn [snd app head];
          intros m [= <-]; discriminate.
      + intros Hle. apply Z.ltb_lt in Hpast. lia.
    - cbn [snd]. split; [intros m [=]|reflexivity]. }
  split.
  - intros Hempty. apply (proj2 (pick_fragment_None state config)) in Hempty.
    destruct (Hnone Hempty) as [Hkind Hmsgs].
    split; [exact Hempty|]. split; [exact Hkind|].
    intros Hle. split; [|apply Hmsgs; exact Hle].
    destruct Hcases as [(_ & Hact & _)|(Hpast & _)]; [|lia].
    rewrite Hact, Hempty. reflexivity.
  - intros Hcands.
    destruct (pick_fragment state config) as [fragment|] eqn:Hpick.
    2: { apply (proj1 (pick_fragment_None state config)) in Hpick. contradiction. }
    destruct (pick_fragment_fields _ _ _ Hpick)
      as (Hd & Hr & He & Hc & _ & (r & best & Hmax & Hs & Ha & _)).
    exists fragment, r, best.
    repeat (split; [first [reflexivity|assumption]|]).
    split; [apply (Hgain fragment); reflexivity|].
    intros Hle. destruct Hcases as [(_ & Hact & _)|(Hpast & _)]; [exact Hact|lia].
Qed.

(** X15.  [day_start] is idempotent, and when it returns it sets the
    resources to the configured ones, both daily counters to zero and the
    context to the empty one, while the fragments, the deep memory, the
    queued messages, the proactive state, the trace log and the day and run
    indices stay as they were. *)
Theorem day_start_resets_the_day (state : GameState.t) (config : ConfigBundle.t) :
  let state' := fst (day_start state config) in
  day_start state' config = (state', snd (day_start state config))
  /\ same_day state state'
  /\ GameState.fragments_active state' = GameState.fragments_active state
  /\ GameState.pending_npc_messages state' = GameState.pending_npc_messages state
  /\ GameState.proactive_state state' = GameState.proactive_state state
  /\ GameState.trace_log state' = GameState.trace_log state
  /\ (forall messages,
        snd (day_start state config) = Py.Return messages ->
        Resources.init (ConfigBundle.resources config)
        = Py.Return (GameState.resources state')
        /\ GameState.daily_fragment_count state' = 0
        /\ GameState.daily_proactive_count state' = 0
        /\ GameState.current_context state' = CurrentContext.default).
Proof.
  intros state'.
  destruct (day_start_frame state config) as (_ & D & T & A & Q & PS & _ & _ & _).
  fold state' in D, T, A, Q, PS.
  split; [|repeat (split; [assumption|])].
  - subst state'. unfold day_start.
    destruct (Resources.init (ConfigBundle.resources config)) as [resources|e] eqn:Hinit;
      cbn [fst snd]; rewrite ?Hinit; reflexivity.
  - intros messages. subst state'. unfold day_start.
    destruct (Resources.init (ConfigBundle.resources config)) as [resources|e];
      cbn [fst snd]; [|discriminate].
    intros _. repeat split.
Qed.

(** ** The response builder *)

(** X16.  [build_response] moves every queued NPC message to the end of the
    response, in queue order, and empties the queue; nothing else of the
    state changes, and building a second response right after adds no
    message. *)
Theorem build_response_flushes_once (state : GameState.t) (messages : list Message.t)
    (ui_hints : list string) (trace_id : string) :
  let response := build_response state messages ui_hints trace_id in
  ApiResponse.messages response = messages ++ GameState.pending_npc_messages state
  /\ ApiResponse.ui_hints response = ui_hints
  /\ ApiResponse.trace_id response = trace_id
  /\ ApiResponse.state response = GameState.set_pending_npc_messages [] state
  /\ (GameState.pending_npc_messages state = [] -> ApiResponse.state response = state)
  /\ (forall messages' ui_hints' trace_id',
        build_response (ApiResponse.state response) messages' ui_hints' trace_id'
        = ApiResponse.mk (ApiResponse.state response) messages' ui_hints' trace_id').
Proof.
  intros response. subst response. unfold build_response.
  destruct state as [a1 a2 a3 a4 a5 a6 a7 a8 a9 a10 a11 a12 a13 a14 a15 pending
                     a17 a18 a19 a20 a21 a22 a23 a24 a25].
  cbn [GameState.pending_npc_messages].
  destruct pending as [|m pending]; cbn.
  - rewrite app_nil_r. repeat split.
  - repeat split. intros [=].
Qed.

(** ** Within a day *)

(** X17.  Between two [day_end] calls the phase, the run and day indices,
    the run seed and the deep memory do not change, and the active fragments
    stay in place: their number and order are kept and a fragment only
    changes in its exposure count, its last check and its [consumed] flag,
    never in its id, salience, trigger, pity parameters or cooldown. *)
Theorem actions_keep_the_day_and_the_fragments (state : GameState.t)
    (calls : list call) :
  Forall within_the_day calls ->
  same_day state (perform_all state calls).
Proof.
  intros Hcalls. unfold perform_all. revert state.
  induction Hcalls as [|c calls Hc _ IH]; intros state; [apply same_day_refl|].
  cbn [fold_left]. eapply same_day_trans; [|apply IH].
  apply perform_same_day. intros config content ->. exact Hc.
Qed.

Lemma actions_keep_the_day_and_the_fragments_witness :
  same_day Fixture.with_fragments
    (perform_all Fixture.with_fragments
       [DayStart (Fixture.config 7 5);
        ActionSelect Fixture.sure_content "school" "morning" "event_flow";
        Chat "hello" Fixture.sure_content "chat"]).
Proof.
  apply actions_keep_the_day_and_the_fragments.
  repeat constructor.
Defined.

Lemma perform_pending (state : GameState.t) (c : call) :
  exists queued,
    GameState.pending_npc_messages (perform state c)
    = GameState.pending_npc_messages state ++ queued
    /\ (length queued <= 1)%nat.
Proof.
  destruct c as [config|content location time_slot stage_id
                |text content stage_id|config content]; cbn [perform].
  - exists []. rewrite app_nil_r. split; [apply day_start_frame|cbn; lia].
  - apply action_select_frame.
  - apply chat_frame.
  - exists []. rewrite app_nil_r. split; [apply day_end_frame|cbn; lia].
Qed.

(** X18.  No entry point drops or reorders a queued NPC message: after any
    sequence of calls the queue is the earlier queue followed by the messages
    queued since, at most one per call; only [build_response] empties it. *)
Theorem queued_messages_are_kept (state : GameState.t) (calls : list call) :
  exists queued,
    GameState.pending_npc_messages (perform_all state calls)
    = GameState.pending_npc_messages state ++ queued
    /\ (length queued <= length calls)%nat
    /\ forall messages ui_hints trace_id,
         ApiResponse.messages
           (build_response (perform_all state calls) messages ui_hints trace_id)
         = messages ++ GameState.pending_npc_messages state ++ queued.
Proof.
  assert (exists queued,
            GameState.pending_npc_messages (perform_all state calls)
            = GameState.pending_npc_messages state ++ queued
            /\ (length queued <= length calls)%nat) as (queued & Hq & Hlen).
  { unfold perform_all. revert state.
    induction calls as [|c calls IH]; intros state.
    - exists []. rewrite app_nil_r. split; [reflexivity|cbn; lia].
    - cbn [fold_left length].
      destruct (perform_pending state c) as (q1 & H1 & L1).
      destruct (IH (perform state c)) as (q2 & H2 & L2).
      exists (q1 ++ q2). rewrite H2, H1, app_assoc, length_app.
      split; [reflexivity|lia]. }
  exists queued. split; [exact Hq|]. split; [exact Hlen|].
  intros messages ui_hints trace_id. unfold build_response.
  rewrite <- Hq.
  destruct (GameState.pending_npc_messages (perform_all state calls));
    cbn [ApiResponse.messages]; [rewrite app_nil_r|]; reflexivity.
Qed.

(** ** The session store and the handlers *)

(** X19.  The store gives back what was saved: after [save], [exists] holds
    for the session id of the saved state and [get] returns that state,
    whatever was stored under the id before; the other ids are not affected;
    [exists] holds exactly when [get] finds a state, and a new store knows no
    session. *)
Theorem store_returns_what_was_saved (store : InMemoryStore.t) (state : GameState.t) :
  InMemoryStore.get (InMemoryStore.save store state) (GameState.session_id state)
  = Some state
  /\ InMemoryStore.exists_ (InMemoryStore.save store state)
       (GameState.session_id state) = true
  /\ (forall k, k <> GameState.session_id state ->
        InMemoryStore.get (InMemoryStore.save store state) k
        = InMemoryStore.get store k
        /\ InMemoryStore.exists_ (InMemoryStore.save store state) k
           = InMemoryStore.exists_ store k)
  /\ (forall k, InMemoryStore.exists_ store k = true
                <-> is_Some (InMemoryStore.get store k))
  /\ (forall k, InMemoryStore.get InMemoryStore.init k = None).
Proof.
  unfold InMemoryStore.get, InMemoryStore.exists_, InMemoryStore.save,
    InMemoryStore.init.
  cbn [InMemoryStore._store].
  split; [apply lookup_insert_eq|]. split; [rewrite lookup_insert_eq; reflexivity|].
  split; [|split].
  - intros k Hk. rewrite lookup_insert_ne by auto. split; reflexivity.
  - intros k. destruct (InMemoryStore._store store !! k); split;
      try discriminate; eauto.
    intros [x Hx]. discriminate.
  - intros k. apply lookup_empty.
Qed.

Lemma keyed_write_back (store : InMemoryStore.t) (k : string) (state : GameState.t) :
  keyed store -> GameState.session_id state = k ->
  keyed (InMemoryStore.write_back store k state).
Proof.
  intros Hkeyed Hid k' s. unfold InMemoryStore.write_back.
  cbn [InMemoryStore._store]. rewrite lookup_insert.
  destruct (decide (k = k')) as [<-|Hne].
  - intros [= <-]. exact Hid.
  - apply Hkeyed.
Qed.

Lemma build_response_state (state : GameState.t) (messages : list Message.t)
    (ui_hints : list string) (trace_id : string) :
  let state' := ApiResponse.state (build_response state messages ui_hints trace_id) in
  GameState.session_id state' = GameState.session_id state
  /\ GameState.pending_npc_messages state' = [].
Proof.
  unfold build_response.
  destruct (GameState.pending_npc_messages state) eqn:Hp; cbn; auto.
Qed.

Lemma save_and_respond_spec (store : InMemoryStore.t) (k : string)
    (state : GameState.t) (messages : list Message.t) (ui_hints : list string)
    (trace_id : string) :
  keyed store -> GameState.session_id state = k ->
  let result := Main.save_and_respond store k state messages ui_hints trace_id in
  keyed (fst result)
  /\ (forall k', k' <> k ->
        InMemoryStore._store (fst result) !! k' = InMemoryStore._store store !! k')
  /\ snd result = Main.Response (build_response state messages ui_hints trace_id)
  /\ InMemoryStore.get (fst result) k
     = Some (ApiResponse.state (build_response state messages ui_hints trace_id)).
Proof.
  intros Hkeyed Hid result. subst result. unfold Main.save_and_respond.
  destruct (build_response_state state messages ui_hints trace_id) as [Hsid _].
  cbn [fst snd]. rewrite Hsid, Hid.
  split; [|split; [|split]].
  - apply keyed_write_back; [|congruence].
    apply keyed_write_back; [|congruence].
    unfold InMemoryStore.save. rewrite Hid.
    apply (keyed_write_back store k state Hkeyed Hid).
  - intros k' Hne. unfold InMemoryStore.write_back, InMemoryStore.save.
    cbn [InMemoryStore._store]. rewrite Hid.
    rewrite !lookup_insert_ne by auto. reflexivity.
  - reflexivity.
  - unfold InMemoryStore.get, InMemoryStore.write_back.
    cbn [InMemoryStore._store]. apply lookup_insert_eq.
Qed.

Lemma write_back_other (store : InMemoryStore.t) (k k' : string) (state : GameState.t) :
  k' <> k ->
  InMemoryStore._store (InMemoryStore.write_back store k state) !! k'
  = InMemoryStore._store store !! k'.
Proof.
  intros Hne. unfold InMemoryStore.write_back. cbn [InMemoryStore._store].
  apply lookup_insert_ne. auto.
Qed.

(** What a handler does once the session was found, given the state the
    entry point left and what it returned. *)
Lemma found_session_spec (store : InMemoryStore.t) (k : string)
    (state state' : GameState.t) (result : InMemoryStore.t * Main.reply) :
  keyed store ->
  InMemoryStore._store store !! k = Some state ->
  GameState.session_id state' = GameState.session_id state ->
  (result = (InMemoryStore.write_back store k state', Main.KeyError)
   \/ (exists e, result = (InMemoryStore.write_back store k state', Main.Unhandled e))
   \/ exists messages ui_hints trace_id,
        result = Main.save_and_respond (InMemoryStore.write_back store k state')
                   k state' messages ui_hints trace_id) ->
  keyed (fst result)
  /\ (forall k', k' <> k ->
        InMemoryStore._store (fst result) !! k' = InMemoryStore._store store !! k')
  /\ (forall response, snd result = Main.Response response ->
        InMemoryStore.get (fst result) k = Some (ApiResponse.state response)
        /\ GameState.pending_npc_messages (ApiResponse.state response) = []
        /\ GameState.session_id (ApiResponse.state response) = k).
Proof.
  intros Hkeyed Hget Hsid Hresult.
  assert (GameState.session_id state' = k) as Hid
    by (rewrite Hsid; apply Hkeyed; exact Hget).
  assert (keyed (InMemoryStore.write_back store k state')) as Hk1
    by (apply keyed_write_back; assumption).
  destruct Hresult as [->|[[e ->]|(messages & ui_hints & trace_id & ->)]].
  - cbn [fst snd]. split; [exact Hk1|].
    split; [intros k' Hne; apply write_back_other; exact Hne|intros r [=]].
  - cbn [fst snd]. split; [exact Hk1|].
    split; [intros k' Hne; apply write_back_other; exact Hne|intros r [=]].
  - destruct (save_and_respond_spec _ k state' messages ui_hints trace_id Hk1 Hid)
      as (Hk2 & Hother & Hreply & Hstored).
    split; [exact Hk2|]. split.
    + intros k' Hne. rewrite Hother by exact Hne. apply write_back_other. exact Hne.
    + intros response Hr. rewrite Hreply in Hr. injection Hr as <-.
      destruct (build_response_state state' messages ui_hints trace_id) as [Hs Hp].
      split; [exact Hstored|]. split; [exact Hp|congruence].
Qed.

Lemma create_initial_state_session_id (config : ConfigBundle.t) (uuid : string)
    (state : GameState.t) :
  create_initial_state config uuid = Py.Return state ->
  GameState.session_id state = uuid
  /\ GameState.pending_npc_messages state = [].
Proof.
  unfold create_initial_state.
  destruct (Resources.init _); [|discriminate].
  destruct (Caps.init _); [|discriminate].
  intros [= <-]. split; reflexivity.
Qed.

(** X20.  Every handler but [new_session] answers a session id the store
    does not know with the 404 ["Session not found"] and leaves the store as
    it was; no entry point of the core is called. *)
Theorem unknown_session_is_not_found (config : ConfigBundle.t)
    (content : ContentBundle.t) (store : InMemoryStore.t) (r : request)
    (trace_id : string) :
  (forall uuid, r <> NewSession uuid) ->
  InMemoryStore.exists_ store (request_session r) = false ->
  handle config content store r trace_id
  = (store, Main.HTTPException 404 "Session not found").
Proof.
  intros Hnot Hunknown.
  destruct r as [uuid|session_id|r|r|r|r]; cbn [handle request_session] in *.
  - exfalso. eapply Hnot. reflexivity.
  - unfold Main.get_state. rewrite Hunknown. reflexivity.
  - unfold Main.api_day_start. rewrite Hunknown. reflexivity.
  - unfold Main.api_action_select. rewrite Hunknown. reflexivity.
  - unfold Main.api_chat. rewrite Hunknown. reflexivity.
  - unfold Main.api_day_end. rewrite Hunknown. reflexivity.
Qed.

Lemma unknown_session_is_not_found_witness :
  handle (Fixture.config 7 5) Fixture.no_content InMemoryStore.init
         (PostDayEnd (Main.mkSessionRequest "nobody")) "trace"
  = (InMemoryStore.init, Main.HTTPException 404 "Session not found").
Proof.
  apply unknown_session_is_not_found; [discriminate|reflexivity].
Defined.

(** X21.  On a store that holds every session under its own id, a handler
    keeps it so, touches no session but the one the request names, and, when
    it answers with a response, the session it stored is the state of that
    response, with an empty message queue. *)
Theorem handlers_keep_sessions_apart (config : ConfigBundle.t)
    (content : ContentBundle.t) (store : InMemoryStore.t) (r : request)
    (trace_id : string) :
  keyed store ->
  let result := handle config content store r trace_id in
  keyed (fst result)
  /\ (forall k, k <> request_session r ->
        InMemoryStore.get (fst result) k = InMemoryStore.get store k)
  /\ (forall response,
        snd result = Main.Response response ->
        InMemoryStore.get (fst result) (request_session r)
        = Some (ApiResponse.state response)
        /\ GameState.pending_npc_messages (ApiResponse.state response) = []
        /\ GameState.session_id (ApiResponse.state response) = request_session r).
Proof.
  intros Hkeyed result. subst result.
  assert (forall k : string,
            keyed (fst (store, Main.not_found))
            /\ (forall k', k' <> k ->
                  InMemoryStore.get (fst (store, Main.not_found)) k'
                  = InMemoryStore.get store k')
            /\ (forall response,
                  snd (store, Main.not_found) = Main.Response response ->
                  InMemoryStore.get (fst (store, Main.not_found)) k
                  = Some (ApiResponse.state response)
                  /\ GameState.pending_npc_messages (ApiResponse.state response) = []
                  /\ GameState.session_id (ApiResponse.state response) = k))
    as Hmissing.
  { intros k. cbn [fst snd]. split; [exact Hkeyed|].
    split; [reflexivity|intros response [=]]. }
  destruct r as [uuid|session_id|r|r|r|r]; cbn [handle request_session].
  - unfold Main.new_session.
    destruct (create_initial_state config uuid) as [state|e] eqn:Hcreate.
    + destruct (create_initial_state_session_id _ _ _ Hcreate) as [Hid _].
      rewrite Hid.
      destruct (save_and_respond_spec store uuid state
                  [Message.mk "system" "新的旅程开始。" "session_start" []]
                  [] trace_id Hkeyed Hid) as (Hk & Hother & Hreply & Hstored).
      split; [exact Hk|]. split; [exact Hother|].
      intros response Hr. rewrite Hreply in Hr. injection Hr as <-.
      destruct (build_response_state state
                  [Message.mk "system" "新的旅程开始。" "session_start" []]
                  [] trace_id) as [Hs Hp].
      split; [exact Hstored|]. split; [exact Hp|congruence].
    + cbn [fst snd]. split; [exact Hkeyed|].
      split; [reflexivity|intros response [=]].
  - unfold Main.get_state, InMemoryStore.exists_, InMemoryStore.get.
    destruct (InMemoryStore._store store !! session_id) as [state|] eqn:Hget;
      cbn [negb]; [|apply Hmissing].
    destruct (build_response_state state [] [] trace_id) as [Hs Hp].
    cbn [fst snd]. split; [|split].
    + apply keyed_write_back; [exact Hkeyed|]. rewrite Hs. apply Hkeyed. exact Hget.
    + intros k Hne. apply write_back_other. exact Hne.
    + intros response [= <-]. split; [|split; [exact Hp|]].
      * unfold InMemoryStore.write_back. cbn [InMemoryStore._store].
        apply lookup_insert_eq.
      * rewrite Hs. apply Hkeyed. exact Hget.
  - unfold Main.api_day_start, InMemoryStore.exists_, InMemoryStore.get.
    destruct (InMemoryStore._store store !! Main.session_id r) as [state|] eqn:Hget;
      cbn [negb]; [|apply Hmissing].
    destruct (day_start_frame state config) as ((Hsid & _) & _).
    destruct (day_start state config) as [state' [messages|e]]; cbn [fst] in Hsid;
      apply (found_session_spec store _ state state'); eauto 10.
  - unfold Main.api_action_select, InMemoryStore.exists_, InMemoryStore.get.
    destruct (InMemoryStore._store store !! Main.action_session_id r)
      as [state|] eqn:Hget; cbn [negb]; [|apply Hmissing].
    destruct (action_select_frame state content (Main.location r) (Main.time_slot r)
                "event_flow") as ((Hsid & _) & _).
    destruct (action_select state content (Main.location r) (Main.time_slot r)
                "event_flow") as [state' [[messages ui_hints]|e]];
      cbn [fst] in Hsid;
      apply (found_session_spec store _ state state'); eauto 10.
  - unfold Main.api_chat, InMemoryStore.exists_, InMemoryStore.get.
    destruct (InMemoryStore._store store !! Main.chat_session_id r)
      as [state|] eqn:Hget; cbn [negb]; [|apply Hmissing].
    destruct (chat_frame state (Main.text r) content "chat") as ((Hsid & _) & _).
    destruct (chat state (Main.text r) content "chat") as [state' messages];
      cbn [fst] in Hsid;
      apply (found_session_spec store _ state state'); eauto 10.
  - unfold Main.api_day_end, InMemoryStore.exists_, InMemoryStore.get.
    destruct (InMemoryStore._store store !! Main.session_id r) as [state|] eqn:Hget;
      cbn [negb]; [|apply Hmissing].
    destruct (day_end_frame state config content) as ((Hsid & _) & _).
    destruct (day_end state config content) as [state' messages];
      cbn [fst] in Hsid;
      apply (found_session_spec store _ state state'); eauto 10.
Qed.

Lemma handlers_keep_sessions_apart_witness :
  let result :=
    handle (Fixture.config 7 5) Fixture.no_content InMemoryStore.init
           (NewSession "session") "trace" in
  keyed (fst result)
  /\ forall response,
       snd result = Main.Response response ->
       InMemoryStore.get (fst result) "session" = Some (ApiResponse.state response).
Proof.
  destruct (handlers_keep_sessions_apart (Fixture.config 7 5) Fixture.no_content
              InMemoryStore.init (NewSession "session") "trace")
    as (Hkeyed & _ & Hstored).
  - intros k state Hget. unfold InMemoryStore.init in Hget.
    cbn [InMemoryStore._store] in Hget. rewrite lookup_empty in Hget. discriminate.
  - split; [exact Hkeyed|]. intros response Hr. apply (Hstored response Hr).
Defined.

(** X22.  A session made by [new_session] can be read back: the response of
    [new_session] carries the fresh state and the one [session_start]
    message, and a [get_state] for its id right after answers with the same
    state and no message, leaving the store as it is. *)
Theorem new_session_can_be_read_back (config : ConfigBundle.t)
    (store : InMemoryStore.t) (uuid trace_id trace_id' : string)
    (state : GameState.t) :
  create_initial_state config uuid = Py.Return state ->
  let created := Main.new_session config store uuid trace_id in
  snd created
  = Main.Response
      (ApiResponse.mk state [Message.mk "system" "新的旅程开始。" "session_start" []]
                      [] trace_id)
  /\ InMemoryStore.exists_ (fst created) uuid = true
  /\ Main.get_state (fst created) uuid trace_id'
     = (fst created, Main.Response (ApiResponse.mk state [] [] trace_id')).
Proof.
  intros Hcreate created. subst created. unfold Main.new_session. rewrite Hcreate.
  destruct (create_initial_state_session_id _ _ _ Hcreate) as [Hid Hpending].
  unfold Main.save_and_respond, build_response. rewrite Hpending.
  cbn [ApiResponse.state fst snd]. rewrite Hid.
  split; [reflexivity|].
  unfold Main.get_state, InMemoryStore.exists_, InMemoryStore.get,
    InMemoryStore.write_back, InMemoryStore.save.
  cbn [InMemoryStore._store]. rewrite Hid, !lookup_insert_eq. cbn [negb].
  split; [reflexivity|]. unfold build_response. rewrite Hpending.
  cbn [ApiResponse.state]. f_equal. f_equal.
  apply insert_id. apply lookup_insert_eq.
Qed.

Lemma new_session_can_be_read_back_witness :
  exists state,
    create_initial_state (Fixture.config 7 5) "session" = Py.Return state
    /\ let created :=
         Main.new_session (Fixture.config 7 5) InMemoryStore.init "session" "t1" in
       Main.get_state (fst created) "session" "t2"
       = (fst created, Main.Response (ApiResponse.mk state [] [] "t2")).
Proof.
  eexists. split; [vm_compute; reflexivity|].
  apply (new_session_can_be_read_back (Fixture.config 7 5) InMemoryStore.init
           "session" "t1" "t2").
  vm_compute. reflexivity.
Defined.

Lemma action_select_returns_when_reachable_witness :
  exists initial result,
    create_initial_state (Fixture.config 7 5) "session" = Py.Return initial
    /\ snd (action_select (perform_all initial Fixture.school_days)
                          Fixture.sure_content "school" "morning" "event_flow")
       = Py.Return result.
Proof.
  eexists.
  destruct (action_select_returns_when_reachable (Fixture.config 7 5) "session"
              _ Fixture.school_days Fixture.sure_content
              "school" "morning" "event_flow" ltac:(vm_compute; reflexivity))
    as [result Hresult].
  exists result. split; [vm_compute; reflexivity|exact Hresult].
Defined.

(** ** Where fragment candidates come from *)

(** X23.  In an [action_select] call that spends an action point, a message
    from the fragment trigger check (a fragment event or a micro flashback)
    suppresses the harvest: the candidates of the day stay as they were.
    When the check returns nothing, the candidates grow by one candidate per
    fragment hook of the selected event, in order, and by nothing when no
    event is selected. *)
Theorem fragment_message_suppresses_the_harvest (state : GameState.t)
    (content : ContentBundle.t) (location time_slot stage_id : string) :
  0 < Resources.ap (GameState.resources state) ->
  let prepared := prepared_action state location time_slot stage_id in
  let checked := fragment_trigger_check prepared location stage_id in
  let state' := fst (action_select state content location time_slot stage_id) in
  (forall m, snd checked = Py.Return (Some m) ->
     GameState.fragment_candidates_today state'
     = GameState.fragment_candidates_today state
     /\ exists rest ui_hints,
          snd (action_select state content location time_slot stage_id)
          = Py.Return (m :: rest, ui_hints))
  /\ (snd checked = Py.Return None ->
      GameState.fragment_candidates_today state'
      = GameState.fragment_candidates_today state
        ++ match select_event content location time_slot (fst checked) with
           | Some event =>
               map candidate_of_hook (default [] (Event.fragment_hooks event))
           | None => []
           end).
Proof.
  intros Hap prepared checked state'. subst state' checked.
  unfold action_select.
  replace (Resources.ap (GameState.resources state) <=? 0) with false
    by (symmetry; apply Z.leb_gt; exact Hap).
  fold (prepared_action state location time_slot stage_id). fold prepared.
  destruct (fragment_trigger_check_frame prepared location stage_id)
    as (_ & _ & _ & _ & _ & Hcands & _).
  destruct (fragment_trigger_check prepared location stage_id)
    as [s1 outcome]. cbn [fst snd] in *.
  assert (GameState.fragment_candidates_today s1
          = GameState.fragment_candidates_today state) as Hc1
    by (rewrite Hcands; reflexivity).
  clear Hcands.
  split.
  - intros m ->.
    destruct (select_event content location time_slot s1) as [event|];
      [destruct (Event.event_id event) as [event_id|];
       try destruct (Py.truthy_str event_id)|];
      cbv beta iota zeta;
      match goal with
      | |- context [proactive_check ?s content stage_id] =>
          destruct (proactive_check_frame s content stage_id)
            as (_ & _ & _ & _ & _ & Hpc & _);
          destruct (proactive_check s content stage_id) as [s3 ms]
      end;
      cbn [fst snd] in *; (split; [rewrite Hpc; exact Hc1|]);
      eexists; eexists; reflexivity.
  - intros ->.
    destruct (select_event content location time_slot s1) as [event|];
      [destruct (Event.event_id event) as [event_id|];
       try destruct (Py.truthy_str event_id)|];
      cbv beta iota zeta;
      match goal with
      | |- context [proactive_check ?s content stage_id] =>
          destruct (proactive_check_frame s content stage_id)
            as (_ & _ & _ & _ & _ & Hpc & _);
          destruct (proactive_check s content stage_id) as [s3 ms]
      end;
      cbn [fst snd] in *; rewrite Hpc; state_simpl; rewrite Hc1, ?app_nil_r;
      reflexivity.
Qed.

Lemma fragment_message_suppresses_the_harvest_witness :
  let state := GameState.set_resources (Resources.mk 3 2 1 1) Fixture.with_consumed in
  GameState.fragment_candidates_today
    (fst (action_select state Fixture.sure_content "school" "morning" "chat"))
  = GameState.fragment_candidates_today state
  /\ length (GameState.fragment_candidates_today
               (fst (action_select state Fixture.sure_content "market" "morning"
                                   "chat"))) = 0%nat
  /\ length (GameState.fragment_candidates_today
               (fst (action_select
                       (GameState.set_fragments_active [] state)
                       Fixture.sure_content "school" "morning" "chat"))) = 1%nat.
Proof.
  intros state.
  destruct (fragment_message_suppresses_the_harvest state Fixture.sure_content
              "school" "morning" "chat") as [Hsome _].
  - vm_compute. reflexivity.
  - destruct (fragment_message_suppresses_the_harvest
                (GameState.set_fragments_active [] state) Fixture.sure_content
                "school" "morning" "chat") as [_ Hnone].
    + vm_compute. reflexivity.
    + split; [|split].
      * eapply Hsome. vm_compute. reflexivity.
      * vm_compute. reflexivity.
      * rewrite Hnone by (vm_compute; reflexivity). vm_compute. reflexivity.
Defined.

Lemma chat_adds_one_candidate (state : GameState.t) (text : string)
    (content : ContentBundle.t) (stage_id : string) :
  0 < Resources.chat_turns (GameState.resources state) ->
  let state' := fst (chat state text content stage_id) in
  GameState.fragment_candidates_today state'
  = GameState.fragment_candidates_today state ++ [chat_candidate state]
  /\ GameState.current_context state' = GameState.current_context state
  /\ exists rest,
       snd (chat state text content stage_id)
       = Message.mk "npc" "她认真听着，像在拼凑新的线索。" "chat" [] :: rest.
Proof.
  intros Hturns state'. subst state'. unfold chat.
  replace (Resources.chat_turns (GameState.resources state) <=? 0) with false
    by (symmetry; apply Z.leb_gt; exact Hturns).
  match goal with
  | |- context [proactive_check ?s content stage_id] =>
      destruct (proactive_check_frame s content stage_id)
        as (_ & _ & _ & _ & Hctx & Hcands & _);
      destruct (proactive_check s content stage_id) as [s3 ms]
  end.
  cbn [fst snd] in *. rewrite Hcands, Hctx.
  split; [reflexivity|]. split; [reflexivity|]. eexists. reflexivity.
Qed.

(** X24.  A chat leaves a memory of the place: when [chat] is the only
    source of candidates of a day, the [day_end] that closes the day (without
    ending the run) adds one fragment with anchor ["对话"], salience 0.3 and a
    [location] trigger on the location the context had during the chat (the
    empty string when there was none); the fragment is eligible at that
    location on every later day of the run until it is consumed. *)
Theorem chat_leaves_a_fragment_for_the_place (state : GameState.t) (text : string)
    (content : ContentBundle.t) (stage_id : string) (config : ConfigBundle.t) :
  0 < Resources.chat_turns (GameState.resources state) ->
  GameState.fragment_candidates_today state = [] ->
  GameState.day_index state + 1
  <= default 7 (ConfigBundle.run config !! "days_per_run") ->
  let place :=
    Py.or_empty (CurrentContext.location (GameState.current_context state)) in
  let state' := fst (day_end (fst (chat state text content stage_id)) config content) in
  exists fragment,
    GameState.fragments_active state' = GameState.fragments_active state ++ [fragment]
    /\ Fragment.anchor fragment = "对话"%string
    /\ Fragment.salience_score fragment = (3 # 10)%Q
    /\ Fragment.trigger fragment = Trigger.mk "location" place ∅
    /\ Fragment.consumed fragment = false
    /\ GameState.day_index state' = GameState.day_index state + 1
    /\ forall day, 0 <= day ->
         fragment_eligible (GameState.set_day_index day state') place fragment = true.
Proof.
  intros Hturns Hempty Hdays place state'.
  destruct (chat_adds_one_candidate state text content stage_id Hturns)
    as (Hcands & Hctx & _).
  destruct (chat_frame state text content stage_id)
    as (_ & _ & (_ & _ & Hday & _ & _ & Hsame) & _).
  set (chatted := fst (chat state text content stage_id)) in *.
  rewrite Hempty in Hcands. cbn [app] in Hcands.
  assert (GameState.fragments_active chatted = GameState.fragments_active state)
    as Hactive.
  { unfold chatted, chat.
    destruct (_ <=? _); [reflexivity|].
    match goal with
    | |- context [proactive_check ?s content stage_id] =>
        pose proof (proactive_check_fragments s content stage_id) as Hpc;
        destruct (proactive_check s content stage_id) as [s3 ms]
    end.
    cbn [fst] in *. rewrite Hpc. reflexivity. }
  destruct (day_end_frame chatted config content)
    as (_ & _ & _ & _ & _ & _ & _ & _ & _ & Hcases).
  fold state' in Hcases.
  destruct Hcases as [(_ & Hact & _ & _ & Hday' & _)|(Hpast & _)]; [|lia].
  destruct (pick_fragment chatted config) as [fragment|] eqn:Hpick.
  2: { apply (proj1 (pick_fragment_None chatted config)) in Hpick. congruence. }
  exists fragment. rewrite Hact, Hactive, Hday', Hday.
  split; [reflexivity|].
  unfold pick_fragment in Hpick. rewrite Hcands in Hpick.
  change (Py.max_by FragmentCandidate.score [chat_candidate state])
    with (Some (chat_candidate state)) in Hpick.
  cbn [chat_candidate FragmentCandidate.trigger_hint FragmentCandidate.anchor
       FragmentCandidate.score FragmentCandidate.emotion_tag
       FragmentCandidate.reveal_level] in Hpick.
  destruct (decide (_ = ∅)) as [Hnil|_] in Hpick.
  { exfalso. revert Hnil. apply insert_non_empty. }
  rewrite lookup_insert_eq in Hpick.
  rewrite lookup_insert_ne, lookup_insert_eq in Hpick by discriminate.
  injection Hpick as <-. cbn [default].
  repeat (split; [reflexivity|]).
  intros day Hday0. unfold fragment_eligible. state_simpl.
  cbn [Fragment.consumed Fragment.trigger Fragment.trigger_state Trigger.kind
       Trigger.value TriggerState.cooldown_until_day negb andb].
  unfold place. rewrite !String.eqb_refl. cbn [andb].
  apply Z.leb_le. exact Hday0.
Qed.

Lemma chat_leaves_a_fragment_for_the_place_witness :
  let state := GameState.set_resources (Resources.mk 3 2 1 1) Fixture.at_school in
  let state' :=
    fst (day_end (fst (chat state "hello" Fixture.no_content "chat"))
                 (Fixture.config 7 5) Fixture.no_content) in
  exists fragment,
    GameState.fragments_active state' = [fragment]
    /\ Fragment.trigger fragment = Trigger.mk "location" "school" ∅.
Proof.
  intros state state'.
  destruct (chat_leaves_a_fragment_for_the_place state "hello" Fixture.no_content
              "chat" (Fixture.config 7 5))
    as (fragment & Hact & _ & _ & Htrigger & _).
  - vm_compute. reflexivity.
  - reflexivity.
  - vm_compute. discriminate.
  - exists fragment. split; [exact Hact|exact Htrigger].
Defined.

(** ** The phase is never read *)

Lemma fragment_trigger_check_phase (p : GamePhase) (state : GameState.t)
    (location stage_id : string) :
  fragment_trigger_check (GameState.set_game_phase p state) location stage_id
  = (GameState.set_game_phase p (fst (fragment_trigger_check state location stage_id)),
     snd (fragment_trigger_check state location stage_id)).
Proof.
  unfold fragment_trigger_check.
  change (select_fragment (GameState.set_game_phase p state) location)
    with (select_fragment state location).
  state_simpl.
  destruct (_ >=? _); [reflexivity|].
  destruct (select_fragment state location) as [[i f]|]; [|reflexivity].
  destruct (already_checked _ _ _); [reflexivity|].
  change (fragment_seed (GameState.set_game_phase p state) stage_id f)
    with (fragment_seed state stage_id f).
  destruct (RollResult.success _); [reflexivity|].
  destruct (Py.index micro_lines _); reflexivity.
Qed.

Lemma proactive_check_phase (p : GamePhase) (state : GameState.t)
    (content : ContentBundle.t) (stage_id : string) :
  proactive_check (GameState.set_game_phase p state) content stage_id
  = (GameState.set_game_phase p (fst (proactive_check state content stage_id)),
     snd (proactive_check state content stage_id)).
Proof.
  unfold proactive_check.
  change (hook_eligible (GameState.set_game_phase p state))
    with (hook_eligible state).
  state_simpl.
  destruct (_ >=? _); [reflexivity|].
  destruct (_ <=? _); [reflexivity|].
  destruct (List.filter (hook_eligible state) (ContentBundle.hooks content))
    as [|h eligible]; [reflexivity|].
  change (select_hook (h :: eligible) (GameState.set_game_phase p state) stage_id)
    with (select_hook (h :: eligible) state stage_id).
  destruct (select_hook (h :: eligible) state stage_id) as [hook|]; [|reflexivity].
  change (hook_exposure_of (GameState.set_game_phase p state))
    with (hook_exposure_of state).
  destruct (RollResult.success _); reflexivity.
Qed.

(** Rewrite the state a nested call receives as the phase set on the state
    the same call receives on the other side of the equation. *)
Ltac pull_phase_check p :=
  match goal with
  | |- context [fragment_trigger_check ?a _ _] =>
      match goal with
      | |- context [fragment_trigger_check ?b _ _] =>
          assert_fails (constr_eq a b);
          change a with (GameState.set_game_phase p b)
      end
  end.

Ltac pull_phase_proactive p :=
  match goal with
  | |- context [proactive_check ?a _ _] =>
      match goal with
      | |- context [proactive_check ?b _ _] =>
          assert_fails (constr_eq a b);
          change a with (GameState.set_game_phase p b)
      end
  end.

(** X25.  No entry point reads the phase: [day_start], [action_select] and
    [chat] return the same messages and make the same changes in every phase,
    [ENDED] included, and so does [day_end], which only overwrites the phase
    when the run ends.  An ended session is not read-only. *)
Theorem entry_points_ignore_the_phase (p : GamePhase) (state : GameState.t) :
  (forall config,
     day_start (GameState.set_game_phase p state) config
     = (GameState.set_game_phase p (fst (day_start state config)),
        snd (day_start state config)))
  /\ (forall content location time_slot stage_id,
        action_select (GameState.set_game_phase p state) content location
                      time_slot stage_id
        = (GameState.set_game_phase p
             (fst (action_select state content location time_slot stage_id)),
           snd (action_select state content location time_slot stage_id)))
  /\ (forall text content stage_id,
        chat (GameState.set_game_phase p state) text content stage_id
        = (GameState.set_game_phase p (fst (chat state text content stage_id)),
           snd (chat state text content stage_id)))
  /\ (forall config content,
        snd (day_end (GameState.set_game_phase p state) config content)
        = snd (day_end state config content)
        /\ (default 7 (ConfigBundle.run config !! "days_per_run")
            < GameState.day_index state + 1 ->
            fst (day_end (GameState.set_game_phase p state) config content)
            = fst (day_end state config content))
        /\ (GameState.day_index state + 1
            <= default 7 (ConfigBundle.run config !! "days_per_run") ->
            fst (day_end (GameState.set_game_phase p state) config content)
            = GameState.set_game_phase p (fst (day_end state config content)))).
Proof.
  split; [|split; [|split]].
  - intros config. unfold day_start.
    destruct (Resources.init (ConfigBundle.resources config)); reflexivity.
  - intros content location time_slot stage_id. unfold action_select.
    change (GameState.resources (GameState.set_game_phase p state))
      with (GameState.resources state).
    destruct (Resources.ap (GameState.resources state) <=? 0); [reflexivity|].
    pull_phase_check p.
    rewrite fragment_trigger_check_phase.
    destruct (fragment_trigger_check _ location stage_id)
      as [s1 [fragment_message|e]]; cbn [fst snd]; [|reflexivity].
    change (select_event content location time_slot (GameState.set_game_phase p s1))
      with (select_event content location time_slot s1).
    destruct (select_event content location time_slot s1) as [event|];
      [destruct fragment_message, (Event.event_id event) as [event_id|];
       try destruct (Py.truthy_str event_id)|];
      cbv beta iota zeta;
      pull_phase_proactive p;
      rewrite proactive_check_phase;
      destruct (proactive_check _ content stage_id) as [s3 ms]; reflexivity.
  - intros text content stage_id. unfold chat.
    change (GameState.resources (GameState.set_game_phase p state))
      with (GameState.resources state).
    destruct (Resources.chat_turns (GameState.resources state) <=? 0); [reflexivity|].
    pull_phase_proactive p.
    rewrite proactive_check_phase.
    destruct (proactive_check _ content stage_id) as [s3 ms]; reflexivity.
  - intros config content. unfold day_end.
    change (pick_fragment (GameState.set_game_phase p state) config)
      with (pick_fragment state config).
    destruct (pick_fragment state config) as [fragment|];
      cbn [GameState.day_index GameState.set_day_index
           GameState.set_current_context GameState.set_fragment_candidates_today
           GameState.set_fragments_active GameState.set_game_phase];
      destruct (_ <? _) eqn:Hpast;
      try (apply Z.ltb_ge in Hpast; cbn [fst snd];
           split; [reflexivity|]; split; [intros; lia|intros; reflexivity]);
      apply Z.ltb_lt in Hpast;
      (split; [reflexivity|]); (split; [intros; reflexivity|intros; lia]).
Qed.

(** ** Context and event history *)

(** X26.  After an [action_select] call that spends an action point and
    returns, the context holds the location, time slot and stage of the
    action and the id of the selected event (none when no event was
    selected); the event history grows by that id when it is a non-empty
    string and is unchanged otherwise, and the selected event is a catalog
    event at that location and time slot. *)
Theorem action_select_records_the_event (state : GameState.t)
    (content : ContentBundle.t) (location time_slot stage_id : string)
    (result : list Message.t * list string) :
  0 < Resources.ap (GameState.resources state) ->
  snd (action_select state content location time_slot stage_id) = Py.Return result ->
  let state' := fst (action_select state content location time_slot stage_id) in
  let ctx := GameState.current_context state' in
  CurrentContext.location ctx = Some location
  /\ CurrentContext.time_slot ctx = Some time_slot
  /\ CurrentContext.stage_id ctx = Some stage_id
  /\ Resources.ap (GameState.resources state')
     = Resources.ap (GameState.resources state) - 1
  /\ ((CurrentContext.event_id ctx = None \/ CurrentContext.event_id ctx = Some EmptyString)
      /\ GameState.event_history state' = GameState.event_history state
      \/ exists event_id original,
           event_id <> EmptyString
           /\ CurrentContext.event_id ctx = Some event_id
           /\ GameState.event_history state'
              = GameState.event_history state ++ [event_id]
           /\ original ∈ ContentBundle.events content
           /\ Event.event_id original = Some event_id
           /\ Event.location original = Some location
           /\ Event.time_slot original = Some time_slot).
Proof.
  intros Hap Hreturned state' ctx. subst ctx state'. revert Hreturned.
  unfold action_select.
  replace (Resources.ap (GameState.resources state) <=? 0) with false
    by (symmetry; apply Z.leb_gt; exact Hap).
  fold (prepared_action state location time_slot stage_id).
  set (prepared := prepared_action state location time_slot stage_id).
  destruct (fragment_trigger_check_frame prepared location stage_id)
    as (_ & _ & _ & Hres & Hctx & _ & _ & _ & _ & Hhist).
  destruct (fragment_trigger_check prepared location stage_id)
    as [s1 [fragment_message|e]]; cbn [fst snd] in *; [|discriminate].
  intros _.
  assert (forall s2 : GameState.t,
            GameState.resources s2 = GameState.resources s1 ->
            Resources.ap
              (GameState.resources (fst (proactive_check s2 content stage_id)))
            = Resources.ap (GameState.resources state) - 1) as Hspent.
  { intros s2 H2.
    destruct (proactive_check_frame s2 content stage_id)
      as (_ & _ & _ & [->|[_ ->]] & _); rewrite H2, Hres; reflexivity. }
  destruct (select_event content location time_slot s1) as [event|] eqn:Hevent.
  - unfold select_event in Hevent. apply select_weighted_elem in Hevent.
    apply list_elem_of_fmap in Hevent. destruct Hevent as (original & -> & Hin).
    rewrite list_elem_of_In, List.filter_In, <- list_elem_of_In in Hin.
    destruct Hin as [Hin Hmatch]. apply andb_true_iff in Hmatch.
    destruct Hmatch as [Hloc Hslot].
    assert (Event.location original = Some location) as Hloc'.
    { destruct (Event.location original); [|discriminate].
      apply String.eqb_eq in Hloc. congruence. }
    assert (Event.time_slot original = Some time_slot) as Hslot'.
    { destruct (Event.time_slot original); [|discriminate].
      apply String.eqb_eq in Hslot. congruence. }
    cbn [Event.event_id Event.set_base_weight Event.intro Event.outro
         Event.choice_points Event.fragment_hooks].
    destruct fragment_message, (Event.event_id original) as [event_id|] eqn:Hid;
      try destruct (Py.truthy_str event_id) eqn:Htruthy;
      cbv beta iota zeta;
      match goal with
      | |- context [proactive_check ?s content stage_id] =>
          specialize (Hspent s eq_refl);
          destruct (proactive_check_frame s content stage_id)
            as (_ & _ & _ & _ & Hc & _ & _ & _ & Hh & _);
          destruct (proactive_check s content stage_id) as [s3 ms]
      end;
      cbn [fst snd] in *; rewrite Hc, Hh; state_simpl; rewrite Hctx, Hhist;
      (repeat (split; [first [reflexivity|exact Hspent]|]));
      first
        [ right; exists event_id, original;
          split; [intros ->; discriminate Htruthy|];
          repeat (split; [first [reflexivity|assumption]|]); assumption
        | left; split; [|reflexivity];
          first [left; reflexivity
                |right; destruct event_id; [reflexivity|discriminate Htruthy]] ].
  - cbv beta iota zeta.
    match goal with
    | |- context [proactive_check ?s content stage_id] =>
        specialize (Hspent s eq_refl);
        destruct (proactive_check_frame s content stage_id)
          as (_ & _ & _ & _ & Hc & _ & _ & _ & Hh & _);
        destruct (proactive_check s content stage_id) as [s3 ms]
    end.
    cbn [fst snd] in *. rewrite Hc, Hh, Hctx, Hhist.
    repeat (split; [first [reflexivity|exact Hspent]|]).
    left. split; [left; reflexivity|reflexivity].
Qed.

Lemma action_select_records_the_event_witness :
  let state := GameState.set_resources (Resources.mk 3 2 1 1) Fixture.at_school in
  let state' :=
    fst (action_select state Fixture.sure_content "school" "morning" "event_flow") in
  Resources.ap (GameState.resources state') = 2
  /\ CurrentContext.location (GameState.current_context state')
     = Some "school"%string.
Proof.
  intros state state'.
  destruct (action_select_records_the_event state Fixture.sure_content
              "school" "morning" "event_flow"
              (snd (match snd (action_select state Fixture.sure_content
                                 "school" "morning" "event_flow") with
                    | Py.Return r => (state, r)
                    | Py.Raise _ => (state, ([], []))
                    end)))
    as (Hloc & _ & _ & Hap & _).
  - vm_compute. reflexivity.
  - vm_compute. reflexivity.
  - split; [exact Hap|exact Hloc].
Defined.
